(** * tsh: commands, processes and scoped directory changes

    A shallow embedding of the Python package [tsh] (command.py, process.py,
    contexts.py, decorators.py, shell.py, types.py, errors.py), the
    properties of it that its specification states, and further properties
    that the code shows.

    Python objects that are shared and mutated (lists, dicts, [Command]
    instances) live in an explicit heap; the operating system (clock, working
    directory, directories, files, children) is an explicit world that every
    operation threads through; exceptions are an outcome of a computation. *)

From Stdlib Require Import ZArith Lia.
From stdpp Require Import base list strings.

Local Open Scope string_scope.
Local Open Scope list_scope.
Local Open Scope Z_scope.

(** ** Python values *)

(** The values that occur as arguments, keyword values and options. *)
Inductive pyval :=
| VNone
| VBool (b : bool)
| VStr (s : string).

#[global] Instance pyval_eq_dec : EqDecision pyval.
Proof. solve_decision. Defined.

(** [str(v)], as an f-string formats a value. *)
Definition pystr (v : pyval) : string :=
  match v with
  | VNone => "None"
  | VBool true => "True"
  | VBool false => "False"
  | VStr s => s
  end.

(** ** Dictionaries

    A Python [dict] keeps its keys in insertion order, and rendering a command
    depends on that order: a dict is an association list with one entry for
    each key. *)
Section Dict.
Context {V : Type}.

Definition dict := list (string * V).

Fixpoint dict_get (d : dict) (k : string) : option V :=
    match d with
    | [] => None
    | (k', v) :: rest => if decide (k' = k) then Some v else dict_get rest k
    end.

  (** [k in d] *)
Definition dict_in (k : string) (d : dict) : bool :=
    match dict_get d k with Some _ => true | None => false end.

  (** [d[k] = v]: a key that is present keeps its place, a new key goes last. *)
Fixpoint dict_set (d : dict) (k : string) (v : V) : dict :=
    match d with
    | [] => [(k, v)]
    | (k', v') :: rest =>
        if decide (k' = k) then (k', v) :: rest else (k', v') :: dict_set rest k v
    end.

  (** [del d[k]], the state that [d.pop(k)] leaves. *)
Fixpoint dict_del (d : dict) (k : string) : dict :=
    match d with
    | [] => []
    | (k', v') :: rest =>
        if decide (k' = k) then rest else (k', v') :: dict_del rest k
    end.

  (** [{**a, **b}] and [a.update(b)]: the entries of [b] are set one after the
      other, in [b]'s order. *)
Definition dict_update (a b : dict) : dict :=
    fold_left (fun acc kv => dict_set acc kv.1 kv.2) b a.

Definition dict_keys (d : dict) : list string := map fst d.
End Dict.
Arguments dict V : clear implicits.

Definition pydict := dict pyval.

(** ** Outcomes and the state monad *)

Inductive exn :=
| OSError
| CommandNotFound (message : string)
| AttributeError
| IndexError
| KeyError
| TypeError
| UnicodeError.

(** What running a piece of code gives: a value, an exception, a call that
    blocks for ever, or a loop that the model's fuel did not cover. *)
Inductive outcome (A : Type) :=
| Ret (a : A)
| Exc (e : exn)
| Blocked
| OutOfFuel.
Arguments Ret {A} a.
Arguments Exc {A} e.
Arguments Blocked {A}.
Arguments OutOfFuel {A}.

Definition M (S A : Type) : Type := S -> outcome A * S.

Definition ret {S A} (a : A) : M S A := fun s => (Ret a, s).

Definition raise {S A} (e : exn) : M S A := fun s => (Exc e, s).

Definition bind {S A B} (m : M S A) (k : A -> M S B) : M S B :=
  fun s =>
    match m s with
    | (Ret a, s') => k a s'
    | (Exc e, s') => (Exc e, s')
    | (Blocked, s') => (Blocked, s')
    | (OutOfFuel, s') => (OutOfFuel, s')
    end.

Declare Scope py_scope.
Delimit Scope py_scope with py.
Notation "x <~ m ;; k" := (bind m (fun x => k))
  (at level 65, m at next level, right associativity) : py_scope.
Notation "m ;;; k" := (bind m (fun _ => k))
  (at level 65, right associativity) : py_scope.
Local Open Scope py_scope.

Definition gets {S A} (f : S -> A) : M S A := fun s => (Ret (f s), s).

Definition modify {S} (f : S -> S) : M S unit := fun s => (Ret tt, f s).

(** [try: body / except OSError: handler] *)
Definition try_except_OSError {S A} (body handler : M S A) : M S A :=
  fun s =>
    match body s with
    | (Exc OSError, s') => handler s'
    | r => r
    end.

(** [try: body / finally: cleanup].  The cleanup runs however the body ends
    (not when the body never ends); an exception of the cleanup replaces the
    body's outcome. *)
Definition try_finally {S A} (body : M S A) (cleanup : M S unit) : M S A :=
  fun s =>
    match body s with
    | (Ret a, s') => (cleanup ;;; ret a) s'
    | (Exc e, s') => (cleanup ;;; raise e) s'
    | r => r
    end.

(** ** The heap and the world *)

Definition loc := nat.

Record CommandObj := {
  command : string;
  search_paths : option (list string);
  _options : loc;
  _args : loc;
  _kwargs : loc;
}.

Inductive obj :=
| OList (l : list pyval)
| ODict (d : pydict)
| OCommand (c : CommandObj).

(** What a child does with one of its output streams, as the system has it.
    What is written there by the descendants of the child counts too. *)
Record Output := {
  o_written : Z -> list Byte.byte;  (* what has gone into the stream when so many milliseconds have passed since the start of the child *)
  o_fits : bool;  (* whether all of it fits into a pipe that nobody reads *)
  o_lingers : option Z;  (* for how long after the end of the child a descendant holds the stream open; [None]: for ever *)
}.

(** Where a child writes what does not go into a pipe. *)
Inductive sink :=
| ToFile (path : string)
| ToStdout
| ToStderr.

#[global] Instance sink_eq_dec : EqDecision sink.
Proof. solve_decision. Defined.

(** A stream of a child that goes into a file, or to the standard output or
    error of this process. *)
Record Stream := {
  s_sink : sink;
  s_pid : Z;
  s_started : Z;  (* the time at which the child started *)
  s_ends : option Z;  (* the time at which the child ends, as things stand *)
  s_output : Output;
}.

(** What the program's primitives read and change outside its own variables. *)
Record World := {
  heap : list obj;  (* the Python objects, by address *)
  clock : Z;  (* the time, in milliseconds: [time.time()] is [clock / 1000] *)
  cwd : string;  (* [os.getcwd()] *)
  dirs : list string;  (* the directories that exist *)
  files : dict (list Byte.byte);  (* the regular files and what they held when this process opened them last; what the children have written since is in [streams] *)
  open_writers : list string;  (* the files that are open for writing *)
  environ : dict string;  (* [os.environ] *)
  faults : list bool;  (* whether the coming system calls fail, one entry for each call *)
  spawned : list (list string);  (* the argument vectors of the children spawned so far *)
  parent_stdout : list Byte.byte;  (* what this process itself wrote to its standard output *)
  parent_stderr : list Byte.byte;  (* what this process itself wrote to its standard error *)
  pushd_lock : nat;  (* how often this thread holds [PUSHD_LOCK] *)
  streams : list Stream;  (* the streams of the children into files and into the streams of this process *)
  pauses : list Z;  (* for how long this thread is held at the coming places where the model lets it be held *)
}.

Definition set_heap (h : list obj) (w : World) : World :=
  {| heap := h; clock := clock w; cwd := cwd w; dirs := dirs w;
     files := files w; open_writers := open_writers w; environ := environ w;
     faults := faults w; spawned := spawned w;
     parent_stdout := parent_stdout w; parent_stderr := parent_stderr w;
     pushd_lock := pushd_lock w;
     streams := streams w; pauses := pauses w |}.

Definition set_clock (t : Z) (w : World) : World :=
  {| heap := heap w; clock := t; cwd := cwd w; dirs := dirs w;
     files := files w; open_writers := open_writers w; environ := environ w;
     faults := faults w; spawned := spawned w;
     parent_stdout := parent_stdout w; parent_stderr := parent_stderr w;
     pushd_lock := pushd_lock w;
     streams := streams w; pauses := pauses w |}.

Definition set_cwd (d : string) (w : World) : World :=
  {| heap := heap w; clock := clock w; cwd := d; dirs := dirs w;
     files := files w; open_writers := open_writers w; environ := environ w;
     faults := faults w; spawned := spawned w;
     parent_stdout := parent_stdout w; parent_stderr := parent_stderr w;
     pushd_lock := pushd_lock w;
     streams := streams w; pauses := pauses w |}.

Definition set_dirs (ds : list string) (w : World) : World :=
  {| heap := heap w; clock := clock w; cwd := cwd w; dirs := ds;
     files := files w; open_writers := open_writers w; environ := environ w;
     faults := faults w; spawned := spawned w;
     parent_stdout := parent_stdout w; parent_stderr := parent_stderr w;
     pushd_lock := pushd_lock w;
     streams := streams w; pauses := pauses w |}.

Definition set_files (fs : dict (list Byte.byte)) (w : World) : World :=
  {| heap := heap w; clock := clock w; cwd := cwd w; dirs := dirs w;
     files := fs; open_writers := open_writers w; environ := environ w;
     faults := faults w; spawned := spawned w;
     parent_stdout := parent_stdout w; parent_stderr := parent_stderr w;
     pushd_lock := pushd_lock w;
     streams := streams w; pauses := pauses w |}.

Definition set_open_writers (ws : list string) (w : World) : World :=
  {| heap := heap w; clock := clock w; cwd := cwd w; dirs := dirs w;
     files := files w; open_writers := ws; environ := environ w;
     faults := faults w; spawned := spawned w;
     parent_stdout := parent_stdout w; parent_stderr := parent_stderr w;
     pushd_lock := pushd_lock w;
     streams := streams w; pauses := pauses w |}.

Definition set_environ (e : dict string) (w : World) : World :=
  {| heap := heap w; clock := clock w; cwd := cwd w; dirs := dirs w;
     files := files w; open_writers := open_writers w; environ := e;
     faults := faults w; spawned := spawned w;
     parent_stdout := parent_stdout w; parent_stderr := parent_stderr w;
     pushd_lock := pushd_lock w;
     streams := streams w; pauses := pauses w |}.

Definition set_faults (fl : list bool) (w : World) : World :=
  {| heap := heap w; clock := clock w; cwd := cwd w; dirs := dirs w;
     files := files w; open_writers := open_writers w; environ := environ w;
     faults := fl; spawned := spawned w; parent_stdout := parent_stdout w;
     parent_stderr := parent_stderr w; pushd_lock := pushd_lock w;
     streams := streams w; pauses := pauses w |}.

Definition set_spawned (sp : list (list string)) (w : World) : World :=
  {| heap := heap w; clock := clock w; cwd := cwd w; dirs := dirs w;
     files := files w; open_writers := open_writers w; environ := environ w;
     faults := faults w; spawned := sp; parent_stdout := parent_stdout w;
     parent_stderr := parent_stderr w; pushd_lock := pushd_lock w;
     streams := streams w; pauses := pauses w |}.

Definition set_parent_stdout (b : list Byte.byte) (w : World) : World :=
  {| heap := heap w; clock := clock w; cwd := cwd w; dirs := dirs w;
     files := files w; open_writers := open_writers w; environ := environ w;
     faults := faults w; spawned := spawned w; parent_stdout := b;
     parent_stderr := parent_stderr w; pushd_lock := pushd_lock w;
     streams := streams w; pauses := pauses w |}.

Definition set_parent_stderr (b : list Byte.byte) (w : World) : World :=
  {| heap := heap w; clock := clock w; cwd := cwd w; dirs := dirs w;
     files := files w; open_writers := open_writers w; environ := environ w;
     faults := faults w; spawned := spawned w;
     parent_stdout := parent_stdout w; parent_stderr := b;
     pushd_lock := pushd_lock w;
     streams := streams w; pauses := pauses w |}.

Definition set_pushd_lock (n : nat) (w : World) : World :=
  {| heap := heap w; clock := clock w; cwd := cwd w; dirs := dirs w;
     files := files w; open_writers := open_writers w; environ := environ w;
     faults := faults w; spawned := spawned w;
     parent_stdout := parent_stdout w; parent_stderr := parent_stderr w;
     pushd_lock := n; streams := streams w; pauses := pauses w |}.

Definition set_streams (ss : list Stream) (w : World) : World :=
  {| heap := heap w; clock := clock w; cwd := cwd w; dirs := dirs w;
     files := files w; open_writers := open_writers w; environ := environ w;
     faults := faults w; spawned := spawned w;
     parent_stdout := parent_stdout w; parent_stderr := parent_stderr w;
     pushd_lock := pushd_lock w; streams := ss; pauses := pauses w |}.

Definition set_pauses (ds : list Z) (w : World) : World :=
  {| heap := heap w; clock := clock w; cwd := cwd w; dirs := dirs w;
     files := files w; open_writers := open_writers w; environ := environ w;
     faults := faults w; spawned := spawned w;
     parent_stdout := parent_stdout w; parent_stderr := parent_stderr w;
     pushd_lock := pushd_lock w; streams := streams w; pauses := ds |}.

(** A new object gets the next free address. *)
Definition alloc (o : obj) : M World loc :=
  fun w => (Ret (length (heap w)), set_heap (heap w ++ [o]) w).

Definition store (l : loc) (o : obj) : M World unit :=
  modify (fun w => set_heap (<[l := o]> (heap w)) w).

(** A reference of a running program always leads to an object of its class;
    the model answers [TypeError] where that fails. *)
Definition load_list (l : loc) : M World (list pyval) :=
  fun w => match heap w !! l with
           | Some (OList x) => (Ret x, w)
           | _ => (Exc TypeError, w)
           end.

Definition load_dict (l : loc) : M World pydict :=
  fun w => match heap w !! l with
           | Some (ODict d) => (Ret d, w)
           | _ => (Exc TypeError, w)
           end.

Definition load_command (l : loc) : M World CommandObj :=
  fun w => match heap w !! l with
           | Some (OCommand c) => (Ret c, w)
           | _ => (Exc TypeError, w)
           end.

(** [d[k]] *)
Definition getitem {S V} (d : dict V) (k : string) : M S V :=
  match dict_get d k with
  | Some v => ret v
  | None => raise KeyError
  end.

(** ** command.py *)
Module Command.
Section WithSearch.
(** [shutil.which(cmd, path)]: the file that the name resolves to, on the
    given search path or on the default one. *)
Variable which : string -> option string -> option string.

Definition DEFAULT_OPTIONS : pydict :=
  [ ("fg", VBool false);
    ("in", VNone);
    ("out", VNone);
    ("err", VNone);
    ("kwargs_sep", VStr " ");
    ("kwargs_prefix", VStr "--") ].

(** [os.pathsep.join(map(str, search_paths))] *)
Definition pathsep_join (search_paths : list string) : string :=
  String.concat ":" search_paths.

Definition __init__ (command : string) (search_paths : option (list string))
  : M World loc :=
  let path := match search_paths with
              | None => None
              | Some sp => Some (pathsep_join sp)
              end in
  match which command path with
  | None => raise (CommandNotFound command)
  | Some found =>
      options <~ alloc (ODict DEFAULT_OPTIONS) ;;
      args <~ alloc (OList []) ;;
      kwargs <~ alloc (ODict []) ;;
      alloc (OCommand {| command := found; search_paths := search_paths;
                         _options := options; _args := args;
                         _kwargs := kwargs |})
  end.

(** The loop of [bake] over the option names: an option found in [kwargs]
    under its underscored name is popped from there and kept in [options]. *)
Fixpoint pop_options (names : list string) (kwargs options : loc)
  : M World unit :=
  match names with
  | [] => ret tt
  | option :: rest =>
      let key := "_" +:+ option in
      kw <~ load_dict kwargs ;;
      match dict_get kw key with
      | Some v =>
          store kwargs (ODict (dict_del kw key)) ;;;
          o <~ load_dict options ;;
          store options (ODict (dict_set o option v))
      | None => ret tt
      end ;;;
      pop_options rest kwargs options
  end.

(** [self.bake( *args, **kwargs)].  The call binds [**kwargs] to a dict of
    its own, which the body then changes. *)
Definition bake (self : loc) (args : list pyval) (kwargs : pydict)
  : M World loc :=
  kwargs <~ alloc (ODict kwargs) ;;
  this <~ load_command self ;;
  cmd <~ __init__ (command this) (search_paths this) ;;
  (* cmd._args = self._args.copy() + list(args) *)
  self_args <~ load_list (_args this) ;;
  copy <~ alloc (OList self_args) ;;
  listed <~ alloc (OList args) ;;
  copy_l <~ load_list copy ;;
  listed_l <~ load_list listed ;;
  new_args <~ alloc (OList (copy_l ++ listed_l)) ;;
  c <~ load_command cmd ;;
  store cmd (OCommand {| command := command c; search_paths := search_paths c;
                         _options := _options c; _args := new_args;
                         _kwargs := _kwargs c |}) ;;;
  (* options = {}; for option in self.DEFAULT_OPTIONS: ... *)
  options <~ alloc (ODict []) ;;
  pop_options (dict_keys DEFAULT_OPTIONS) kwargs options ;;;
  (* cmd._kwargs = {**self._kwargs, **kwargs} *)
  self_kwargs <~ load_dict (_kwargs this) ;;
  kw <~ load_dict kwargs ;;
  new_kwargs <~ alloc (ODict (dict_update self_kwargs kw)) ;;
  c <~ load_command cmd ;;
  store cmd (OCommand {| command := command c; search_paths := search_paths c;
                         _options := _options c; _args := _args c;
                         _kwargs := new_kwargs |}) ;;;
  (* cmd._options = {**self._options, **options} *)
  self_options <~ load_dict (_options this) ;;
  opts <~ load_dict options ;;
  new_options <~ alloc (ODict (dict_update self_options opts)) ;;
  c <~ load_command cmd ;;
  store cmd (OCommand {| command := command c; search_paths := search_paths c;
                         _options := new_options; _args := _args c;
                         _kwargs := _kwargs c |}) ;;;
  ret cmd.

(** One turn of the loop of [command_list] over [self._kwargs.items()]. *)
Definition render_kwarg (sep prefix : pyval) (command : list pyval)
    (item : string * pyval) : list pyval :=
  let '(key, value) := item in
  if decide (sep = VStr " ")
  then command ++ [VStr (pystr prefix +:+ key); value]
  else command ++ [VStr (pystr prefix +:+ key +:+ pystr sep +:+ pystr value)].

Definition command_list (self : loc) : M World (list pyval) :=
  this <~ load_command self ;;
  args <~ load_list (_args this) ;;
  let command := VStr (command this) :: args in
  options <~ load_dict (_options this) ;;
  sep <~ getitem options "kwargs_sep" ;;
  prefix <~ getitem options "kwargs_prefix" ;;
  kwargs <~ load_dict (_kwargs this) ;;
  ret (fold_left (render_kwarg sep prefix) kwargs command).

Definition space : Ascii.ascii := Ascii.ascii_of_nat 32.
Definition quote_mark : string := String (Ascii.ascii_of_nat 34) EmptyString.

(** [" " in item] for a string *)
Fixpoint has_space (s : string) : bool :=
  match s with
  | EmptyString => false
  | String c rest => if decide (c = space) then true else has_space rest
  end.

(** [f'"{item}"' if " " in item else item]; [in] raises [TypeError] on an
    item that is not a string. *)
Definition quote_item (item : pyval) : M World string :=
  match item with
  | VStr s => ret (if has_space s then quote_mark +:+ s +:+ quote_mark else s)
  | _ => raise TypeError
  end.

(** The list comprehension of [command_line] *)
Fixpoint quote_items (items : list pyval) : M World (list string) :=
  match items with
  | [] => ret []
  | item :: rest =>
      q <~ quote_item item ;;
      qs <~ quote_items rest ;;
      ret (q :: qs)
  end.

Definition command_line (self : loc) : M World string :=
  items <~ command_list self ;;
  quoted <~ quote_items items ;;
  ret (String.concat " " quoted).

(** [__str__] and [__repr__] *)
Definition __str__ (self : loc) : M World string := command_line self.
End WithSearch.
End Command.

(** ** Primitives of the operating system *)

(** [x.attr] where [x] may be [None] *)
Definition deref {S A} (o : option A) : M S A :=
  match o with
  | Some a => ret a
  | None => raise AttributeError
  end.

(** Whether the system call that comes next fails; an empty list lets every
    call succeed. *)
Definition os_fault : M World bool :=
  fun w =>
    match faults w with
    | [] => (Ret false, w)
    | b :: rest => (Ret b, set_faults rest w)
    end.

Definition syscall : M World unit :=
  failed <~ os_fault ;;
  if (failed : bool) then raise OSError else ret tt.

(** What a stream has brought at the time [now]: what has gone into it
    since the start of the child, until the child has ended and its
    descendants have let go of the stream. *)
Definition brought (s : Stream) (now : Z) : list Byte.byte :=
  let upto := match s_ends s, o_lingers (s_output s) with
              | Some t, Some l => Z.min now (t + Z.max 0 l)
              | _, _ => now
              end in
  o_written (s_output s) (upto - s_started s).

(** What the streams into [target] have brought by now *)
Definition arrived (target : sink) (w : World) : list Byte.byte :=
  flat_map (fun s => if decide (s_sink s = target) then brought s (clock w)
                     else [])
    (streams w).

(** What a file holds now: what it held when it was written last by this
    process, and what the children have written to it since. *)
Definition file_now (path : string) (w : World) : option (list Byte.byte) :=
  match dict_get (files w) path with
  | Some content => Some (content ++ arrived (ToFile path) w)%list
  | None => None
  end.

(** What has gone to the standard output and error of this process *)
Definition stdout_now (w : World) : list Byte.byte :=
  (parent_stdout w ++ arrived ToStdout w)%list.

Definition stderr_now (w : World) : list Byte.byte :=
  (parent_stderr w ++ arrived ToStderr w)%list.

(** The child [pid] ends at [t] at the latest: its streams bring nothing of
    what it would have written later. *)
Definition end_streams (pid t : Z) (w : World) : World :=
  set_streams
    (map (fun s =>
            if decide (s_pid s = pid) then
              {| s_sink := s_sink s; s_pid := s_pid s;
                 s_started := s_started s;
                 s_ends := Some match s_ends s with
                                | Some t0 => Z.min t0 t
                                | None => t
                                end;
                 s_output := s_output s |}
            else s)
       (streams w)) w.

(** [io.open(path, "wb")]: the file is created or emptied.  What a child of
    an earlier start has written to it is gone, and what such a child still
    writes there is not followed. *)
Definition open_wb (path : string) : M World string :=
  syscall ;;;
  modify (fun w =>
    set_streams (filter (fun s => s_sink s <> ToFile path) (streams w))
      (set_open_writers (path :: open_writers w)
         (set_files (dict_set (files w) path []) w))) ;;;
  ret path.

(** [f.close()] of a file that was opened for writing *)
Definition close_writer (path : string) : M World unit :=
  modify (fun w =>
    set_open_writers (filter (fun q => q <> path) (open_writers w)) w).

(** The bytes that [io.open(path, "r").read()] finds in the file *)
Definition read_file (path : string) : M World (list Byte.byte) :=
  syscall ;;;
  found <~ gets (file_now path) ;;
  match found with
  | Some content => ret content
  | None => raise OSError
  end.

Definition carriage_return : Ascii.ascii := Ascii.ascii_of_nat 13.

(** What a file that is open in text mode makes of the text that it decodes:
    every [\r\n] and every other [\r] is a [\n]. *)
Fixpoint universal_newlines (text : string) : string :=
  match text with
  | EmptyString => EmptyString
  | String c rest =>
      if decide (c = carriage_return) then
        match rest with
        | String c' rest' =>
            if decide (c' = Ascii.ascii_of_nat 10)
            then String (Ascii.ascii_of_nat 10) (universal_newlines rest')
            else String (Ascii.ascii_of_nat 10) (universal_newlines rest)
        | EmptyString => String (Ascii.ascii_of_nat 10) EmptyString
        end
      else String c (universal_newlines rest)
  end.

Definition getcwd : M World string := gets cwd.

(** [os.chdir(path)] fails unless [path] is a directory. *)
Definition chdir (path : string) : M World unit :=
  ds <~ gets dirs ;;
  if decide (path ∈ ds) then modify (set_cwd path) else raise OSError.

(** [os.makedirs(path, exist_ok=True)] *)
Definition makedirs (path : string) : M World unit :=
  ds <~ gets dirs ;;
  if decide (path ∈ ds) then ret tt
  else syscall ;;; modify (fun w => set_dirs (path :: dirs w) w).

(** [s[-1]] *)
Fixpoint last_char (s : string) : option Ascii.ascii :=
  match s with
  | EmptyString => None
  | String c EmptyString => Some c
  | String _ rest => last_char rest
  end.

Definition newline : Ascii.ascii := Ascii.ascii_of_nat 10.
Definition dquote : string := String (Ascii.ascii_of_nat 34) EmptyString.
Definition slash : Ascii.ascii := Ascii.ascii_of_nat 47.

(** ** types.py *)
Module types.
Record Result := {
  exit_code : option Z;
  stdout : string;
  stderr : string;
}.
End types.

(** ** process.py *)
Module Process.

(** The value of [_stdout_writer] and [_stderr_writer] once set:
    [subprocess.PIPE] or the file that was opened. *)
Inductive writer :=
  | PIPE
  | FileWriter (path : string).

(** What the operating system decides about a child: its ids, how long it
    runs if nothing ends it or holds it up and the status it then ends with,
    how long a SIGKILL takes to end it, how long it still runs once a full
    pipe that held it up is read, and what it does with its standard output
    and its standard error. *)
Record Child := {
  c_pid : Z;
  c_pgid : Z;
  c_lifetime : option (Z * Z);
  c_sigkill_latency : Z;
  c_resume : Z;
  c_out : Output;
  c_err : Output;
}.

(** The reading end of a pipe: [read()] reads up to the end of the file, so
    nothing or all of it has been read. *)
Inductive pipe :=
| Unread
| ReadToEnd.

#[global] Instance pipe_eq_dec : EqDecision pipe.
Proof. solve_decision. Defined.

(** A [subprocess.Popen] object together with what the system knows of its
    child.  [p_exit] is the time at which the child ends, or ended, as things
    stand, and its status: a signal can set it, and a child that a full pipe
    holds up has none until the pipe is read.  The waiter thread sits in
    [Popen.wait()], so [returncode] is set from that time on.  [p_stdout]
    and [p_stderr] are the [stdout] and [stderr] attributes: [None] unless a
    pipe was asked for. *)
Record Popen := {
  p_pid : Z;
  p_pgid : Z;
  p_exit : option (Z * Z);
  p_sigkill_latency : Z;
  p_stdin_buffer : list Byte.byte;
  p_stdin_pipe : list Byte.byte;
  p_stdout : option pipe;
  p_stderr : option pipe;
  p_started : Z;
  p_child : Child;
}.

Definition set_p_exit (e : option (Z * Z)) (h : Popen) : Popen :=
  {| p_pid := p_pid h; p_pgid := p_pgid h; p_exit := e;
     p_sigkill_latency := p_sigkill_latency h;
     p_stdin_buffer := p_stdin_buffer h; p_stdin_pipe := p_stdin_pipe h;
     p_stdout := p_stdout h; p_stderr := p_stderr h;
     p_started := p_started h; p_child := p_child h |}.

Definition set_p_stdin (buffer pipe : list Byte.byte) (h : Popen) : Popen :=
  {| p_pid := p_pid h; p_pgid := p_pgid h; p_exit := p_exit h;
     p_sigkill_latency := p_sigkill_latency h;
     p_stdin_buffer := buffer; p_stdin_pipe := pipe;
     p_stdout := p_stdout h; p_stderr := p_stderr h;
     p_started := p_started h; p_child := p_child h |}.

Definition set_p_stdout (o : option pipe) (h : Popen) : Popen :=
  {| p_pid := p_pid h; p_pgid := p_pgid h; p_exit := p_exit h;
     p_sigkill_latency := p_sigkill_latency h;
     p_stdin_buffer := p_stdin_buffer h; p_stdin_pipe := p_stdin_pipe h;
     p_stdout := o; p_stderr := p_stderr h;
     p_started := p_started h; p_child := p_child h |}.

Definition set_p_stderr (o : option pipe) (h : Popen) : Popen :=
  {| p_pid := p_pid h; p_pgid := p_pgid h; p_exit := p_exit h;
     p_sigkill_latency := p_sigkill_latency h;
     p_stdin_buffer := p_stdin_buffer h; p_stdin_pipe := p_stdin_pipe h;
     p_stdout := p_stdout h; p_stderr := o;
     p_started := p_started h; p_child := p_child h |}.

(** [Popen.returncode] at the time [now] *)
Definition returncode (h : Popen) (now : Z) : option Z :=
  match p_exit h with
  | Some (t, status) => if t <=? now then Some status else None
  | None => None
  end.

(** A started [threading.Thread] that runs [__process_wait]. *)
Inductive Thread := WaitThread.

(** The attributes of a [Process] instance. *)
Record Process := {
  _command : list string;
  _process : option Popen;
  _wait_thread : option Thread;
  _stdout : option string;
  _stderr : option string;
  _demux : bool;
  _stdout_writer : option writer;
  _stderr_writer : option writer;
  _working_dir : string;
  _environment : option (dict string);
  encoding : string;
}.

Definition set__process (h : option Popen) (p : Process) : Process :=
  {| _command := _command p; _process := h; _wait_thread := _wait_thread p;
     _stdout := _stdout p; _stderr := _stderr p; _demux := _demux p;
     _stdout_writer := _stdout_writer p; _stderr_writer := _stderr_writer p;
     _working_dir := _working_dir p; _environment := _environment p;
     encoding := encoding p |}.

Definition set__wait_thread (t : option Thread) (p : Process) : Process :=
  {| _command := _command p; _process := _process p; _wait_thread := t;
     _stdout := _stdout p; _stderr := _stderr p; _demux := _demux p;
     _stdout_writer := _stdout_writer p; _stderr_writer := _stderr_writer p;
     _working_dir := _working_dir p; _environment := _environment p;
     encoding := encoding p |}.

Definition set__stdout_writer (o : option writer) (p : Process) : Process :=
  {| _command := _command p; _process := _process p;
     _wait_thread := _wait_thread p;
     _stdout := _stdout p; _stderr := _stderr p; _demux := _demux p;
     _stdout_writer := o; _stderr_writer := _stderr_writer p;
     _working_dir := _working_dir p; _environment := _environment p;
     encoding := encoding p |}.

Definition set__stderr_writer (o : option writer) (p : Process) : Process :=
  {| _command := _command p; _process := _process p;
     _wait_thread := _wait_thread p;
     _stdout := _stdout p; _stderr := _stderr p; _demux := _demux p;
     _stdout_writer := _stdout_writer p; _stderr_writer := o;
     _working_dir := _working_dir p; _environment := _environment p;
     encoding := encoding p |}.

(** A method runs on its instance and the world. *)
Definition PM (A : Type) : Type := M (Process * World) A.

Definition lift {A} (m : M World A) : PM A :=
  fun s => let (r, w') := m s.2 in (r, (s.1, w')).

(** [self.attr] and [self.attr = v] *)
Definition self {A} (attr : Process -> A) : PM A := gets (fun s => attr s.1).

Definition assign (f : Process -> Process) : PM unit :=
  modify (fun s => (f s.1, s.2)).

(** [time.time()], in milliseconds, and [time.sleep(0.1)] *)
Definition time : PM Z := gets (fun s => clock s.2).

Definition sleep_100ms : PM unit :=
  modify (fun s => (s.1, set_clock (clock s.2 + 100) s.2)).

#[global] Instance writer_eq_dec : EqDecision writer.
Proof. solve_decision. Defined.

Section WithSystem.
(** [os.path.abspath(path)], given the working directory *)
Variable abspath : string -> string -> string.
(** The child that the system starts for an argument vector, an
    environment and a working directory, if it starts one. *)
Variable spawn : list string -> dict string -> string -> option Child.
(** [text.encode(encoding)] and [data.decode(encoding)] *)
Variable encode : string -> string -> option (list Byte.byte).
Variable decode : string -> list Byte.byte -> option string.

Definition _create_env (env : option (dict string)) : M World (dict string) :=
  full_env <~ gets environ ;;
  ret (match env with
       | Some e => dict_update full_env e
       | None => full_env
       end).

Definition __init__ (command : list string) (stdout stderr : option string)
    (demux : bool) (environment : option (dict string))
    (working_dir : option string) (encoding : string) : M World Process :=
  here <~ getcwd ;;
  ret {| _command := command;
         _process := None;
         _wait_thread := None;
         _stdout := match stdout with
                    | None => None
                    | Some path => Some (abspath here path)
                    end;
         _stderr := match stderr with
                    | None => None
                    | Some path => Some (abspath here path)
                    end;
         _demux := demux;
         _stdout_writer := None;
         _stderr_writer := None;
         _working_dir := match working_dir with
                         | None | Some EmptyString => here
                         | Some d => d
                         end;
         _environment := environment;
         encoding := encoding |}.

Definition command : PM string :=
  c <~ self _command ;;
  match c with
  | [] => raise IndexError
  | name :: _ => ret name
  end.

Definition arguments : PM (list string) :=
  c <~ self _command ;;
  ret (tail c).

(** Where a stream of a child goes: to the stream of this process when
    nothing was passed for it, to the file that was passed, or into a pipe,
    which the [Popen] object holds.  What goes elsewhere than into a pipe
    comes as the child writes it. *)
Definition emit (target : option writer) (inherited : sink) (pid now : Z)
    (ends : option Z) (output : Output) : M World unit :=
  let stream target :=
    {| s_sink := target; s_pid := pid; s_started := now; s_ends := ends;
       s_output := output |} in
  match target with
  | None => modify (fun w => set_streams (streams w ++ [stream inherited]) w)
  | Some PIPE => ret tt
  | Some (FileWriter path) =>
      modify (fun w => set_streams (streams w ++ [stream (ToFile path)]) w)
  end.

(** Whether a child gets stuck when nobody reads its pipes: it has a pipe
    for a stream into which it writes more than the pipe holds. *)
Definition held_up (c : Child) (stdout stderr : option writer) : bool :=
  bool_decide (stdout = Some PIPE) && negb (o_fits (c_out c))
  || bool_decide (stderr = Some PIPE) && negb (o_fits (c_err c)).

(** [subprocess.Popen(args, stdin=PIPE, stdout=.., stderr=.., env=..,
    cwd=..)] *)
Definition Popen_new (args : list string) (stdout stderr : option writer)
    (env : dict string) (cwd : string) : M World Popen :=
  match args with
  | [] => raise IndexError
  | _ :: _ =>
      match spawn args env cwd with
      | None => raise OSError
      | Some c =>
          now <~ gets clock ;;
          modify (fun w => set_spawned (spawned w ++ [args]) w) ;;;
          let exit := match c_lifetime c with
                      | Some (d, status) =>
                          if held_up c stdout stderr then None
                          else Some (now + d, status)
                      | None => None
                      end in
          emit stdout ToStdout (c_pid c) now (option_map fst exit)
            (c_out c) ;;;
          emit stderr ToStderr (c_pid c) now (option_map fst exit)
            (c_err c) ;;;
          ret {| p_pid := c_pid c;
                 p_pgid := c_pgid c;
                 p_exit := exit;
                 p_sigkill_latency := c_sigkill_latency c;
                 p_stdin_buffer := [];
                 p_stdin_pipe := [];
                 p_stdout := match stdout with
                             | Some PIPE => Some Unread
                             | _ => None
                             end;
                 p_stderr := match stderr with
                             | Some PIPE => Some Unread
                             | _ => None
                             end;
                 p_started := now;
                 p_child := c |}
      end
  end.

(** [Popen.wait()]: blocks until the child has ended. *)
Definition Popen_wait (h : Popen) : PM Z :=
  match p_exit h with
  | Some (t, status) =>
      modify (fun s => (s.1, set_clock (Z.max (clock s.2) t) s.2)) ;;;
      ret status
  | None => fun s => (Blocked, s)
  end.

(** [writer.close()] *)
Definition close (o : option writer) : PM unit :=
  match o with
  | Some (FileWriter path) => lift (close_writer path)
  | _ => raise AttributeError
  end.

Definition __process_wait : PM unit :=
  proc <~ self _process ;;
  h <~ deref proc ;;
  Popen_wait h ;;;
  out <~ self _stdout_writer ;;
  (if decide (out <> Some PIPE) then close out else ret tt) ;;;
  err <~ self _stderr_writer ;;
  demux <~ self _demux ;;
  if bool_decide (err <> Some PIPE) && demux then close err else ret tt.

(** [Thread.join()] on the waiter: returns once [__process_wait] is over.
    What the waiter does is done by then; an exception in a thread ends
    that thread only. *)
Definition Thread_join (t : Thread) : PM unit :=
  fun s =>
    match __process_wait s with
    | (Blocked, s') => (Blocked, s')
    | (OutOfFuel, s') => (OutOfFuel, s')
    | (_, s') => (Ret tt, s')
    end.

Definition open_writer (target : option string) : PM writer :=
  match target with
  | None => ret PIPE
  | Some path => f <~ lift (open_wb path) ;; ret (FileWriter f)
  end.

Definition start : PM unit :=
  (* Setup stdout *)
  out <~ self _stdout ;;
  w <~ open_writer out ;;
  assign (set__stdout_writer (Some w)) ;;;
  (* Setup stderr *)
  demux <~ self _demux ;;
  (if (demux : bool) then
     err <~ self _stderr ;;
     w <~ open_writer err ;;
     assign (set__stderr_writer (Some w))
   else
     w <~ self _stderr_writer ;;
     assign (set__stderr_writer w)) ;;;
  h <~ try_except_OSError
         (args <~ self _command ;;
          stdout <~ self _stdout_writer ;;
          stderr <~ self _stderr_writer ;;
          environment <~ self _environment ;;
          env <~ lift (_create_env environment) ;;
          cwd <~ self _working_dir ;;
          lift (Popen_new args stdout stderr env cwd))
         (name <~ command ;;
          raise (CommandNotFound
                   ("Executable " +:+ dquote +:+ name +:+ dquote
                    +:+ " not found"))) ;;
  assign (set__process (Some h)) ;;;
  assign (set__wait_thread (Some WaitThread)).

Definition is_running : PM bool :=
  proc <~ self _process ;;
  now <~ time ;;
  match proc with
  | None => ret false
  | Some h =>
      match returncode h now with
      | Some _ => ret false
      | None => ret true
      end
  end.

Definition pid : PM (option Z) :=
  running <~ is_running ;;
  if (running : bool) then
    proc <~ self _process ;;
    h <~ deref proc ;;
    ret (Some (p_pid h))
  else ret None.

Definition exit_code : PM (option Z) :=
  running <~ is_running ;;
  if (running : bool) then ret None
  else
    proc <~ self _process ;;
    h <~ deref proc ;;
    now <~ time ;;
    ret (returncode h now).

(** The loop of [wait] with a timeout.  The times are in milliseconds, and
    so is [timeout]: [wait(0.5)] is [wait fuel (Some 500)].  The source
    compares seconds, [time.time() - current_time < timeout * 1000]; both
    sides are multiplied by 1000 here. *)
Fixpoint wait_timeout (fuel : nat) (current_time timeout : Z) : PM bool :=
  match fuel with
  | O => fun s => (OutOfFuel, s)
  | S fuel' =>
      now <~ time ;;
      if now - current_time <? timeout * 1000 then
        running <~ is_running ;;
        if negb running then ret true
        else sleep_100ms ;;; wait_timeout fuel' current_time timeout
      else ret false
  end.

(** The loop of [wait] without a timeout. *)
Fixpoint wait_forever (fuel : nat) : PM bool :=
  match fuel with
  | O => fun s => (OutOfFuel, s)
  | S fuel' =>
      running <~ is_running ;;
      if (running : bool) then sleep_100ms ;;; wait_forever fuel'
      else ret true
  end.

Definition wait (fuel : nat) (timeout : option Z) : PM bool :=
  match timeout with
  | Some t =>
      current_time <~ time ;;
      wait_timeout fuel current_time t
  | None => wait_forever fuel
  end.

(** What a SIGKILL that was delivered at [now] does to the child. *)
Definition sigkill_effect (now : Z) (h : Popen) : Popen :=
  let t := now + p_sigkill_latency h in
  match p_exit h with
  | Some (t0, _) => if t0 <=? t then h else set_p_exit (Some (t, -9)) h
  | None => set_p_exit (Some (t, -9)) h
  end.

(** [os.kill(pid, signal.SIGKILL)] and [os.killpg(pid, signal.SIGKILL)]
    for the child of this instance *)
Definition os_kill (pid : option Z) : PM unit :=
  match pid with
  | None => raise TypeError
  | Some _ =>
      lift syscall ;;;
      now <~ time ;;
      proc <~ self _process ;;
      assign (set__process (option_map (sigkill_effect now) proc)) ;;;
      match proc with
      | Some h =>
          lift (modify (end_streams (p_pid h) (now + p_sigkill_latency h)))
      | None => ret tt
      end
  end.

Definition os_killpg (pid : option Z) : PM unit := os_kill pid.

(** [posix.getpgid(pid)] *)
Definition getpgid (pid : option Z) : PM Z :=
  match pid with
  | None => raise TypeError
  | Some _ =>
      lift syscall ;;;
      proc <~ self _process ;;
      h <~ deref proc ;;
      ret (p_pgid h)
  end.

(** [Popen.kill()]: a child that is known to have ended gets no signal. *)
Definition Popen_kill : PM unit :=
  proc <~ self _process ;;
  h <~ deref proc ;;
  now <~ time ;;
  match returncode h now with
  | Some _ => ret tt
  | None => os_kill (Some (p_pid h))
  end.

(** This thread can be held between two of its statements, for a time that
    the system decides, and the waiter thread sets [returncode] when the
    child ends, whatever this thread does.  The model lets the time pass
    where [kill] reads again, through [pid], what it has read through
    [is_running]. *)
Definition pause : PM unit :=
  fun s =>
    match pauses s.2 with
    | [] => (Ret tt, s)
    | d :: rest =>
        (Ret tt,
         (s.1, set_pauses rest (set_clock (clock s.2 + Z.max 0 d) s.2)))
    end.

Definition kill (fuel : nat) : PM (option bool) :=
  try_except_OSError
    (proc <~ self _process ;;
     match proc with
     | Some _ =>
         Popen_kill ;;;
         wait fuel (Some 500) ;;;
         running <~ is_running ;;
         (if (running : bool) then
            pause ;;;
            pid1 <~ pid ;;
            pause ;;;
            pid2 <~ pid ;;
            pgid <~ getpgid pid2 ;;
            if decide (pid1 = Some pgid) then
              pause ;;;
              pid3 <~ pid ;;
              os_killpg pid3
            else
              pause ;;;
              pid3 <~ pid ;;
              os_kill pid3
          else ret tt) ;;;
         t <~ self _wait_thread ;;
         t <~ deref t ;;
         Thread_join t ;;;
         assign (set__process None) ;;;
         ret (Some true)
     | None => ret None
     end)
    (ret (Some false)).

Definition decode_as (enc : string) (data : list Byte.byte) : PM string :=
  match decode enc data with
  | Some text => ret text
  | None => raise UnicodeError
  end.

Definition write (string : string) : PM unit :=
  last <~ match last_char string with
          | Some c => ret c
          | None => raise IndexError
          end ;;
  let string := if decide (last <> newline)
                then string +:+ String newline EmptyString
                else string in
  proc <~ self _process ;;
  h <~ deref proc ;;
  enc <~ self encoding ;;
  data <~ match encode enc string with
          | Some d => ret d
          | None => raise UnicodeError
          end ;;
  (* stdin.write(data) *)
  let h := set_p_stdin (p_stdin_buffer h ++ data) (p_stdin_pipe h) h in
  assign (set__process (Some h)) ;;;
  (* stdin.flush(): the pipe of a child that has ended is broken *)
  now <~ time ;;
  match returncode h now with
  | Some _ => raise OSError
  | None =>
      assign (set__process
                (Some (set_p_stdin [] (p_stdin_pipe h ++ p_stdin_buffer h) h)))
  end.

(** A child that a full pipe holds up runs on when that pipe is read, unless
    its other pipe is full too. *)
Definition let_go (held_by_other : bool) (h : Popen) : PM Popen :=
  match p_exit h, c_lifetime (p_child h) with
  | None, Some (_, status) =>
      if held_by_other then ret h
      else
        now <~ time ;;
        let t := now + Z.max 0 (c_resume (p_child h)) in
        lift (modify (end_streams (p_pid h) t)) ;;;
        ret (set_p_exit (Some (t, status)) h)
  | _, _ => ret h
  end.

(** [pipe.read()] on the reading end of a stream of the child: it returns at
    the end of the file, with all that went into the pipe.  The end of the
    file comes when the child has ended and no descendant of it holds the
    pipe; it does not come for a child that does not end.  [mark] notes on
    the handle that the pipe is read. *)
Definition read_to_end (state : pipe) (output : Output)
    (held_by_other : bool) (mark : Popen -> Popen) (h : Popen)
  : PM (list Byte.byte) :=
  match state with
  | ReadToEnd => ret []
  | Unread =>
      h <~ let_go held_by_other h ;;
      match p_exit h, o_lingers output with
      | Some (t, _), Some l =>
          let eof := t + Z.max 0 l in
          modify (fun s => (s.1, set_clock (Z.max (clock s.2) eof) s.2)) ;;;
          assign (set__process (Some (mark h))) ;;;
          ret (o_written output (eof - p_started h))
      | _, _ => fun s => (Blocked, s)
      end
  end.

(** [f.read()] on a file that is open in text mode *)
Definition read_text (enc path : string) : PM string :=
  data <~ lift (read_file path) ;;
  text <~ decode_as enc data ;;
  ret (universal_newlines text).

Definition read : PM string :=
  out <~ self _stdout ;;
  match out with
  | None =>
      proc <~ self _process ;;
      h <~ deref proc ;;
      state <~ deref (p_stdout h) ;;
      data <~ read_to_end state (c_out (p_child h))
                (bool_decide (p_stderr h = Some Unread)
                 && negb (o_fits (c_err (p_child h))))
                (set_p_stdout (Some ReadToEnd)) h ;;
      enc <~ self encoding ;;
      decode_as enc data
  | Some path =>
      enc <~ self encoding ;;
      read_text enc path
  end.

Definition eread : PM string :=
  demux <~ self _demux ;;
  if (demux : bool) then
    err <~ self _stderr ;;
    match err with
    | None =>
        proc <~ self _process ;;
        h <~ deref proc ;;
        state <~ deref (p_stderr h) ;;
        data <~ read_to_end state (c_err (p_child h))
                  (bool_decide (p_stdout h = Some Unread)
                   && negb (o_fits (c_out (p_child h))))
                  (set_p_stderr (Some ReadToEnd)) h ;;
        enc <~ self encoding ;;
        decode_as enc data
    | Some path =>
        enc <~ self encoding ;;
        read_text enc path
    end
  else ret EmptyString.

(** [consts.encoding], the default of [encoding]; the module [consts] is not
    among the sources. *)
Variable consts_encoding : string.

Definition execute (fuel : nat) (command : list string) (demux : bool)
    (environment : option (dict string)) (working_dir : option string)
  : M World types.Result :=
  p <~ __init__ command None None demux environment working_dir
         consts_encoding ;;
  fun w =>
    let (r, s) :=
      (start ;;;
       wait fuel None ;;;
       code <~ exit_code ;;
       out <~ read ;;
       err <~ eread ;;
       ret {| types.exit_code := code; types.stdout := out;
              types.stderr := err |}) (p, w) in
    (r, s.2).
End WithSystem.
End Process.

(** ** command.py: calling a command

    [Command.__call__] starts a [Process], so it stands after [Process]. *)
Section Call.
Variable which : string -> option string -> option string.
Variable abspath : string -> string -> string.
Variable spawn : list string -> dict string -> string -> option Process.Child.
Variable consts_encoding : string.

(** The argument vector as [subprocess.Popen] takes it: every item is a
    string. *)
Fixpoint strings (items : list pyval) : option (list string) :=
  match items with
  | [] => Some []
  | VStr s :: rest =>
      match strings rest with
      | Some ss => Some (s :: ss)
      | None => None
      end
  | _ :: _ => None
  end.

(** [self( *args, **kwargs)].  [Popen] raises [TypeError], before it starts
    anything, for an argument vector with an item that is not a string; the
    pipes that [start] asks for are no files. *)
Definition __call__ (self : loc) (args : list pyval) (kwargs : pydict)
  : M World Process.Process :=
  c <~ Command.bake which self args kwargs ;;
  command <~ Command.command_list c ;;
  match strings command with
  | Some argv =>
      p <~ Process.__init__ abspath argv None None true None None
             consts_encoding ;;
      fun w =>
        match Process.start spawn (p, w) with
        | (Ret _, s) => (Ret s.1, s.2)
        | (Exc e, s) => (Exc e, s.2)
        | (Blocked, s) => (Blocked, s.2)
        | (OutOfFuel, s) => (OutOfFuel, s.2)
        end
  | None => raise TypeError
  end.
End Call.

(** ** shell.py *)
Module shell.
Section WithPaths.
Variable abspath : string -> string -> string.

Definition cwd : M World string :=
  here <~ getcwd ;;
  ret (abspath here here).

Definition cd (path : string) (create : bool) : M World unit :=
  (if create then makedirs path else ret tt) ;;;
  chdir path.
End WithPaths.
End shell.

(** ** decorators.py *)
Module decorators.
(** [PUSHD_LOCK] is a [threading.RLock]: the thread that holds it takes it
    again without waiting, and the model has this one thread. *)
Definition acquire : M World unit :=
  modify (fun w => set_pushd_lock (S (pushd_lock w)) w).

Definition release : M World unit :=
  modify (fun w => set_pushd_lock (Nat.pred (pushd_lock w)) w).

(** [with_lock(lock)(fn)], used on a block: [with lock: with fn(..): yield].
    A context manager is the function that runs a block inside it. *)
Definition with_lock {A} (fn : M World A -> M World A) (block : M World A)
  : M World A :=
  acquire ;;;
  try_finally (fn block) release.
End decorators.

(** ** contexts.py *)
Module contexts.
Section WithPaths.
Variable abspath : string -> string -> string.

(** The generator under [@contextmanager]: the block runs at the [yield]. *)
Definition pushd_generator {A} (path : string) (create : bool)
    (block : M World A) : M World A :=
  cwd <~ getcwd ;;
  let path := abspath cwd path in
  (* If create is True, create the directory if it doesn't exist. *)
  (if create then makedirs path else ret tt) ;;;
  chdir path ;;;
  try_finally block (chdir cwd).

(** [with pushd(path, create): block] *)
Definition pushd {A} (path : string) (create : bool) (block : M World A)
  : M World A :=
  decorators.with_lock (pushd_generator path create) block.
End WithPaths.
End contexts.

(** * Notions of the statements *)

(** Whether the instance has a handle whose child has not ended at [now]. *)
Definition alive (p : Process.Process) (now : Z) : bool :=
  match Process._process p with
  | None => false
  | Some h =>
      match Process.returncode h now with
      | Some _ => false
      | None => true
      end
  end.

(** An instance is in a state that the methods lead to when it has no handle
    or has, with the handle, its waiter thread and the writers that [start]
    sets. *)
Definition started_well (p : Process.Process) : Prop :=
  Process._process p <> None ->
  Process._wait_thread p <> None /\
  Process._stdout_writer p <> None /\
  (Process._demux p = true -> Process._stderr_writer p <> None).

(** How the system calls between two worlds went, read off the list of the
    faults to come: with [ok], every call that was made succeeded; without,
    the last call that was made failed. *)
Definition os_calls (ok : bool) (before after : list bool) : Prop :=
  exists made,
    Forall (fun failed => failed = false) made /\
    before = (if ok then made ++ after else made ++ true :: after)%list.

(** The writer that [start] sets for a redirection target. *)
Definition writer_for (target : option string) : Process.writer :=
  match target with
  | None => Process.PIPE
  | Some path => Process.FileWriter path
  end.

(** The environment that [start] passes on: [_create_env(self._environment)]. *)
Definition env_of (p : Process.Process) (w : World) : dict string :=
  match Process._environment p with
  | Some e => dict_update (environ w) e
  | None => environ w
  end.

(** Two worlds that differ at most in the files, the open writers, the
    streams of the children and the faults to come. *)
Definition same_but_files (w w1 : World) : Prop :=
  w1 = set_faults (faults w1)
         (set_streams (streams w1)
            (set_open_writers (open_writers w1) (set_files (files w1) w))).

(** The message of the [CommandNotFound] that [start] raises. *)
Definition not_found_message (name : string) : string :=
  "Executable " +:+ dquote +:+ name +:+ dquote +:+ " not found".

(** The tokens of a named argument: the prefixed key and the value when the
    separator is a space, and one token that holds both otherwise. *)
Definition two_tokens (prefix : string) (item : string * pyval) : list pyval :=
  [VStr (prefix +:+ item.1); item.2].

Definition one_token (prefix sep : string) (item : string * pyval)
  : list pyval :=
  [VStr (prefix +:+ item.1 +:+ sep +:+ pystr item.2)].

(** The object at [self] is a command with these arguments, named arguments
    and options. *)
Definition is_command (h : list obj) (self : loc) (c : CommandObj)
    (args : list pyval) (kwargs options : pydict) : Prop :=
  h !! self = Some (OCommand c) /\
  h !! _args c = Some (OList args) /\
  h !! _kwargs c = Some (ODict kwargs) /\
  h !! _options c = Some (ODict options).

(** The names under which [bake] takes option overrides, and what a call
    with the keyword arguments [kwargs] gives of each kind: the overrides, in
    the order of the options, and the named arguments, which are the rest. *)
Definition option_names : list string := dict_keys Command.DEFAULT_OPTIONS.

Definition option_key (option : string) : string := "_" +:+ option.

Definition overrides (kwargs : pydict) : pydict :=
  flat_map (fun option =>
              match dict_get kwargs (option_key option) with
              | Some v => [(option, v)]
              | None => []
              end) option_names.

Definition named (kwargs : list (string * pyval)) : pydict :=
  filter (fun item => item.1 ∉ map option_key option_names) kwargs.

(** The loop of [bake] as a function of the two dicts that it changes. *)
Fixpoint split_options (names : list string) (kwargs options : pydict)
  : pydict * pydict :=
  match names with
  | [] => (kwargs, options)
  | option :: rest =>
      match dict_get kwargs (option_key option) with
      | Some v =>
          split_options rest (dict_del kwargs (option_key option))
            (dict_set options option v)
      | None => split_options rest kwargs options
      end
  end.

(** The world in which the block of [with pushd(path, create)] starts, when
    the scope is entered: the lock is taken, the directory [target] is made if
    it is asked for and missing, which is a system call that can fail, and it
    is the working directory.  The scope is not entered when the directory is
    missing and is not made. *)
Definition entry (target : string) (create : bool) (w : World) : option World :=
  let locked := set_pushd_lock (S (pushd_lock w)) w in
  if decide (target ∈ dirs w) then Some (set_cwd target locked)
  else if create then
    match faults w with
    | [] => Some (set_cwd target (set_dirs (target :: dirs w) locked))
    | false :: rest =>
        Some (set_cwd target
                (set_dirs (target :: dirs w) (set_faults rest locked)))
    | true :: _ => None
    end
  else None.

(** A piece of code has ended, with a value or with an exception. *)
Definition ended {A} (r : outcome A) : Prop :=
  match r with
  | Ret _ | Exc _ => True
  | Blocked | OutOfFuel => False
  end.

(** ** Sample inputs *)

Definition world0 : World :=
  {| heap := []; clock := 0; cwd := "/home/tea"; dirs := ["/home/tea"; "/tmp"];
     files := []; open_writers := []; environ := [("PATH", "/bin")];
     faults := []; spawned := []; parent_stdout := []; parent_stderr := [];
     pushd_lock := 0; streams := []; pauses := [] |}.

(** A path is taken as it is when it starts with a slash and is put under
    the working directory otherwise. *)
Definition sample_abspath (here path : string) : string :=
  match path with
  | String c _ => if decide (c = slash) then path else here +:+ "/" +:+ path
  | _ => here +:+ "/" +:+ path
  end.

(** The bytes of the line [oops]. *)
Definition oops_line : list Byte.byte :=
  (String.list_byte_of_string "oops" ++ [Byte.x0a])%list.

(** A stream into which nothing is written, and one into which [data] is
    written [after] milliseconds; no descendant holds them. *)
Definition silent : Output :=
  {| o_written := fun _ => []; o_fits := true; o_lingers := Some 0 |}.

Definition writes (data : list Byte.byte) (after : Z) : Output :=
  {| o_written := fun e => if after <=? e then data else [];
     o_fits := true; o_lingers := Some 0 |}.

(** [sleep] runs for the seconds it is given, or without end when it is given
    [infinity]; [sh] writes a line to its standard error after 3 ms and ends
    after 10 ms; [cat] hangs in a read that not even a SIGKILL ends before
    500.03 s have passed. *)
Definition sample_spawn (args : list string) (env : dict string)
    (cwd : string) : option Process.Child :=
  match args with
  | ["/bin/sleep"; "infinity"] =>
      Some {| Process.c_pid := 4242; Process.c_pgid := 4242;
              Process.c_lifetime := None; Process.c_sigkill_latency := 20;
              Process.c_resume := 0;
              Process.c_out := silent; Process.c_err := silent |}
  | ["/bin/sleep"; "5"] =>
      Some {| Process.c_pid := 4243; Process.c_pgid := 4243;
              Process.c_lifetime := Some (5000, 0);
              Process.c_sigkill_latency := 20;
              Process.c_resume := 0;
              Process.c_out := silent; Process.c_err := silent |}
  | ["/bin/sh"; "-c"; "echo oops >&2"] =>
      Some {| Process.c_pid := 4244; Process.c_pgid := 4244;
              Process.c_lifetime := Some (10, 0);
              Process.c_sigkill_latency := 20;
              Process.c_resume := 0;
              Process.c_out := silent;
              Process.c_err := writes oops_line 3 |}
  | ["/bin/cat"; "/mnt/stale/file"] =>
      Some {| Process.c_pid := 4246; Process.c_pgid := 4246;
              Process.c_lifetime := None;
              Process.c_sigkill_latency := 500030;
              Process.c_resume := 0;
              Process.c_out := silent; Process.c_err := silent |}
  | _ => None
  end.

(** A codec for ASCII text. *)
Definition sample_encode (encoding text : string) : option (list Byte.byte) :=
  Some (String.list_byte_of_string text).

Definition sample_decode (encoding : string) (data : list Byte.byte)
  : option string :=
  Some (String.string_of_list_byte data).

(** [Process(command)] with the defaults, or with [demux] given, as
    [__init__] builds it in [world0]. *)
Definition sample_process (command : list string) (demux : bool)
  : Process.Process :=
  {| Process._command := command; Process._process := None;
     Process._wait_thread := None; Process._stdout := None;
     Process._stderr := None; Process._demux := demux;
     Process._stdout_writer := None; Process._stderr_writer := None;
     Process._working_dir := "/home/tea"; Process._environment := None;
     Process.encoding := "utf-8" |}.

(** ... and then [start()] *)
Definition sample_started (command : list string) (demux : bool)
  : outcome unit * (Process.Process * World) :=
  Process.start sample_spawn (sample_process command demux, world0).

(** [ls] is found in [/bin], by its name and by its path. *)
Definition sample_which (cmd : string) (path : option string) : option string :=
  if decide (cmd = "ls") then Some "/bin/ls"
  else if decide (cmd = "/bin/ls") then Some "/bin/ls"
  else None.

(** The world after [ls = Command("ls")], and the address of [ls] in it. *)
Definition world_ls : World :=
  (Command.__init__ sample_which "ls" None world0).2.

Definition ls : loc := 3%nat.

(** The world after [ls.bake("-l", key="value")] and the world after
    [ls.bake(key="value", _kwargs_sep="=")]; the new command is at the
    address 8 in both. *)
Definition world_ls_l : World :=
  (Command.bake sample_which ls [VStr "-l"] [("key", VStr "value")] world_ls).2.

Definition world_ls_eq : World :=
  (Command.bake sample_which ls []
     [("key", VStr "value"); ("_kwargs_sep", VStr "=")] world_ls).2.

Definition baked : CommandObj :=
  {| command := "/bin/ls"; search_paths := None; _options := 14%nat;
     _args := 11%nat; _kwargs := 13%nat |}.

(** ** Notions of the further properties *)

(** The world after [io.open(path, "wb")] for a redirection target, when the
    call succeeds: the file is there and empty, no child of an earlier start
    is followed that wrote to it, and it is open. *)
Definition opened (target : option string) (w : World) : World :=
  match target with
  | None => w
  | Some path =>
      set_streams (filter (fun s => s_sink s <> ToFile path) (streams w))
        (set_open_writers (path :: open_writers w)
           (set_files (dict_set (files w) path []) w))
  end.

(** The streams that [Popen] sets up for a target: none for a pipe. *)
Definition stream_for (target : option Process.writer) (inherited : sink)
    (pid now : Z) (ends : option Z) (output : Output) : list Stream :=
  match target with
  | Some Process.PIPE => []
  | Some (Process.FileWriter path) =>
      [ {| s_sink := ToFile path; s_pid := pid; s_started := now;
           s_ends := ends; s_output := output |} ]
  | None =>
      [ {| s_sink := inherited; s_pid := pid; s_started := now;
           s_ends := ends; s_output := output |} ]
  end.

(** The time at which a child that starts at [now] ends, as things stand at
    its start, and its status. *)
Definition exit_of (c : Process.Child) (stdout stderr : option Process.writer)
    (now : Z) : option (Z * Z) :=
  match Process.c_lifetime c with
  | Some (d, status) =>
      if Process.held_up c stdout stderr then None else Some (now + d, status)
  | None => None
  end.

(** The handle that [Popen] gives for a child that starts at [now]. *)
Definition handle_of (c : Process.Child)
    (stdout stderr : option Process.writer) (now : Z) : Process.Popen :=
  {| Process.p_pid := Process.c_pid c;
     Process.p_pgid := Process.c_pgid c;
     Process.p_exit := exit_of c stdout stderr now;
     Process.p_sigkill_latency := Process.c_sigkill_latency c;
     Process.p_stdin_buffer := [];
     Process.p_stdin_pipe := [];
     Process.p_stdout := match stdout with
                         | Some Process.PIPE => Some Process.Unread
                         | _ => None
                         end;
     Process.p_stderr := match stderr with
                         | Some Process.PIPE => Some Process.Unread
                         | _ => None
                         end;
     Process.p_started := now;
     Process.p_child := c |}.


(** What [data.decode(encoding)] gives as the end of a method. *)
Definition decoded (decode : string -> list Byte.byte -> option string)
    (encoding : string) (data : list Byte.byte) : outcome string :=
  match decode encoding data with
  | Some text => Ret text
  | None => Exc UnicodeError
  end.

(** A token as [command_line] shows it. *)
Definition shown (token : string) : string :=
  if Command.has_space token then dquote +:+ token +:+ dquote else token.

(** [line.split(" ")] *)
Fixpoint split_spaces (line : string) : list string :=
  match line with
  | EmptyString => [EmptyString]
  | String c rest =>
      if decide (c = Command.space) then EmptyString :: split_spaces rest
      else match split_spaces rest with
           | token :: tokens => String c token :: tokens
           | [] => [String c EmptyString]
           end
  end.

(** * Properties *)

(** ** The monad *)

Lemma bind_Ret_inv {S A B} (m : M S A) (k : A -> M S B) s b s' :
  bind m k s = (Ret b, s') ->
  exists a s1, m s = (Ret a, s1) /\ k a s1 = (Ret b, s').
Proof.
  unfold bind. destruct (m s) as [[a| | |] s1]; intros H; try discriminate.
  exists a, s1. split; [reflexivity | exact H].
Qed.

Lemma bind_Ret {S A B} (m : M S A) (k : A -> M S B) s a s1 :
  m s = (Ret a, s1) -> bind m k s = k a s1.
Proof. unfold bind. intros ->. reflexivity. Qed.

Lemma bind_Exc {S A B} (m : M S A) (k : A -> M S B) s e s1 :
  m s = (Exc e, s1) -> bind m k s = (Exc e, s1).
Proof. unfold bind. intros ->. reflexivity. Qed.

(** Unfolds the primitives that neither loop nor branch on the world. *)
Ltac step :=
  unfold Process.self, Process.assign, Process.time, Process.lift,
    deref, gets, modify, ret, raise, bind; cbn.

(** ** exit_code *)

Lemma exit_code_no_handle p w :
  Process._process p = None ->
  Process.exit_code (p, w) = (Exc AttributeError, (p, w)).
Proof.
  intros H. unfold Process.exit_code, Process.is_running. step.
  rewrite H. cbn. rewrite H. reflexivity.
Qed.

Lemma kill_true_clears fuel p w p' w' :
  Process.kill fuel (p, w) = (Ret (Some true), (p', w')) ->
  Process._process p' = None.
Proof.
  unfold Process.kill, try_except_OSError.
  match goal with |- context [match ?b (p, w) with _ => _ end] =>
    destruct (b (p, w)) as [r s] eqn:Hbody end.
  intros H.
  assert (Hr : r = Ret (Some true) /\ s = (p', w')).
  { destruct r as [a|[]| |]; inversion H; subst; split; reflexivity. }
  destruct Hr as [-> ->]. clear H.
  apply bind_Ret_inv in Hbody as (proc & s1 & _ & Hbody).
  destruct proc as [h|]; [|revert Hbody; step; discriminate].
  do 7 (apply bind_Ret_inv in Hbody as (? & ? & _ & Hbody)).
  revert Hbody. step. intros [= <- <-]. reflexivity.
Qed.

(** ** is_running and wait *)

Lemma set_clock_same w : set_clock (clock w) w = w.
Proof. destruct w; reflexivity. Qed.

Lemma is_running_run p w :
  Process.is_running (p, w) = (Ret (alive p (clock w)), (p, w)).
Proof.
  unfold Process.is_running, alive. step.
  destruct (Process._process p) as [h|]; [|reflexivity].
  destruct (Process.returncode h (clock w)); reflexivity.
Qed.

Lemma pid_run p w :
  Process.pid (p, w) =
  (Ret (if alive p (clock w)
        then option_map Process.p_pid (Process._process p) else None), (p, w)).
Proof.
  unfold Process.pid. rewrite (bind_Ret _ _ _ _ _ (is_running_run p w)).
  unfold alive. destruct (Process._process p) as [h|] eqn:Hp; [|reflexivity].
  destruct (Process.returncode h (clock w)); [reflexivity|].
  step. rewrite Hp. reflexivity.
Qed.

(** The loop with a timeout changes the clock only; it says [True] at a time
    at which the child has ended, and [False] only once the time that has
    gone by, in milliseconds, is 1000 times the timeout in milliseconds. *)
Lemma wait_timeout_spec fuel :
  forall current_time timeout p w,
  exists r c,
    Process.wait_timeout fuel current_time timeout (p, w)
    = (r, (p, set_clock c w)) /\
    clock w <= c /\
    match r with
    | Ret true => alive p c = false /\ c - current_time < timeout * 1000
    | Ret false =>
        timeout * 1000 <= c - current_time /\
        (c = clock w \/ (alive p (c - 100) = true /\
                         c - 100 - current_time < timeout * 1000))
    | OutOfFuel =>
        c = clock w + 100 * Z.of_nat fuel /\
        (0 < Z.of_nat fuel -> c - 100 - current_time < timeout * 1000)
    | _ => False
    end.
Proof.
  induction fuel as [|fuel IH]; intros current_time timeout p w.
  - exists OutOfFuel, (clock w). rewrite set_clock_same. cbn.
    repeat split; lia.
  - cbn [Process.wait_timeout]. unfold Process.time at 1.
    unfold bind at 1, gets. cbn [fst snd].
    destruct (clock w - current_time <? timeout * 1000) eqn:Hlt.
    + apply Z.ltb_lt in Hlt.
      rewrite (bind_Ret _ _ _ _ _ (is_running_run p w)).
      destruct (alive p (clock w)) eqn:Hal; cbn [negb].
      * unfold Process.sleep_100ms, bind at 1, modify. cbn [fst snd].
        destruct (IH current_time timeout p (set_clock (clock w + 100) w))
          as (r & c & Hrun & Hle & Hr).
        exists r, c. cbn in Hrun, Hle. split; [exact Hrun|].
        split; [lia|].
        destruct r as [[|]| | |]; try exact Hr.
        -- destruct Hr as [Hr1 [Hr2|Hr2]]; split; try exact Hr1.
           ++ right. cbn in Hr2. subst c.
              replace (clock w + 100 - 100) with (clock w) by lia.
              split; [exact Hal | lia].
           ++ right. exact Hr2.
        -- cbn in Hr. destruct Hr as [Hc Hb]. split; [lia|].
           intros _. destruct fuel as [|fuel'].
           ++ cbn in Hc. lia.
           ++ specialize (Hb ltac:(lia)). lia.
      * exists (Ret true), (clock w). rewrite set_clock_same.
        repeat split; [lia | exact Hal | exact Hlt].
    + apply Z.ltb_ge in Hlt.
      exists (Ret false), (clock w). rewrite set_clock_same.
      repeat split; [lia | lia | left; reflexivity].
Qed.

Example sample_process_init command demux :
  Process.__init__ sample_abspath command None None demux None None "utf-8"
    world0 = (Ret (sample_process command demux), world0).
Proof. reflexivity. Qed.

Example sample_sleeper :
  exists p w, sample_started ["/bin/sleep"; "infinity"] true = (Ret tt, (p, w))
              /\ alive p (clock w) = true.
Proof. eexists _, _. vm_compute. split; reflexivity. Qed.

(** With a timeout, [wait] changes nothing but the clock, and it gives up
    only when 1000 times the timeout has gone by. *)
Lemma wait_false_elapsed fuel timeout p w p' w' :
  Process.wait fuel (Some timeout) (p, w) = (Ret false, (p', w')) ->
  p' = p /\ timeout * 1000 <= clock w' - clock w.
Proof.
  unfold Process.wait, Process.time. unfold bind at 1, gets. cbn [fst snd].
  destruct (wait_timeout_spec fuel (clock w) timeout p w)
    as (r & c & Hrun & _ & Hr).
  rewrite Hrun. intros [= -> <- <-]. split; [reflexivity|].
  cbn. lia.
Qed.

(** C1 (the code departs from the claim).  [wait(1)] on a child that never
    ends says [False] when 1000 seconds have gone by on the clock, not after
    1 second; and on a child that ends after 5 seconds it says [True], at 5
    seconds, where the claim has it say [False] after 1 second. *)
Theorem wait_one_second_polls_1000_seconds :
  (exists p w,
     sample_started ["/bin/sleep"; "infinity"] true = (Ret tt, (p, w)) /\
     Process.wait (Z.to_nat 10001) (Some 1000) (p, w)
     = (Ret false, (p, set_clock (clock w + 1000 * 1000) w))) /\
  (exists p w,
     sample_started ["/bin/sleep"; "5"] true = (Ret tt, (p, w)) /\
     Process.wait (Z.to_nat 10001) (Some 1000) (p, w)
     = (Ret true, (p, set_clock (clock w + 5 * 1000) w))).
Proof.
  split; eexists _, _; (split; [vm_compute; reflexivity|]);
    vm_compute; reflexivity.
Qed.

(** ** System calls *)

Lemma os_calls_refl l : os_calls true l l.
Proof. exists []. split; [constructor | reflexivity]. Qed.

Lemma os_calls_trans ok a b c :
  os_calls true a b -> os_calls ok b c -> os_calls ok a c.
Proof.
  intros (m1 & F1 & ->) (m2 & F2 & ->). exists (m1 ++ m2)%list.
  split; [apply Forall_app; split; assumption|].
  destruct ok; rewrite <- app_assoc; reflexivity.
Qed.

Lemma same_but_files_refl w : same_but_files w w.
Proof. destruct w; reflexivity. Qed.

Lemma same_but_files_trans a b c :
  same_but_files a b -> same_but_files b c -> same_but_files a c.
Proof.
  unfold same_but_files. intros Hab Hbc. rewrite Hbc at 1. rewrite Hab at 1.
  reflexivity.
Qed.

Lemma syscall_run w :
  exists r w1,
    syscall w = (r, w1) /\ w1 = set_faults (faults w1) w /\
    match r with
    | Ret _ => os_calls true (faults w) (faults w1)
    | Exc e => e = OSError /\ os_calls false (faults w) (faults w1)
    | _ => False
    end.
Proof.
  unfold syscall, os_fault, bind, ret, raise.
  destruct (faults w) as [|[] rest] eqn:Hf.
  - exists (Ret tt), w.
    split; [reflexivity|]. split; [destruct w; reflexivity|].
    rewrite Hf. apply os_calls_refl.
  - exists (Exc OSError), (set_faults rest w).
    split; [reflexivity|]. split; [reflexivity|]. split; [reflexivity|].
    exists []. split; [constructor | reflexivity].
  - exists (Ret tt), (set_faults rest w).
    split; [reflexivity|]. split; [reflexivity|].
    exists [false]. split; [repeat constructor | reflexivity].
Qed.

(** ** start *)

Lemma lift_inv {A} (m : M World A) p w r p1 w1 :
  Process.lift m (p, w) = (r, (p1, w1)) -> p1 = p /\ m w = (r, w1).
Proof.
  unfold Process.lift. cbn. destruct (m w) as [r0 w0].
  intros [= -> -> ->]. split; reflexivity.
Qed.

Lemma try_except_Ret_inv {S A} (body handler : M S A) s a s' :
  try_except_OSError body handler s = (Ret a, s') ->
  body s = (Ret a, s') \/
  exists s1, body s = (Exc OSError, s1) /\ handler s1 = (Ret a, s').
Proof.
  unfold try_except_OSError. destruct (body s) as [[x|[]| |] s1]; intros H;
    try discriminate; try (left; exact H).
  right. exists s1. split; [reflexivity | exact H].
Qed.

Lemma open_writer_run target p w :
  exists r w1,
    Process.open_writer target (p, w) = (r, (p, w1)) /\
    same_but_files w w1 /\
    match r with
    | Ret ow => ow = writer_for target /\
                os_calls true (faults w) (faults w1)
    | Exc e => e = OSError /\ os_calls false (faults w) (faults w1)
    | _ => False
    end.
Proof.
  destruct target as [path|]; cbn.
  - destruct (syscall_run w) as (r & w1 & Hs & Hw & Hr).
    unfold open_wb. step. rewrite Hs.
    destruct r as [[]|e| |]; try contradiction.
    + eexists (Ret _), _. split; [reflexivity|]. cbn.
      split; [|split; [reflexivity | exact Hr]].
      clear Hs Hr. unfold same_but_files.
      destruct w, w1; cbn in *; inversion Hw; subst; reflexivity.
    + exists (Exc e), w1. split; [reflexivity|].
      split; [|exact Hr].
      clear Hs Hr. unfold same_but_files.
      destruct w, w1; cbn in *; inversion Hw; subst; reflexivity.
  - exists (Ret Process.PIPE), w. split; [reflexivity|].
    split; [apply same_but_files_refl|].
    split; [reflexivity | apply os_calls_refl].
Qed.

(** What [start] does, in one equation: the writers are set up, which fails
    when a file cannot be opened, and then the child is spawned. *)
Lemma start_run spawn p w :
  exists w1 (ok : bool),
    same_but_files w w1 /\ os_calls ok (faults w) (faults w1) /\
    let ow := Some (writer_for (Process._stdout p)) in
    let ew := if Process._demux p
              then Some (writer_for (Process._stderr p))
              else Process._stderr_writer p in
    let p1 := Process.set__stderr_writer ew (Process.set__stdout_writer ow p) in
    if ok then
      Process.start spawn (p, w) =
      match Process.Popen_new spawn (Process._command p) ow ew (env_of p w1)
              (Process._working_dir p) w1 with
      | (Ret h, w') =>
          (Ret tt, (Process.set__wait_thread (Some Process.WaitThread)
                      (Process.set__process (Some h) p1), w'))
      | (Exc OSError, w') =>
          match Process._command p with
          | [] => (Exc IndexError, (p1, w'))
          | name :: _ =>
              (Exc (CommandNotFound (not_found_message name)), (p1, w'))
          end
      | (Exc e, w') => (Exc e, (p1, w'))
      | (Blocked, w') => (Blocked, (p1, w'))
      | (OutOfFuel, w') => (OutOfFuel, (p1, w'))
      end
    else
      exists p', Process.start spawn (p, w) = (Exc OSError, (p', w1)) /\
                 Process._process p' = Process._process p.
Proof.
  destruct (open_writer_run (Process._stdout p) p w)
    as (r1 & w1 & Hout & Hsame1 & Hr1).
  destruct r1 as [ow|e| |]; try contradiction.
  2:{ destruct Hr1 as [-> Hc]. exists w1, false.
      split; [exact Hsame1|]. split; [exact Hc|]. cbn zeta.
      exists p. split; [|reflexivity].
      unfold Process.start. unfold bind at 1, Process.self at 1, gets.
      cbn [fst snd]. rewrite (bind_Exc _ _ _ _ _ Hout). reflexivity. }
  destruct Hr1 as [-> Hc1].
  assert (Hstart : forall w2 ew,
    (if Process._demux p
     then
      err <~ Process.self Process._stderr;;
      w <~ Process.open_writer err;;
      Process.assign (Process.set__stderr_writer (Some w))
     else
      w <~ Process.self Process._stderr_writer;;
      Process.assign (Process.set__stderr_writer w))
      (Process.set__stdout_writer (Some (writer_for (Process._stdout p))) p, w1)
    = (Ret tt, (Process.set__stderr_writer ew
                  (Process.set__stdout_writer
                     (Some (writer_for (Process._stdout p))) p), w2)) ->
    Process.start spawn (p, w) =
      match Process.Popen_new spawn (Process._command p)
              (Some (writer_for (Process._stdout p))) ew (env_of p w2)
              (Process._working_dir p) w2 with
      | (Ret h, w') =>
          (Ret tt, (Process.set__wait_thread (Some Process.WaitThread)
                      (Process.set__process (Some h)
                         (Process.set__stderr_writer ew
                            (Process.set__stdout_writer
                               (Some (writer_for (Process._stdout p))) p))), w'))
      | (Exc OSError, w') =>
          match Process._command p with
          | [] => (Exc IndexError, (Process.set__stderr_writer ew
                            (Process.set__stdout_writer
                               (Some (writer_for (Process._stdout p))) p), w'))
          | name :: _ =>
              (Exc (CommandNotFound (not_found_message name)),
               (Process.set__stderr_writer ew
                            (Process.set__stdout_writer
                               (Some (writer_for (Process._stdout p))) p), w'))
          end
      | (Exc e, w') => (Exc e, (Process.set__stderr_writer ew
                            (Process.set__stdout_writer
                               (Some (writer_for (Process._stdout p))) p), w'))
      | (Blocked, w') => (Blocked, (Process.set__stderr_writer ew
                            (Process.set__stdout_writer
                               (Some (writer_for (Process._stdout p))) p), w'))
      | (OutOfFuel, w') => (OutOfFuel, (Process.set__stderr_writer ew
                            (Process.set__stdout_writer
                               (Some (writer_for (Process._stdout p))) p), w'))
      end).
  { intros w2 ew Hsetup.
    unfold Process.start. unfold bind at 1, Process.self at 1, gets.
    cbn [fst snd]. rewrite (bind_Ret _ _ _ _ _ Hout).
    unfold bind at 1, Process.assign at 1, modify. cbn [fst snd].
    unfold bind at 1, Process.self at 1, gets. cbn [fst snd].
    rewrite (bind_Ret _ _ _ _ _ Hsetup).
    unfold try_except_OSError, env_of, not_found_message, Process.command,
      Process._create_env.
    step.
    destruct (Process.Popen_new spawn (Process._command p)
                (Some (writer_for (Process._stdout p))) ew
                match Process._environment p with
                | Some e => dict_update (environ w2) e
                | None => environ w2
                end (Process._working_dir p) w2) as [[h|[]| |] w'];
      try reflexivity.
    cbn. destruct (Process._command p); reflexivity. }
  destruct (Process._demux p) eqn:Hd.
  - destruct (open_writer_run (Process._stderr p)
                (Process.set__stdout_writer
                   (Some (writer_for (Process._stdout p))) p) w1)
      as (r2 & w2 & Herr & Hsame2 & Hr2).
    destruct r2 as [ew|e| |]; try contradiction.
    + destruct Hr2 as [-> Hc2]. exists w2, true.
      split; [eapply same_but_files_trans; eassumption|].
      split; [eapply os_calls_trans; eassumption|]. cbn zeta.
      apply Hstart.
      unfold bind at 1, Process.self at 1, gets. cbn [fst snd].
      rewrite (bind_Ret _ _ _ _ _ Herr). reflexivity.
    + destruct Hr2 as [-> Hc2]. exists w2, false.
      split; [eapply same_but_files_trans; eassumption|].
      split; [eapply os_calls_trans; eassumption|]. cbn zeta.
      eexists. split; [|shelve].
      unfold Process.start. unfold bind at 1, Process.self at 1, gets.
      cbn [fst snd]. rewrite (bind_Ret _ _ _ _ _ Hout).
      unfold bind at 1, Process.assign at 1, modify. cbn [fst snd].
      unfold bind at 1, Process.self at 1, gets. cbn [fst snd].
      cbn [Process._demux Process.set__stdout_writer]. rewrite Hd.
      unfold bind at 1. unfold bind at 1, Process.self at 1, gets.
      cbn [fst snd]. rewrite (bind_Exc _ _ _ _ _ Herr). reflexivity.
      Unshelve. reflexivity.
  - exists w1, true.
    split; [exact Hsame1|]. split; [exact Hc1|]. cbn zeta.
    apply Hstart. reflexivity.
Qed.

Lemma same_but_files_environ w w1 :
  same_but_files w w1 -> environ w1 = environ w.
Proof. intros ->. reflexivity. Qed.

Lemma same_but_files_spawned w w1 :
  same_but_files w w1 -> spawned w1 = spawned w.
Proof. intros ->. reflexivity. Qed.

Lemma same_but_files_parent_stderr w w1 :
  same_but_files w w1 -> parent_stderr w1 = parent_stderr w.
Proof. intros ->. reflexivity. Qed.

(** A new instance has no handle, no thread and no writers. *)
Lemma init_fresh abspath command stdout stderr demux environment working_dir
    encoding w :
  exists p,
    Process.__init__ abspath command stdout stderr demux environment
      working_dir encoding w = (Ret p, w) /\
    Process._process p = None /\ Process._wait_thread p = None /\
    Process._stdout_writer p = None /\ Process._stderr_writer p = None /\
    Process._demux p = demux /\ Process._command p = command.
Proof. eexists. split; [reflexivity|]. repeat split. Qed.

(** [start] leaves the instance in a state that the methods expect. *)
Lemma start_started_well spawn p w p' w' :
  Process.start spawn (p, w) = (Ret tt, (p', w')) -> started_well p'.
Proof.
  intros H. destruct (start_run spawn p w) as (w1 & ok & _ & _ & Hrun).
  cbn zeta in Hrun. destruct ok.
  - rewrite Hrun in H.
    destruct (Process.Popen_new _ _ _ _ _ _ _) as [[h|[]| |] w2];
      try discriminate;
      try (destruct (Process._command p); discriminate).
    injection H as <- <-. intros _. cbn.
    split; [discriminate|]. split; [discriminate|].
    intros ->. discriminate.
  - destruct Hrun as (p1 & Hrun & _). rewrite Hrun in H. discriminate.
Qed.

(** Without demux, [start] passes on the [_stderr_writer] that the instance
    has, and a new instance has none: the child gets no pipe for its standard
    error, and what it writes there goes where this process writes its own. *)
Lemma start_without_demux spawn p w p' w' :
  Process._demux p = false ->
  Process._stderr_writer p = None ->
  Process.start spawn (p, w) = (Ret tt, (p', w')) ->
  exists h c others,
    Process._process p' = Some h /\
    Process._stderr_writer p' = None /\
    Process.p_stderr h = None /\
    spawn (Process._command p) (env_of p w) (Process._working_dir p) = Some c /\
    streams w'
    = (others ++ [ {| s_sink := ToStderr; s_pid := Process.c_pid c;
                      s_started := clock w;
                      s_ends := option_map fst (Process.p_exit h);
                      s_output := Process.c_err c |} ])%list.
Proof.
  intros Hd He H. destruct (start_run spawn p w) as (w1 & ok & Hs & _ & Hrun).
  cbn zeta in Hrun. destruct ok.
  2:{ destruct Hrun as (p1 & Hrun & _). rewrite Hrun in H. discriminate. }
  rewrite Hrun in H. clear Hrun. rewrite Hd, He in H.
  unfold env_of in *. rewrite (same_but_files_environ _ _ Hs) in H.
  assert (Hclock : clock w1 = clock w) by (rewrite Hs; reflexivity).
  unfold Process.Popen_new in H.
  destruct (Process._command p) as [|name rest]; [discriminate|].
  destruct (spawn (name :: rest) _ (Process._working_dir p)) as [c|];
    [|discriminate].
  revert H. unfold Process.emit. step. rewrite Hclock.
  destruct (writer_for (Process._stdout p)); cbn;
    intros [= <- <-]; eexists _, c, _; cbn; repeat split.
Qed.

(** C2 (the code departs from the claim).  [Process(command, demux=False)]
    for a child that writes a line to its standard error, then [start()]:
    [_stderr_writer] is still [None], the handle has a pipe for the standard
    output and none for the standard error.  The line comes on the standard
    error of this process, when the child writes it, and not into the pipe:
    [read()], which returns when the child has ended, gives the empty
    string, the line is then on the standard error of this process, and
    [eread()] gives the empty string, before and after. *)
Theorem start_without_demux_does_not_merge :
  exists p w h p' w',
    sample_started ["/bin/sh"; "-c"; "echo oops >&2"] false = (Ret tt, (p, w)) /\
    Process._stdout_writer p = Some Process.PIPE /\
    Process._stderr_writer p = None /\
    Process._process p = Some h /\
    Process.p_stdout h = Some Process.Unread /\
    Process.p_stderr h = None /\
    stderr_now (set_clock (clock w + 3) w) = oops_line /\
    Process.read sample_decode (p, w) = (Ret EmptyString, (p', w')) /\
    clock w' = clock w + 10 /\
    stderr_now w' = oops_line /\
    (Process.eread sample_decode (p, w)).1 = Ret EmptyString /\
    (Process.eread sample_decode (p', w')).1 = Ret EmptyString.
Proof. eexists _, _, _, _, _. vm_compute. repeat split. Qed.

(** ** Commands and processes that are not found *)

(** C4.  [Command(command, search_paths)] for a name that [shutil.which] does
    not find raises [CommandNotFound(command)] and leaves the world as it
    was: no child is spawned, no object is kept.  [start()] on a vector that
    the system cannot spawn raises [CommandNotFound], with the name of the
    executable in its message, spawns nothing and sets no handle; the one
    other way out is the [OSError] of a redirection file that could not be
    opened, before the spawn is tried. *)
Theorem not_found_is_CommandNotFound :
  (forall which command search_paths w,
     which command
       (match search_paths with
        | None => None
        | Some sp => Some (Command.pathsep_join sp)
        end) = None ->
     Command.__init__ which command search_paths w
     = (Exc (CommandNotFound command), w)) /\
  (forall spawn p w name rest,
     Process._command p = name :: rest ->
     spawn (name :: rest) (env_of p w) (Process._working_dir p) = None ->
     exists e p' w',
       Process.start spawn (p, w) = (Exc e, (p', w')) /\
       spawned w' = spawned w /\
       Process._process p' = Process._process p /\
       ((e = CommandNotFound (not_found_message name) /\
         os_calls true (faults w) (faults w')) \/
        (e = OSError /\ os_calls false (faults w) (faults w')))).
Proof.
  split.
  - intros which command search_paths w H. unfold Command.__init__.
    rewrite H. reflexivity.
  - intros spawn p w name rest Hc Hsp.
    destruct (start_run spawn p w) as (w1 & ok & Hs & Hcalls & Hrun).
    cbn zeta in Hrun. destruct ok.
    + unfold Process.Popen_new, env_of in *.
      rewrite (same_but_files_environ _ _ Hs), Hc, Hsp in Hrun. cbn in Hrun.
      eexists _, _, w1. split; [exact Hrun|].
      split; [exact (same_but_files_spawned _ _ Hs)|].
      split; [reflexivity|]. left. split; [reflexivity | exact Hcalls].
    + destruct Hrun as (p1 & Hrun & Hp). exists OSError, p1, w1.
      split; [exact Hrun|].
      split; [exact (same_but_files_spawned _ _ Hs)|].
      split; [exact Hp|]. right. split; [reflexivity | exact Hcalls].
Qed.

Lemma not_found_is_CommandNotFound_witness :
  Command.__init__ (fun _ _ => None) "tea" (Some ["/bin"; "/usr/bin"]) world0
  = (Exc (CommandNotFound "tea"), world0) /\
  exists e p' w',
    Process.start sample_spawn
      (sample_process ["/bin/tea"; "--milk"] true, world0)
    = (Exc e, (p', w')) /\
    spawned w' = spawned world0 /\
    Process._process p' = Process._process
                            (sample_process ["/bin/tea"; "--milk"] true) /\
    ((e = CommandNotFound (not_found_message "/bin/tea") /\
      os_calls true (faults world0) (faults w')) \/
     (e = OSError /\ os_calls false (faults world0) (faults w'))).
Proof.
  split.
  - apply (proj1 not_found_is_CommandNotFound). reflexivity.
  - apply (proj2 not_found_is_CommandNotFound sample_spawn _ world0
             "/bin/tea" ["--milk"]); reflexivity.
Defined.

(** ** exit_code without a handle *)

(** C10.  [exit_code] on an instance that was never started, and on one whose
    [kill()] gave [True], which set the handle to [None], raises
    [AttributeError]: [is_running] is [False], and [self._process.returncode]
    is then read off [None]. *)
Theorem exit_code_without_handle_raises :
  (forall abspath command stdout stderr demux environment working_dir
          encoding w,
     exists p,
       Process.__init__ abspath command stdout stderr demux environment
         working_dir encoding w = (Ret p, w) /\
       Process.exit_code (p, w) = (Exc AttributeError, (p, w))) /\
  (forall fuel p w p' w',
     Process.kill fuel (p, w) = (Ret (Some true), (p', w')) ->
     Process.exit_code (p', w') = (Exc AttributeError, (p', w'))).
Proof.
  split.
  - intros. eexists. split; [reflexivity|].
    apply exit_code_no_handle. reflexivity.
  - intros fuel p w p' w' H. apply exit_code_no_handle.
    exact (kill_true_clears _ _ _ _ _ H).
Qed.

Lemma exit_code_without_handle_raises_witness :
  let s := (sample_started ["/bin/sleep"; "infinity"] true).2 in
  let r := Process.kill (Z.to_nat 5001) s in
  r.1 = Ret (Some true) /\
  Process.exit_code (r.2.1, r.2.2) = (Exc AttributeError, (r.2.1, r.2.2)).
Proof.
  intros s r. split; [vm_compute; reflexivity|].
  apply (proj2 exit_code_without_handle_raises (Z.to_nat 5001) s.1 s.2).
  vm_compute. reflexivity.
Defined.

(** ** eread *)

(** Reading a pipe to its end, for a child that has a time to end and whose
    stream is let go of [l] ms after: the call returns at the end of the
    file, which can be later than the call, with all that went into the
    pipe. *)
Lemma read_to_end_run output held mark h p w t status l :
  Process.p_exit h = Some (t, status) ->
  o_lingers output = Some l ->
  Process.read_to_end Process.Unread output held mark h (p, w)
  = (Ret (o_written output (t + Z.max 0 l - Process.p_started h)),
     (Process.set__process (Some (mark h)) p,
      set_clock (Z.max (clock w) (t + Z.max 0 l)) w)).
Proof.
  intros He Hl. unfold Process.read_to_end, Process.let_go.
  rewrite He. step. rewrite He, Hl. reflexivity.
Qed.

(** ... for a child that does not end: the call does not return. *)
Lemma read_to_end_endless output held mark h p w :
  Process.p_exit h = None ->
  Process.c_lifetime (Process.p_child h) = None ->
  Process.read_to_end Process.Unread output held mark h (p, w)
  = (Blocked, (p, w)).
Proof.
  intros He Hl. unfold Process.read_to_end, Process.let_go.
  rewrite He, Hl. step. rewrite He. reflexivity.
Qed.

(** C9 (the code departs from the claim).  Without demux [eread()] gives the
    empty string and touches nothing, as the claim has it.  With demux and
    no file for the standard error, it does not take what the pipe holds at
    the time of the call: [stderr.read()] reads to the end of the file.  On
    a child that does not end it does not return; on a child that ends it
    returns when the child has ended and its descendants have let go of the
    pipe, with all that was written, and the next call gives the empty
    string at once.  With a file it reads all that the file holds at the
    time, in text mode, so that a [\r\n] and a [\r] of the file come as a
    [\n], and the next call reads all of it again.  The claim has it return
    at once, on a running child too, with what is buffered. *)
Theorem eread_waits_for_the_end_of_the_file :
  (forall decode p w,
     Process._demux p = false ->
     Process.eread decode (p, w) = (Ret EmptyString, (p, w))) /\
  (forall decode p w h,
     Process._demux p = true ->
     Process._stderr p = None ->
     Process._process p = Some h ->
     Process.p_stderr h = Some Process.Unread ->
     Process.p_exit h = None ->
     Process.c_lifetime (Process.p_child h) = None ->
     Process.eread decode (p, w) = (Blocked, (p, w))) /\
  (forall decode p w h t status l,
     Process._demux p = true ->
     Process._stderr p = None ->
     Process._process p = Some h ->
     Process.p_stderr h = Some Process.Unread ->
     Process.p_exit h = Some (t, status) ->
     o_lingers (Process.c_err (Process.p_child h)) = Some l ->
     let eof := t + Z.max 0 l in
     let p' := Process.set__process
                 (Some (Process.set_p_stderr (Some Process.ReadToEnd) h)) p in
     let w' := set_clock (Z.max (clock w) eof) w in
     Process.eread decode (p, w)
     = (decoded decode (Process.encoding p)
          (o_written (Process.c_err (Process.p_child h))
             (eof - Process.p_started h)), (p', w')) /\
     Process.eread decode (p', w')
     = (decoded decode (Process.encoding p) [], (p', w'))) /\
  (forall decode p w path data,
     Process._demux p = true ->
     Process._stderr p = Some path ->
     head (faults w) <> Some true ->
     file_now path w = Some data ->
     Process.eread decode (p, w)
     = (match decode (Process.encoding p) data with
        | Some text => Ret (universal_newlines text)
        | None => Exc UnicodeError
        end,
        (p, set_faults (tail (faults w)) w))) /\
  (exists p w,
     sample_started ["/bin/sleep"; "infinity"] true = (Ret tt, (p, w)) /\
     alive p (clock w) = true /\
     Process.eread sample_decode (p, w) = (Blocked, (p, w))) /\
  (exists p w w',
     sample_started ["/bin/sh"; "-c"; "echo oops >&2"] true
     = (Ret tt, (p, w)) /\
     alive p (clock w + 5) = true /\
     (Process.eread sample_decode (p, set_clock (clock w + 5) w)).1
     = Ret (String.string_of_list_byte oops_line) /\
     (Process.eread sample_decode (p, set_clock (clock w + 5) w)).2.2 = w' /\
     clock w' = clock w + 10).
Proof.
  split; [|split; [|split; [|split; [|split]]]].
  - intros decode p w Hd. unfold Process.eread. step. rewrite Hd. reflexivity.
  - intros decode p w h Hd He Hp Hs Hexit Hlife. unfold Process.eread.
    unfold bind at 1, Process.self at 1, gets. cbn [fst snd]. rewrite Hd.
    unfold bind at 1, Process.self at 1, gets. cbn [fst snd]. rewrite He.
    unfold bind at 1, Process.self at 1, gets. cbn [fst snd]. rewrite Hp.
    unfold bind at 1, deref at 1, ret at 1.
    rewrite Hs. unfold bind at 1, deref at 1, ret at 1.
    unfold bind at 1. rewrite read_to_end_endless by assumption.
    reflexivity.
  - intros decode p w h t status l Hd He Hp Hs Hexit Hl eof p' w'.
    split.
    + unfold Process.eread.
      unfold bind at 1, Process.self at 1, gets. cbn [fst snd]. rewrite Hd.
      unfold bind at 1, Process.self at 1, gets. cbn [fst snd]. rewrite He.
      unfold bind at 1, Process.self at 1, gets. cbn [fst snd]. rewrite Hp.
      unfold bind at 1, deref at 1, ret at 1.
      rewrite Hs. unfold bind at 1, deref at 1, ret at 1.
      unfold bind at 1.
      rewrite (read_to_end_run _ _ _ h p w t status l Hexit Hl).
      unfold Process.decode_as, decoded. step.
      destruct (decode (Process.encoding p) _); reflexivity.
    + unfold Process.eread, Process.read_to_end, Process.decode_as, decoded.
      step. rewrite Hd. cbn. rewrite He. cbn.
      destruct (decode (Process.encoding p) []); reflexivity.
  - intros decode p w path data Hd He Hf Hdata.
    unfold Process.eread, Process.read_text, Process.decode_as, read_file,
      syscall, os_fault.
    step. rewrite Hd. cbn. rewrite He. cbn.
    destruct (faults w) as [|[] rest] eqn:Hfw; cbn in *.
    + rewrite Hdata. cbn.
      replace (set_faults [] w) with w
        by (destruct w; cbn in Hfw; subst; reflexivity).
      destruct (decode (Process.encoding p) data); reflexivity.
    + congruence.
    + change (file_now path (set_faults rest w)) with (file_now path w).
      rewrite Hdata. cbn.
      destruct (decode (Process.encoding p) data); reflexivity.
  - eexists _, _. vm_compute. repeat split.
  - eexists _, _, _. vm_compute. repeat split.
Qed.

(** ** write *)

(** The text that [write] sends for a string that is not empty. *)
Lemma write_nonempty encode text last p w h data :
  last_char text = Some last ->
  Process._process p = Some h ->
  Process.returncode h (clock w) = None ->
  encode (Process.encoding p)
    (if decide (last <> newline)
     then text +:+ String newline EmptyString else text) = Some data ->
  Process.write encode text (p, w)
  = (Ret tt,
     (Process.set__process
        (Some (Process.set_p_stdin []
                 (Process.p_stdin_pipe h ++ (Process.p_stdin_buffer h ++ data))
                 h)) p, w)).
Proof.
  intros Hl Hp Hr He. unfold Process.write. rewrite Hl. step.
  rewrite Hp. cbn. rewrite He. cbn.
  unfold Process.returncode in *. cbn. rewrite Hr. reflexivity.
Qed.

(** C8 (the code departs from the claim).  [write("")], on any instance and
    so on a running one: [string[-1]] raises [IndexError], nothing is
    written to the standard input of the child and nothing is flushed.  The
    claim has a newline appended, since the empty string does not end in
    one, and that line sent. *)
Theorem write_empty_string_raises :
  (forall encode p w,
     Process.write encode EmptyString (p, w) = (Exc IndexError, (p, w))) /\
  (exists p w,
     sample_started ["/bin/sleep"; "infinity"] true = (Ret tt, (p, w)) /\
     alive p (clock w) = true /\
     Process.write sample_encode EmptyString (p, w)
     = (Exc IndexError, (p, w)) /\
     exists p',
       Process.write sample_encode "tea" (p, w) = (Ret tt, (p', w)) /\
       option_map Process.p_stdin_pipe (Process._process p')
       = Some (String.list_byte_of_string "tea" ++ [Byte.x0a])%list).
Proof.
  split.
  - intros. reflexivity.
  - eexists _, _. split; [vm_compute; reflexivity|].
    split; [vm_compute; reflexivity|]. split; [reflexivity|].
    eexists. split; vm_compute; reflexivity.
Qed.

(** ** command_list *)

Lemma render_kwargs_two prefix kwargs :
  forall command,
    fold_left (Command.render_kwarg (VStr " ") (VStr prefix)) kwargs command
    = (command ++ flat_map (two_tokens prefix) kwargs)%list.
Proof.
  induction kwargs as [|[key value] rest IH]; intros command; cbn.
  - rewrite app_nil_r. reflexivity.
  - destruct (decide (VStr " " = VStr " ")) as [_|N]; [|congruence].
    rewrite IH, <- List.app_assoc. reflexivity.
Qed.

Lemma render_kwargs_one prefix sep kwargs :
  sep <> " " ->
  forall command,
    fold_left (Command.render_kwarg (VStr sep) (VStr prefix)) kwargs command
    = (command ++ flat_map (one_token prefix sep) kwargs)%list.
Proof.
  intros Hsep. induction kwargs as [|[key value] rest IH]; intros command; cbn.
  - rewrite app_nil_r. reflexivity.
  - destruct (decide (VStr sep = VStr " ")) as [E|_]; [congruence|].
    rewrite IH, <- List.app_assoc. reflexivity.
Qed.

Lemma command_list_run w self c args kwargs options sep prefix :
  is_command (heap w) self c args kwargs options ->
  dict_get options "kwargs_sep" = Some sep ->
  dict_get options "kwargs_prefix" = Some prefix ->
  Command.command_list self w
  = (Ret (fold_left (Command.render_kwarg sep prefix) kwargs
            (VStr (command c) :: args)), w).
Proof.
  intros (Hc & Ha & Hk & Ho) Hsep Hprefix.
  unfold Command.command_list, load_command, load_list, load_dict, getitem.
  step. rewrite Hc. cbn. rewrite Ha. cbn. rewrite Ho. cbn.
  rewrite Hsep. cbn. rewrite Hprefix. cbn. rewrite Hk. reflexivity.
Qed.

(** C7.  A command whose options have the prefix [--], and whose named
    arguments hold the entry [key: value] between the entries [before] and
    [after]: with the separator [" "] the vector is the executable, the
    positional arguments, the tokens of [before], then [--key] and [value],
    then the tokens of [after]; with the separator ["="] the entry gives the
    one token [--key=value], at the same place. *)
Theorem command_list_renders_kwargs w self c args options before key value
    after :
  is_command (heap w) self c args (before ++ (key, VStr value) :: after)%list
    options ->
  dict_get options "kwargs_prefix" = Some (VStr "--") ->
  (dict_get options "kwargs_sep" = Some (VStr " ") ->
   Command.command_list self w
   = (Ret (VStr (command c) :: args
           ++ flat_map (two_tokens "--") before
           ++ [VStr ("--" +:+ key); VStr value]
           ++ flat_map (two_tokens "--") after)%list, w)) /\
  (dict_get options "kwargs_sep" = Some (VStr "=") ->
   Command.command_list self w
   = (Ret (VStr (command c) :: args
           ++ flat_map (one_token "--" "=") before
           ++ [VStr ("--" +:+ key +:+ "=" +:+ value)]
           ++ flat_map (one_token "--" "=") after)%list, w)).
Proof.
  intros Hcmd Hprefix. split; intros Hsep;
    rewrite (command_list_run _ _ _ _ _ _ _ _ Hcmd Hsep Hprefix).
  - rewrite render_kwargs_two, flat_map_app. reflexivity.
  - rewrite render_kwargs_one by discriminate.
    rewrite flat_map_app. reflexivity.
Qed.

Lemma bind_bind {S A B C} (m : M S A) (k : A -> M S B) (k' : B -> M S C) s :
  bind (bind m k) k' s = bind m (fun a => bind (k a) k') s.
Proof. unfold bind. destruct (m s) as [[a|e| |] s1]; reflexivity. Qed.

(** ** The heap

    A heap is seen as the objects [h] that were there before a call and the
    objects [ext] that the call has made since. *)

Lemma alloc_ext h ext o w0 :
  alloc o (set_heap (h ++ ext) w0)
  = (Ret (length h + length ext)%nat, set_heap (h ++ (ext ++ [o])) w0).
Proof.
  unfold alloc. cbn. rewrite length_app, <- List.app_assoc. reflexivity.
Qed.

Lemma lookup_old (h ext : list obj) l o :
  h !! l = Some o -> (h ++ ext) !! l = Some o.
Proof. intros H. apply lookup_app_l_Some. exact H. Qed.

Lemma lookup_new (h ext : list obj) k :
  (h ++ ext) !! (length h + k)%nat = ext !! k.
Proof.
  rewrite lookup_app_r by lia. f_equal. lia.
Qed.

Lemma load_list_old h ext w0 l x :
  h !! l = Some (OList x) ->
  load_list l (set_heap (h ++ ext) w0) = (Ret x, set_heap (h ++ ext) w0).
Proof.
  intros H. unfold load_list. cbn. rewrite (lookup_old _ _ _ _ H). reflexivity.
Qed.

Lemma load_dict_old h ext w0 l d :
  h !! l = Some (ODict d) ->
  load_dict l (set_heap (h ++ ext) w0) = (Ret d, set_heap (h ++ ext) w0).
Proof.
  intros H. unfold load_dict. cbn. rewrite (lookup_old _ _ _ _ H). reflexivity.
Qed.

Lemma load_command_old h ext w0 l c :
  h !! l = Some (OCommand c) ->
  load_command l (set_heap (h ++ ext) w0) = (Ret c, set_heap (h ++ ext) w0).
Proof.
  intros H. unfold load_command. cbn. rewrite (lookup_old _ _ _ _ H).
  reflexivity.
Qed.

Lemma load_list_new h ext w0 k x :
  ext !! k = Some (OList x) ->
  load_list (length h + k)%nat (set_heap (h ++ ext) w0)
  = (Ret x, set_heap (h ++ ext) w0).
Proof.
  intros H. unfold load_list. cbn. rewrite lookup_new, H. reflexivity.
Qed.

Lemma load_dict_new h ext w0 k d :
  ext !! k = Some (ODict d) ->
  load_dict (length h + k)%nat (set_heap (h ++ ext) w0)
  = (Ret d, set_heap (h ++ ext) w0).
Proof.
  intros H. unfold load_dict. cbn. rewrite lookup_new, H. reflexivity.
Qed.

Lemma load_command_new h ext w0 k c :
  ext !! k = Some (OCommand c) ->
  load_command (length h + k)%nat (set_heap (h ++ ext) w0)
  = (Ret c, set_heap (h ++ ext) w0).
Proof.
  intros H. unfold load_command. cbn. rewrite lookup_new, H. reflexivity.
Qed.

Lemma store_new h ext w0 k o :
  store (length h + k)%nat o (set_heap (h ++ ext) w0)
  = (Ret tt, set_heap (h ++ <[k := o]> ext) w0).
Proof. unfold store, modify. cbn. rewrite insert_app_r. reflexivity. Qed.

(** The loop of [bake] changes the two dicts, which the call has made, as
    [split_options] says. *)
Lemma pop_options_run h w0 ik io names :
  ik <> io ->
  forall ext kw op,
    ext !! ik = Some (ODict kw) ->
    ext !! io = Some (ODict op) ->
    Command.pop_options names (length h + ik)%nat (length h + io)%nat
      (set_heap (h ++ ext) w0)
    = (Ret tt,
       set_heap (h ++ <[io := ODict (split_options names kw op).2]>
                        (<[ik := ODict (split_options names kw op).1]> ext))
         w0).
Proof.
  intros Hne. induction names as [|option rest IH]; intros ext kw op Hk Ho.
  - cbn. rewrite (list_insert_id _ ik) by exact Hk.
    rewrite (list_insert_id _ io) by exact Ho. reflexivity.
  - cbn [Command.pop_options split_options].
    rewrite (bind_Ret _ _ _ _ _ (load_dict_new _ _ _ _ _ Hk)).
    fold (option_key option).
    destruct (dict_get kw (option_key option)) as [v|] eqn:Hget.
    + rewrite bind_bind.
      rewrite (bind_Ret _ _ _ _ _ (store_new _ _ _ _ _)).
      assert (Ho' : <[ik := ODict (dict_del kw (option_key option))]> ext !! io
                    = Some (ODict op))
        by (rewrite list_lookup_insert_ne by exact Hne; exact Ho).
      rewrite bind_bind.
      rewrite (bind_Ret _ _ _ _ _ (load_dict_new _ _ _ _ _ Ho')).
      rewrite (bind_Ret _ _ _ _ _ (store_new _ _ _ _ _)).
      assert (Hlt : (ik < length ext)%nat) by (eapply lookup_lt_Some; eauto).
      assert (Hlo : (io < length ext)%nat) by (eapply lookup_lt_Some; eauto).
      rewrite IH with (kw := dict_del kw (option_key option))
                      (op := dict_set op option v).
      * f_equal. f_equal. f_equal.
        rewrite (list_insert_insert_ne _ ik io) by exact Hne.
        rewrite !list_insert_insert_eq. reflexivity.
      * rewrite list_lookup_insert_ne by (intros E; apply Hne; auto).
        apply list_lookup_insert_eq. exact Hlt.
      * apply list_lookup_insert_eq. rewrite length_insert. exact Hlo.
    + rewrite (bind_Ret _ _ (set_heap (h ++ ext) w0) tt
                 (set_heap (h ++ ext) w0) eq_refl).
      apply IH; assumption.
Qed.

(** ** bake *)

Lemma set_heap_same w : set_heap (heap w ++ []) w = w.
Proof. rewrite app_nil_r. destruct w; reflexivity. Qed.

(** One statement of a method body that works on the heap, run on a heap
    that is seen as old objects and new ones. *)
Ltac heap_step :=
  rewrite ?bind_bind;
  first
    [ rewrite (bind_Ret _ _ _ _ _ (alloc_ext _ _ _ _))
    | rewrite (bind_Ret _ _ _ _ _ (store_new _ _ _ _ _))
    | match goal with
      | H : _ !! _ = Some (OCommand _) |- _ =>
          rewrite (bind_Ret _ _ _ _ _ (load_command_old _ _ _ _ _ H))
      | H : _ !! _ = Some (OList _) |- _ =>
          rewrite (bind_Ret _ _ _ _ _ (load_list_old _ _ _ _ _ H))
      | H : _ !! _ = Some (ODict _) |- _ =>
          rewrite (bind_Ret _ _ _ _ _ (load_dict_old _ _ _ _ _ H))
      end
    | match goal with
      | |- context [bind (load_command (length ?h + ?k)%nat) _
                      (set_heap (?h ++ ?ext) ?w0)] =>
          let o := eval cbn in (ext !! k) in
          match o with
          | Some (OCommand ?c) =>
              rewrite (bind_Ret _ _ _ _ _
                         (load_command_new h ext w0 k c eq_refl))
          end
      | |- context [bind (load_list (length ?h + ?k)%nat) _
                      (set_heap (?h ++ ?ext) ?w0)] =>
          let o := eval cbn in (ext !! k) in
          match o with
          | Some (OList ?x) =>
              rewrite (bind_Ret _ _ _ _ _ (load_list_new h ext w0 k x eq_refl))
          end
      | |- context [bind (load_dict (length ?h + ?k)%nat) _
                      (set_heap (?h ++ ?ext) ?w0)] =>
          let o := eval cbn in (ext !! k) in
          match o with
          | Some (ODict ?d) =>
              rewrite (bind_Ret _ _ _ _ _ (load_dict_new h ext w0 k d eq_refl))
          end
      end ];
  cbn [length app command search_paths _options _args _kwargs
       insert list_insert].

(** What [bake] does, in one equation: eleven objects are made, and none of
    those that were there is changed. *)
Lemma bake_run which w self c args kwargs options new_args new_kwargs found :
  is_command (heap w) self c args kwargs options ->
  which (command c)
    (match search_paths c with
     | None => None
     | Some sp => Some (Command.pathsep_join sp)
     end) = Some found ->
  let n := length (heap w) in
  let sp := split_options option_names new_kwargs [] in
  Command.bake which self new_args new_kwargs w
  = (Ret (n + 4)%nat,
     set_heap
       (heap w ++
        [ ODict sp.1; ODict Command.DEFAULT_OPTIONS; OList []; ODict [];
          OCommand {| command := found; search_paths := search_paths c;
                      _options := (n + 10)%nat; _args := (n + 7)%nat;
                      _kwargs := (n + 9)%nat |};
          OList args; OList new_args; OList (args ++ new_args); ODict sp.2;
          ODict (dict_update kwargs sp.1); ODict (dict_update options sp.2) ])
       w).
Proof.
  intros (Hc & Ha & Hk & Ho) Hwhich n sp.
  rewrite <- (set_heap_same w) at 1. subst n. revert sp.
  generalize dependent (heap w). intros h Hc Ha Hk Ho sp.
  unfold Command.bake.
  heap_step. heap_step.
  unfold Command.__init__ at 1. rewrite Hwhich.
  repeat heap_step.
  match goal with
  | |- context [set_heap (h ++ ?ext) w] =>
      rewrite (bind_Ret _ _ _ _ _
                 (pop_options_run h w 0 8 option_names ltac:(discriminate)
                    ext new_kwargs [] eq_refl eq_refl))
  end.
  cbn [insert list_insert]. fold sp.
  repeat heap_step.
  reflexivity.
Qed.

(** ** Dictionaries *)

Section DictFacts.
Context {V : Type}.
Implicit Types (d : list (string * V)) (k : string) (v : V).

Lemma dict_get_None d k : dict_get d k = None <-> k ∉ dict_keys d.
Proof.
  induction d as [|[k' v'] rest IH]; cbn.
  - split; [intros _; apply not_elem_of_nil | reflexivity].
  - rewrite not_elem_of_cons. destruct (decide (k' = k)) as [->|Hne].
    + split; [discriminate | intros [H _]; contradiction].
    + rewrite IH. split; [intros H; split; [congruence | exact H] | tauto].
Qed.

Lemma dict_set_fresh d k v :
  k ∉ dict_keys d -> dict_set d k v = d ++ [(k, v)].
Proof.
  induction d as [|[k' v'] rest IH]; cbn; [reflexivity|].
  rewrite not_elem_of_cons. intros [Hne Hnot].
  destruct (decide (k' = k)) as [->|_]; [contradiction|].
  rewrite IH by exact Hnot. reflexivity.
Qed.

Lemma dict_keys_del_subset d k k' :
  k' ∈ dict_keys (dict_del d k) -> k' ∈ dict_keys d.
Proof.
  induction d as [|[k0 v0] rest IH]; cbn; [tauto|].
  destruct (decide (k0 = k)) as [->|Hne]; cbn.
  - intros H. apply elem_of_cons. right. exact H.
  - rewrite !elem_of_cons. intros [->|H]; [left; reflexivity | right; auto].
Qed.

Lemma NoDup_dict_del d k :
  NoDup (dict_keys d) -> NoDup (dict_keys (dict_del d k)).
Proof.
  induction d as [|[k0 v0] rest IH]; cbn; [tauto|].
  rewrite NoDup_cons. intros [Hnot Hnd].
  destruct (decide (k0 = k)) as [->|Hne]; cbn; [exact Hnd|].
  apply NoDup_cons. split; [|exact (IH Hnd)].
  intros H. apply Hnot. eapply dict_keys_del_subset. exact H.
Qed.

Lemma dict_get_del_ne d k k' :
  k <> k' -> dict_get (dict_del d k) k' = dict_get d k'.
Proof.
  intros Hne. induction d as [|[k0 v0] rest IH]; cbn; [reflexivity|].
  destruct (decide (k0 = k)) as [->|Hk].
  - destruct (decide (k = k')); [contradiction | reflexivity].
  - cbn. rewrite IH. reflexivity.
Qed.

Lemma filter_all (P : string * V -> Prop) `{forall x, Decision (P x)} d :
  (forall x, x ∈ d -> P x) -> filter P d = d.
Proof.
  induction d as [|x rest IH]; intros Hall; [reflexivity|].
  rewrite filter_cons_True by (apply Hall; left).
  rewrite IH; [reflexivity|]. intros y Hy. apply Hall. right. exact Hy.
Qed.

Lemma dict_del_filter d k :
  NoDup (dict_keys d) ->
  dict_del d k = filter (fun item => item.1 <> k) d.
Proof.
  induction d as [|[k0 v0] rest IH]; [reflexivity|].
  intros Hnd. cbn in Hnd. apply NoDup_cons in Hnd as [Hnot Hnd].
  cbn [dict_del].
  destruct (decide (k0 = k)) as [->|Hne].
  - rewrite filter_cons_False by (cbn; tauto).
    rewrite filter_all; [reflexivity|].
    intros [k1 v1] Hin Heq. cbn in Heq. subst k1. apply Hnot.
    apply list_elem_of_In, in_map_iff. exists (k, v1).
    split; [reflexivity | apply list_elem_of_In; exact Hin].
  - rewrite filter_cons_True by (cbn; exact Hne).
    rewrite IH by exact Hnd. reflexivity.
Qed.

Lemma filter_agree (P Q : string * V -> Prop)
    `{forall x, Decision (P x)} `{forall x, Decision (Q x)} d :
  (forall x, x ∈ d -> (P x <-> Q x)) -> filter P d = filter Q d.
Proof.
  induction d as [|x rest IH]; intros Hall; [reflexivity|].
  rewrite !filter_cons.
  assert (Hx : P x <-> Q x) by (apply Hall; left).
  rewrite IH by (intros y Hy; apply Hall; right; exact Hy).
  destruct (decide (P x)), (decide (Q x)); tauto || reflexivity.
Qed.
End DictFacts.

Lemma option_key_inj a b : option_key a = option_key b -> a = b.
Proof. unfold option_key. cbn. intros [= H]. exact H. Qed.

Lemma flat_map_agree {A B} (f g : A -> list B) (l : list A) :
  (forall x, x ∈ l -> f x = g x) -> flat_map f l = flat_map g l.
Proof.
  induction l as [|x rest IH]; intros Hall; [reflexivity|]. cbn.
  rewrite (Hall x) by left.
  rewrite IH; [reflexivity|]. intros y Hy. apply Hall. right. exact Hy.
Qed.

(** The loop of [bake] takes the overrides out of the keyword arguments and
    leaves the named arguments. *)
Lemma split_options_spec names :
  NoDup names ->
  forall (kw op : list (string * pyval)),
    NoDup (dict_keys kw) ->
    (forall o, o ∈ names -> o ∉ dict_keys op) ->
    split_options names kw op
    = (filter (fun item => item.1 ∉ map option_key names) kw,
       op ++ flat_map (fun option =>
                         match dict_get kw (option_key option) with
                         | Some v => [(option, v)]
                         | None => []
                         end) names).
Proof.
  induction names as [|o rest IH]; intros Hnd kw op Hkw Hop.
  - cbn. rewrite app_nil_r. f_equal. symmetry. apply filter_all.
    intros x _. apply not_elem_of_nil.
  - apply NoDup_cons in Hnd as [Ho Hnd].
    cbn [split_options flat_map map].
    destruct (dict_get kw (option_key o)) as [v|] eqn:Hget.
    + rewrite IH; [| exact Hnd | apply NoDup_dict_del; exact Hkw |].
      * f_equal.
        -- rewrite dict_del_filter by exact Hkw.
           rewrite list_filter_filter. apply filter_agree.
           intros [k x] _. cbn. rewrite not_elem_of_cons. tauto.
        -- rewrite dict_set_fresh by (apply Hop; left).
           rewrite <- List.app_assoc. f_equal. cbn. f_equal.
           apply flat_map_agree. intros o' Ho'.
           rewrite dict_get_del_ne; [reflexivity|].
           intros E. apply option_key_inj in E. subst o'. contradiction.
      * intros o' Ho'. rewrite dict_set_fresh by (apply Hop; left).
        unfold dict_keys. rewrite map_app. cbn.
        rewrite not_elem_of_app, not_elem_of_cons.
        split; [apply Hop; right; exact Ho'|].
        split; [intros ->; contradiction | apply not_elem_of_nil].
    + rewrite IH; [| exact Hnd | exact Hkw |].
      * f_equal. apply filter_agree. intros [k x] Hin. cbn.
        rewrite not_elem_of_cons. split; [|tauto].
        intros H. split; [|exact H]. intros ->.
        apply dict_get_None in Hget. apply Hget.
        apply list_elem_of_In, in_map_iff. exists (option_key o, x).
        split; [reflexivity | apply list_elem_of_In; exact Hin].
      * intros o' Ho'. apply Hop. right. exact Ho'.
Qed.

Lemma split_options_bake kwargs :
  NoDup (dict_keys kwargs) ->
  split_options option_names kwargs [] = (named kwargs, overrides kwargs).
Proof.
  intros Hnd. rewrite split_options_spec.
  - reflexivity.
  - unfold option_names. cbn. repeat constructor; cbn;
      rewrite ?not_elem_of_cons; repeat split;
      try discriminate; apply not_elem_of_nil.
  - exact Hnd.
  - intros o _. apply not_elem_of_nil.
Qed.

Section DictMerge.
Context {V : Type}.
Implicit Types (a b : list (string * V)) (k : string) (v : V).

Lemma dict_get_set a k v k' :
  dict_get (dict_set a k v) k'
  = if decide (k = k') then Some v else dict_get a k'.
Proof.
  induction a as [|[k0 v0] rest IH]; cbn.
  - destruct (decide (k = k')); reflexivity.
  - destruct (decide (k0 = k)) as [->|Hne]; cbn.
    + destruct (decide (k = k')); reflexivity.
    + rewrite IH. destruct (decide (k0 = k')) as [->|Hne'].
      * destruct (decide (k = k')); [congruence | reflexivity].
      * reflexivity.
Qed.

(** [{**a, **b}] holds, for a key, the value of [b] if [b] has the key, and
    the value of [a] otherwise. *)
Lemma dict_get_update b :
  NoDup (dict_keys b) ->
  forall a k,
    dict_get (dict_update a b) k
    = match dict_get b k with
      | Some v => Some v
      | None => dict_get a k
      end.
Proof.
  unfold dict_update.
  induction b as [|[k0 v0] rest IH]; intros Hnd a k; [reflexivity|].
  cbn in Hnd. apply NoDup_cons in Hnd as [Hnot Hnd].
  cbn [fold_left dict_get fst snd]. rewrite (IH Hnd), dict_get_set.
  destruct (decide (k0 = k)) as [->|Hne]; [|reflexivity].
  apply dict_get_None in Hnot. rewrite Hnot. reflexivity.
Qed.
End DictMerge.

Lemma NoDup_named kwargs :
  NoDup (dict_keys kwargs) -> NoDup (dict_keys (named kwargs)).
Proof.
  unfold named. induction kwargs as [|[k v] rest IH]; [tauto|].
  intros Hnd. cbn in Hnd. apply NoDup_cons in Hnd as [Hnot Hnd].
  rewrite filter_cons.
  destruct (decide _) as [_|_]; [|exact (IH Hnd)].
  cbn [dict_keys map fst]. apply NoDup_cons. split; [|exact (IH Hnd)].
  intros H. apply Hnot. clear -H.
  apply list_elem_of_In, in_map_iff in H as ([k' v'] & <- & Hin).
  apply list_elem_of_In, list_elem_of_filter in Hin as [_ Hin].
  apply list_elem_of_In, in_map_iff. exists (k', v').
  split; [reflexivity | apply list_elem_of_In; exact Hin].
Qed.

Lemma NoDup_overrides kwargs : NoDup (dict_keys (overrides kwargs)).
Proof.
  unfold overrides, option_names. cbn.
  repeat match goal with
         | |- context [dict_get kwargs ?k] => destruct (dict_get kwargs k)
         end; cbn;
    repeat (apply NoDup_cons; split;
            [rewrite ?not_elem_of_cons; repeat split;
             try discriminate; apply not_elem_of_nil|]);
    apply NoDup_nil; exact I.
Qed.

Lemma command_list_same_objects w1 w2 self c args kwargs options :
  is_command (heap w1) self c args kwargs options ->
  is_command (heap w2) self c args kwargs options ->
  (Command.command_list self w1).1 = (Command.command_list self w2).1.
Proof.
  intros (Hc1 & Ha1 & Hk1 & Ho1) (Hc2 & Ha2 & Hk2 & Ho2).
  unfold Command.command_list, load_command, load_list, load_dict, getitem.
  step. rewrite Hc1, Hc2. cbn. rewrite Ha1, Ha2. cbn. rewrite Ho1, Ho2. cbn.
  destruct (dict_get options "kwargs_sep"); [|reflexivity]. cbn.
  destruct (dict_get options "kwargs_prefix"); [|reflexivity]. cbn.
  rewrite Hk1, Hk2. reflexivity.
Qed.

Lemma command_list_renders_kwargs_witness :
  Command.command_list 8%nat world_ls_l
  = (Ret [VStr "/bin/ls"; VStr "-l"; VStr "--key"; VStr "value"], world_ls_l) /\
  Command.command_list 8%nat world_ls_eq
  = (Ret [VStr "/bin/ls"; VStr "--key=value"], world_ls_eq).
Proof.
  split.
  - refine (proj1 (command_list_renders_kwargs world_ls_l 8%nat baked
                     [VStr "-l"]
                     [("fg", VBool false); ("in", VNone); ("out", VNone);
                      ("err", VNone); ("kwargs_sep", VStr " ");
                      ("kwargs_prefix", VStr "--")]
                     [] "key" "value" [] _ _) _);
      [repeat split | reflexivity | reflexivity].
  - refine (proj2 (command_list_renders_kwargs world_ls_eq 8%nat baked []
                     [("fg", VBool false); ("in", VNone); ("out", VNone);
                      ("err", VNone); ("kwargs_sep", VStr "=");
                      ("kwargs_prefix", VStr "--")]
                     [] "key" "value" [] _ _) _);
      [repeat split | reflexivity | reflexivity].
Defined.

(** C6.  [C.bake( *args, **kwargs)], for a command [C] whose executable still
    resolves: the call makes new objects and changes none that was there, so
    [C] has the arguments, named arguments and options that it had and its
    [command_list] is what it was; the command that is returned is a new
    object, with the arguments of [C] followed by [args], with the named
    arguments of [C] merged with those of the call, and with the options of
    [C] merged with the overrides of the call; in a merge the value of the
    call wins for a key that both have. *)
Theorem bake_leaves_command_and_merges which w self c args kwargs options
    new_args new_kwargs found :
  is_command (heap w) self c args kwargs options ->
  which (command c)
    (match search_paths c with
     | None => None
     | Some sp => Some (Command.pathsep_join sp)
     end) = Some found ->
  NoDup (dict_keys new_kwargs) ->
  exists cmd c' fresh,
    Command.bake which self new_args new_kwargs w
    = (Ret cmd, set_heap (heap w ++ fresh) w) /\
    is_command (heap w ++ fresh) self c args kwargs options /\
    (Command.command_list self (set_heap (heap w ++ fresh) w)).1
    = (Command.command_list self w).1 /\
    (length (heap w) <= cmd)%nat /\
    command c' = found /\
    is_command (heap w ++ fresh) cmd c' (args ++ new_args)
      (dict_update kwargs (named new_kwargs))
      (dict_update options (overrides new_kwargs)) /\
    (forall k,
       dict_get (dict_update kwargs (named new_kwargs)) k
       = match dict_get (named new_kwargs) k with
         | Some v => Some v
         | None => dict_get kwargs k
         end) /\
    (forall k,
       dict_get (dict_update options (overrides new_kwargs)) k
       = match dict_get (overrides new_kwargs) k with
         | Some v => Some v
         | None => dict_get options k
         end).
Proof.
  intros Hcmd Hwhich Hnd.
  pose proof (bake_run which w self c args kwargs options new_args new_kwargs
                found Hcmd Hwhich) as Hrun.
  cbn zeta in Hrun. rewrite (split_options_bake _ Hnd) in Hrun.
  cbn [fst snd] in Hrun.
  eexists _, {| command := found; search_paths := search_paths c;
                 _options := (length (heap w) + 10)%nat;
                 _args := (length (heap w) + 7)%nat;
                 _kwargs := (length (heap w) + 9)%nat |}, _.
  split; [exact Hrun|].
  assert (Hold : forall ext,
             is_command (heap w ++ ext) self c args kwargs options).
  { intros ext. destruct Hcmd as (Hc & Ha & Hk & Ho).
    repeat split; apply lookup_old; assumption. }
  split; [apply Hold|].
  split; [eapply command_list_same_objects; [apply Hold | exact Hcmd]|].
  split; [lia|]. split; [reflexivity|].
  split; [unfold is_command; cbn [_options _args _kwargs];
          repeat split; rewrite lookup_new; reflexivity|].
  split; intros k; apply dict_get_update.
  - apply NoDup_named. exact Hnd.
  - apply NoDup_overrides.
Qed.

Lemma bake_leaves_command_and_merges_witness :
  exists cmd c' fresh,
    Command.bake sample_which 8%nat [VStr "-a"]
      [("key", VStr "tea"); ("_kwargs_sep", VStr "="); ("color", VStr "auto")]
      world_ls_l
    = (Ret cmd, set_heap (heap world_ls_l ++ fresh) world_ls_l) /\
    is_command (heap world_ls_l ++ fresh) 8%nat baked [VStr "-l"]
      [("key", VStr "value")] Command.DEFAULT_OPTIONS /\
    (Command.command_list 8%nat
       (set_heap (heap world_ls_l ++ fresh) world_ls_l)).1
    = (Command.command_list 8%nat world_ls_l).1 /\
    (length (heap world_ls_l) <= cmd)%nat /\
    command c' = "/bin/ls" /\
    is_command (heap world_ls_l ++ fresh) cmd c' [VStr "-l"; VStr "-a"]
      [("key", VStr "tea"); ("color", VStr "auto")]
      [("fg", VBool false); ("in", VNone); ("out", VNone); ("err", VNone);
       ("kwargs_sep", VStr "="); ("kwargs_prefix", VStr "--")].
Proof.
  destruct (bake_leaves_command_and_merges sample_which world_ls_l 8%nat baked
              [VStr "-l"] [("key", VStr "value")] Command.DEFAULT_OPTIONS
              [VStr "-a"]
              [("key", VStr "tea"); ("_kwargs_sep", VStr "=");
               ("color", VStr "auto")] "/bin/ls")
    as (cmd & c' & fresh & H1 & H2 & H3 & H4 & H5 & H6 & _).
  - repeat split.
  - reflexivity.
  - cbn. repeat (apply NoDup_cons; split;
                 [rewrite ?not_elem_of_cons; repeat split;
                  try discriminate; apply not_elem_of_nil|]).
    apply NoDup_nil. exact I.
  - exists cmd, c', fresh.
    exact (conj H1 (conj H2 (conj H3 (conj H4 (conj H5 H6))))).
Defined.

(** ** pushd *)

Lemma chdir_dir path w :
  path ∈ dirs w -> chdir path w = (Ret tt, set_cwd path w).
Proof.
  intros H. unfold chdir. step. destruct (decide (path ∈ dirs w)); tauto.
Qed.

Lemma chdir_missing path w :
  path ∉ dirs w -> chdir path w = (Exc OSError, w).
Proof.
  intros H. unfold chdir. step. destruct (decide (path ∈ dirs w)); tauto.
Qed.

Lemma makedirs_there path w :
  path ∈ dirs w -> makedirs path w = (Ret tt, w).
Proof.
  intros H. unfold makedirs. step. destruct (decide (path ∈ dirs w)); tauto.
Qed.

Lemma pushd_entered abspath {A} path create (block : M World A) w w_in :
  entry (abspath (cwd w) path) create w = Some w_in ->
  cwd w_in = abspath (cwd w) path /\
  contexts.pushd abspath path create block w
  = try_finally (try_finally block (chdir (cwd w))) decorators.release w_in.
Proof.
  unfold entry, contexts.pushd, decorators.with_lock, contexts.pushd_generator.
  unfold decorators.acquire at 1, bind at 1, modify.
  unfold try_finally at 1, getcwd at 1, bind at 1, gets.
  cbn [cwd set_pushd_lock].
  remember (abspath (cwd w) path) as P eqn:HP. clear HP.
  set (locked := set_pushd_lock (S (pushd_lock w)) w).
  destruct (decide (P ∈ dirs w)) as [Hin|Hnot].
  - intros [= <-]. split; [reflexivity|].
    assert (Hmk : (if create then makedirs P else ret tt) locked
                  = (Ret tt, locked))
      by (destruct create; [apply makedirs_there; exact Hin | reflexivity]).
    rewrite (bind_Ret _ _ _ _ _ Hmk).
    rewrite (bind_Ret _ _ _ _ _ (chdir_dir P locked Hin)).
    reflexivity.
  - destruct create; [|discriminate].
    assert (Hdir : forall v, P ∈ dirs (set_dirs (P :: dirs w) v))
      by (intros v; left).
    destruct (faults w) as [|[] rest] eqn:Hf; [|discriminate|];
      intros [= <-]; (split; [reflexivity|]).
    + assert (Hmk : makedirs P locked
                    = (Ret tt, set_dirs (P :: dirs w) locked)).
      { unfold makedirs, syscall, os_fault, locked. step.
        destruct (decide (P ∈ dirs w)); [contradiction|].
        cbn [faults set_pushd_lock]. rewrite Hf. reflexivity. }
      rewrite (bind_Ret _ _ _ _ _ Hmk).
      rewrite (bind_Ret _ _ _ _ _ (chdir_dir P _ (Hdir locked))).
      reflexivity.
    + assert (Hmk : makedirs P locked
                    = (Ret tt, set_dirs (P :: dirs w) (set_faults rest locked))).
      { unfold makedirs, syscall, os_fault, locked. step.
        destruct (decide (P ∈ dirs w)); [contradiction|].
        cbn [faults set_pushd_lock]. rewrite Hf. reflexivity. }
      rewrite (bind_Ret _ _ _ _ _ Hmk).
      rewrite (bind_Ret _ _ _ _ _ (chdir_dir P _ (Hdir _))).
      reflexivity.
Qed.

Lemma pushd_not_entered abspath {A} path create (block : M World A) w :
  entry (abspath (cwd w) path) create w = None ->
  exists w',
    contexts.pushd abspath path create block w = (Exc OSError, w') /\
    cwd w' = cwd w /\ dirs w' = dirs w /\ pushd_lock w' = pushd_lock w.
Proof.
  unfold entry, contexts.pushd, decorators.with_lock, contexts.pushd_generator.
  unfold decorators.acquire at 1, bind at 1, modify.
  unfold try_finally at 1, getcwd at 1, bind at 1, gets.
  cbn [cwd set_pushd_lock].
  remember (abspath (cwd w) path) as P eqn:HP. clear HP.
  set (locked := set_pushd_lock (S (pushd_lock w)) w).
  destruct (decide (P ∈ dirs w)) as [Hin|Hnot]; [discriminate|].
  destruct create.
  - destruct (faults w) as [|[] rest] eqn:Hf; try discriminate. intros _.
    assert (Hmk : makedirs P locked = (Exc OSError, set_faults rest locked)).
    { unfold makedirs, syscall, os_fault, locked. step.
      destruct (decide (P ∈ dirs w)); [contradiction|].
      cbn [faults set_pushd_lock]. rewrite Hf. reflexivity. }
    rewrite (bind_Exc _ _ _ _ _ Hmk).
    eexists. split; [reflexivity|]. repeat split.
  - intros _.
    rewrite (bind_Ret _ _ locked tt locked eq_refl).
    rewrite (bind_Exc _ _ _ _ _ (chdir_missing P locked Hnot)).
    eexists. split; [reflexivity|]. repeat split.
Qed.

(** Leaving the scope: the block has ended and the directory to go back to
    is there. *)
Lemma pushd_left {A} (block : M World A) back w_in r wb :
  block w_in = (r, wb) ->
  ended r ->
  back ∈ dirs wb ->
  try_finally (try_finally block (chdir back)) decorators.release w_in
  = (r, set_pushd_lock (Nat.pred (pushd_lock wb)) (set_cwd back wb)).
Proof.
  intros Hb He Hin.
  assert (Hinner : try_finally block (chdir back) w_in
                   = (r, set_cwd back wb)).
  { unfold try_finally. rewrite Hb.
    destruct r as [a|e| |]; try contradiction;
      rewrite (bind_Ret _ _ _ _ _ (chdir_dir back wb Hin)); reflexivity. }
  unfold try_finally at 1. rewrite Hinner.
  destruct r as [a|e| |]; try contradiction; reflexivity.
Qed.

(** C5.  [with pushd(path, create): block].  When the scope cannot be
    entered, [pushd] raises and the working directory is as it was.  When it
    is entered, the block starts in the directory [path], made absolute, and
    however the block ends, with a value or with an exception, [pushd] ends
    the same way with the working directory that was recorded at the entry;
    this needs the recorded directory to be there still.  Scopes nest: the
    inner one gives back the directory of the outer one, and the outer one
    the directory from before. *)
Theorem pushd_restores_cwd abspath {A} path create (block : M World A) w :
  (entry (abspath (cwd w) path) create w = None ->
   exists w',
     contexts.pushd abspath path create block w = (Exc OSError, w') /\
     cwd w' = cwd w) /\
  (forall w_in,
     entry (abspath (cwd w) path) create w = Some w_in ->
     cwd w_in = abspath (cwd w) path /\
     forall r wb,
       block w_in = (r, wb) -> ended r -> cwd w ∈ dirs wb ->
       exists w',
         contexts.pushd abspath path create block w = (r, w') /\
         cwd w' = cwd w) /\
  (forall path2 create2 w1 w2 r wb,
     entry (abspath (cwd w) path) create w = Some w1 ->
     entry (abspath (cwd w1) path2) create2 w1 = Some w2 ->
     block w2 = (r, wb) -> ended r ->
     cwd w1 ∈ dirs wb -> cwd w ∈ dirs wb ->
     exists w_mid w',
       contexts.pushd abspath path2 create2 block w1 = (r, w_mid) /\
       cwd w_mid = cwd w1 /\
       contexts.pushd abspath path create
         (contexts.pushd abspath path2 create2 block) w = (r, w') /\
       cwd w' = cwd w).
Proof.
  split; [|split].
  - intros H.
    destruct (pushd_not_entered abspath path create block w H)
      as (w' & Hrun & Hcwd & _).
    exists w'. split; assumption.
  - intros w_in H.
    destruct (pushd_entered abspath path create block w w_in H) as [Hin Hrun].
    split; [exact Hin|]. intros r wb Hb He Hback.
    rewrite Hrun, (pushd_left block (cwd w) w_in r wb Hb He Hback).
    eexists. split; reflexivity.
  - intros path2 create2 w1 w2 r wb H1 H2 Hb He Hback1 Hback.
    destruct (pushd_entered abspath path2 create2 block w1 w2 H2)
      as [_ Hinner].
    rewrite (pushd_left block (cwd w1) w2 r wb Hb He Hback1) in Hinner.
    destruct (pushd_entered abspath path create
                (contexts.pushd abspath path2 create2 block) w w1 H1)
      as [_ Houter].
    rewrite (pushd_left _ (cwd w) w1 r _ Hinner He Hback) in Houter.
    eexists _, _. split; [exact Hinner|]. split; [reflexivity|].
    split; [exact Houter | reflexivity].
Qed.

Lemma pushd_restores_cwd_witness :
  exists w_mid w',
    contexts.pushd sample_abspath "deep" true (raise KeyError)
      (set_cwd "/tmp" (set_pushd_lock 1 world0))
    = (@Exc unit KeyError, w_mid) /\
    cwd w_mid = "/tmp" /\
    contexts.pushd sample_abspath "/tmp" false
      (contexts.pushd sample_abspath "deep" true (raise KeyError)) world0
    = (@Exc unit KeyError, w') /\
    cwd w' = "/home/tea".
Proof.
  refine (proj2 (proj2 (pushd_restores_cwd sample_abspath "/tmp" false
                          (raise KeyError) world0))
            "deep" true (set_cwd "/tmp" (set_pushd_lock 1 world0))
            (set_cwd "/tmp/deep"
               (set_dirs ["/tmp/deep"; "/home/tea"; "/tmp"]
                  (set_pushd_lock 2 world0)))
            (Exc KeyError) _ _ _ eq_refl I _ _).
  - vm_compute. reflexivity.
  - vm_compute. reflexivity.
  - cbn. right. right. left.
  - cbn. right. left.
Defined.

(** ** kill *)

Lemma os_calls_exclusive a b : os_calls true a b -> os_calls false a b -> False.
Proof.
  intros (m1 & F1 & E1) (m2 & F2 & E2). rewrite E1 in E2.
  change (m2 ++ true :: b) with (m2 ++ [true] ++ b) in E2.
  rewrite List.app_assoc in E2. apply app_inv_tail in E2. subst m1.
  apply Forall_app in F1 as [_ F1]. inversion F1; discriminate.
Qed.

Lemma set__process_same p : Process.set__process (Process._process p) p = p.
Proof. destruct p; reflexivity. Qed.

Lemma sigkill_effect_ends now h :
  Process.p_exit (Process.sigkill_effect now h) <> None.
Proof.
  unfold Process.sigkill_effect. destruct (Process.p_exit h) as [[t0 st]|] eqn:E.
  - destruct (t0 <=? now + Process.p_sigkill_latency h); cbn; congruence.
  - cbn. discriminate.
Qed.

Lemma returncode_ends h now status :
  Process.returncode h now = Some status -> Process.p_exit h <> None.
Proof.
  unfold Process.returncode. destruct (Process.p_exit h); [discriminate|].
  discriminate.
Qed.

(** A signal to the child: either the call fails, or the child has a time to
    end from then on.  The clock and the pauses to come are as they were. *)
Lemma os_kill_run pid p w h :
  Process._process p = Some h ->
  exists r p1 w1,
    Process.os_kill (Some pid) (p, w) = (r, (p1, w1)) /\
    clock w1 = clock w /\ pauses w1 = pauses w /\
    match r with
    | Ret _ =>
        os_calls true (faults w) (faults w1) /\
        exists h1, p1 = Process.set__process (Some h1) p /\
                   Process.p_exit h1 <> None
    | Exc e => e = OSError /\ os_calls false (faults w) (faults w1) /\ p1 = p
    | _ => False
    end.
Proof.
  intros Hp. destruct (syscall_run w) as (r & w1 & Hs & Hw & Hr).
  assert (Hc : clock w1 = clock w) by (rewrite Hw; reflexivity).
  assert (Hpa : pauses w1 = pauses w) by (rewrite Hw; reflexivity).
  unfold Process.os_kill. step. rewrite Hs.
  destruct r as [[]|e| |]; try contradiction.
  - cbn. rewrite Hp. cbn. eexists (Ret tt), _, _.
    split; [reflexivity|]. cbn. split; [exact Hc|]. split; [exact Hpa|].
    split; [exact Hr|].
    eexists. split; [reflexivity | apply sigkill_effect_ends].
  - destruct Hr as [-> Hr]. exists (Exc OSError), p, w1.
    split; [reflexivity|]. split; [exact Hc|]. split; [exact Hpa|].
    repeat split. exact Hr.
Qed.

Lemma Popen_kill_run p w h :
  Process._process p = Some h ->
  exists r p1 w1,
    Process.Popen_kill (p, w) = (r, (p1, w1)) /\
    clock w1 = clock w /\ pauses w1 = pauses w /\
    match r with
    | Ret _ =>
        os_calls true (faults w) (faults w1) /\
        exists h1, p1 = Process.set__process (Some h1) p /\
                   Process.p_exit h1 <> None
    | Exc e => e = OSError /\ os_calls false (faults w) (faults w1) /\ p1 = p
    | _ => False
    end.
Proof.
  intros Hp. unfold Process.Popen_kill.
  rewrite (bind_Ret (Process.self Process._process) _ (p, w) (Some h) (p, w))
    by (unfold Process.self, gets; cbn; rewrite Hp; reflexivity).
  rewrite (bind_Ret (deref (Some h)) _ (p, w) h (p, w) eq_refl).
  rewrite (bind_Ret Process.time _ (p, w) (clock w) (p, w) eq_refl).
  destruct (Process.returncode h (clock w)) as [status|] eqn:Hrc.
  - exists (Ret tt), p, w. split; [reflexivity|].
    split; [reflexivity|]. split; [reflexivity|].
    split; [apply os_calls_refl|].
    exists h. split; [rewrite <- Hp; symmetry; apply set__process_same|].
    eapply returncode_ends. exact Hrc.
  - exact (os_kill_run _ p w h Hp).
Qed.

(** With the fuel for its polls, [wait] with a timeout returns, and the
    clock is all that it changes. *)
Lemma wait_returns fuel timeout p w :
  timeout * 10 + 1 <= Z.of_nat fuel ->
  0 <= timeout ->
  exists b c,
    Process.wait fuel (Some timeout) (p, w) = (Ret b, (p, set_clock c w)) /\
    clock w <= c.
Proof.
  intros Hfuel Ht. unfold Process.wait, Process.time.
  unfold bind at 1, gets. cbn [fst snd].
  destruct (wait_timeout_spec fuel (clock w) timeout p w)
    as (r & c & Hrun & Hle & Hr).
  destruct r as [b|e| |]; try contradiction.
  - exists b, c. split; [exact Hrun | exact Hle].
  - exfalso. destruct Hr as [Hc Hb]. specialize (Hb ltac:(lia)). lia.
Qed.

(** Joining the waiter of a child that has a time to end: the call returns,
    the instance is as it was, no system call of the kill sequence is made,
    and the files that [start] opened for the child are closed. *)
Lemma Thread_join_run t p w h :
  Process._process p = Some h ->
  Process.p_exit h <> None ->
  exists w',
    Process.Thread_join t (p, w) = (Ret tt, (p, w')) /\
    faults w' = faults w /\
    (forall path,
       Process._stdout_writer p = Some (Process.FileWriter path) ->
       path ∉ open_writers w') /\
    (forall path,
       Process._stdout_writer p <> None ->
       Process._demux p = true ->
       Process._stderr_writer p = Some (Process.FileWriter path) ->
       path ∉ open_writers w').
Proof.
  intros Hp Hexit. unfold Process.Thread_join, Process.__process_wait.
  rewrite (bind_Ret (Process.self Process._process) _ (p, w) (Some h) (p, w))
    by (unfold Process.self, gets; cbn; rewrite Hp; reflexivity).
  rewrite (bind_Ret (deref (Some h)) _ (p, w) h (p, w) eq_refl).
  unfold Process.Popen_wait.
  destruct (Process.p_exit h) as [[t0 status]|]; [clear Hexit|congruence].
  step. unfold Process.close, close_writer.
  destruct (Process._stdout_writer p) as [[|f1]|] eqn:Ho;
    destruct (Process._demux p) eqn:Hd;
    destruct (Process._stderr_writer p) as [[|f2]|] eqn:He;
    repeat (simpl; rewrite ?Ho, ?Hd, ?He);
    eexists; (split; [reflexivity|]); (split; [reflexivity|]);
    split; intros path; try discriminate; try congruence;
    intros; cbn;
    repeat match goal with
           | H : Some _ = Some _ |- _ => injection H as ->
           end;
    intros Hin;
    repeat (apply list_elem_of_filter in Hin as [? Hin]);
    congruence.
Qed.

Lemma getpgid_run pid p w h :
  Process._process p = Some h ->
  exists r w1,
    Process.getpgid (Some pid) (p, w) = (r, (p, w1)) /\
    clock w1 = clock w /\ pauses w1 = pauses w /\
    match r with
    | Ret _ => os_calls true (faults w) (faults w1)
    | Exc e => e = OSError /\ os_calls false (faults w) (faults w1)
    | _ => False
    end.
Proof.
  intros Hp. destruct (syscall_run w) as (r & w1 & Hs & Hw & Hr).
  assert (Hc : clock w1 = clock w) by (rewrite Hw; reflexivity).
  assert (Hpa : pauses w1 = pauses w) by (rewrite Hw; reflexivity).
  unfold Process.getpgid. step. rewrite Hs.
  destruct r as [[]|e| |]; try contradiction; cbn.
  - rewrite Hp. cbn. eexists (Ret _), w1.
    split; [reflexivity|]. split; [exact Hc|]. split; [exact Hpa | exact Hr].
  - exists (Exc e), w1. split; [reflexivity|].
    split; [exact Hc|]. split; [exact Hpa | exact Hr].
Qed.

(** A place at which the thread can be held: time passes, or nothing
    happens when no pause is to come. *)
Lemma pause_run p w :
  exists w1,
    Process.pause (p, w) = (Ret tt, (p, w1)) /\
    faults w1 = faults w /\
    (pauses w = [] -> w1 = w).
Proof.
  unfold Process.pause. cbn. destruct (pauses w) as [|d rest].
  - exists w. repeat split.
  - eexists. split; [reflexivity|]. split; [reflexivity|]. discriminate.
Qed.

(** The second signal of [kill], for a child that is still running.  The
    thread can be held before each of the three reads of [pid]; a read that
    comes when the child has ended gives [None], and [None] as a pid makes
    [getpgid], [killpg] and [kill] raise [TypeError]. *)
Lemma escalate_run p w h :
  Process._process p = Some h ->
  Process.p_exit h <> None ->
  exists r p1 w1,
    (if alive p (clock w) then
       Process.pause ;;;
       pid1 <~ Process.pid ;;
       Process.pause ;;;
       pid2 <~ Process.pid ;;
       pgid <~ Process.getpgid pid2 ;;
       if decide (pid1 = Some pgid) then
         Process.pause ;;;
         pid3 <~ Process.pid ;;
         Process.os_killpg pid3
       else
         Process.pause ;;;
         pid3 <~ Process.pid ;;
         Process.os_kill pid3
     else ret tt) (p, w) = (r, (p1, w1)) /\
    match r with
    | Ret _ =>
        os_calls true (faults w) (faults w1) /\
        exists h1, p1 = Process.set__process (Some h1) p /\
                   Process.p_exit h1 <> None
    | Exc e =>
        p1 = p /\
        ((e = OSError /\ os_calls false (faults w) (faults w1)) \/
         (e = TypeError /\ pauses w <> []))
    | _ => False
    end.
Proof.
  intros Hp Hexit. destruct (alive p (clock w)) eqn:Hal.
  2:{ exists (Ret tt), p, w. split; [reflexivity|].
      split; [apply os_calls_refl|].
      exists h. split; [rewrite <- Hp; symmetry; apply set__process_same|].
      exact Hexit. }
  (* the first two reads *)
  destruct (pause_run p w) as (wa & Ha & Hfa & Hsame_a).
  rewrite (bind_Ret _ _ _ _ _ Ha), (bind_Ret _ _ _ _ _ (pid_run p wa)).
  destruct (pause_run p wa) as (wb & Hb & Hfb & Hsame_b).
  rewrite (bind_Ret _ _ _ _ _ Hb), (bind_Ret _ _ _ _ _ (pid_run p wb)).
  assert (Hquiet_b : pauses w = [] -> wb = w).
  { intros Hq. rewrite Hsame_b; rewrite (Hsame_a Hq); [reflexivity|exact Hq]. }
  rewrite Hp. cbn [option_map].
  destruct (alive p (clock wb)) eqn:Halb.
  2:{ (* the child has ended: getpgid(None) *)
      exists (Exc TypeError), p, wb. split; [reflexivity|].
      split; [reflexivity|]. right. split; [reflexivity|].
      intros Hq. rewrite (Hquiet_b Hq) in Halb. congruence. }
  destruct (getpgid_run (Process.p_pid h) p wb h Hp)
    as (r & wc & Hg & Hcc & Hpc & Hr).
  destruct r as [pgid|e| |]; try contradiction.
  2:{ rewrite (bind_Exc _ _ _ _ _ Hg). destruct Hr as [-> Hr].
      exists (Exc OSError), p, wc. split; [reflexivity|].
      split; [reflexivity|]. left. split; [reflexivity|].
      rewrite <- Hfa, <- Hfb. exact Hr. }
  rewrite (bind_Ret _ _ _ _ _ Hg).
  (* the third read, which is the same in both branches *)
  destruct (pause_run p wc) as (wd & Hd & Hfd & Hsame_d).
  assert (Hquiet_d : pauses w = [] -> clock wd = clock w).
  { intros Hq. rewrite Hsame_d by (rewrite Hpc, (Hquiet_b Hq); exact Hq).
    rewrite Hcc, (Hquiet_b Hq). reflexivity. }
  assert (Hthird :
    (Process.pause ;;; pid3 <~ Process.pid ;; Process.os_kill pid3) (p, wc)
    = Process.os_kill (if alive p (clock wd)
                       then Some (Process.p_pid h) else None) (p, wd)).
  { rewrite (bind_Ret _ _ _ _ _ Hd), (bind_Ret _ _ _ _ _ (pid_run p wd)).
    rewrite Hp. reflexivity. }
  assert (Hbranch :
    (if decide ((if alive p (clock wa)
                 then Some (Process.p_pid h) else None) = Some pgid)
     then Process.pause ;;; pid3 <~ Process.pid ;; Process.os_killpg pid3
     else Process.pause ;;; pid3 <~ Process.pid ;; Process.os_kill pid3)
      (p, wc)
    = Process.os_kill (if alive p (clock wd)
                       then Some (Process.p_pid h) else None) (p, wd)).
  { destruct (decide _); exact Hthird. }
  rewrite Hbranch. clear Hbranch Hthird.
  destruct (alive p (clock wd)) eqn:Hald.
  2:{ (* the child has ended: kill(None) *)
      exists (Exc TypeError), p, wd. split; [reflexivity|].
      split; [reflexivity|]. right. split; [reflexivity|].
      intros Hq. rewrite (Hquiet_d Hq) in Hald. congruence. }
  destruct (os_kill_run (Process.p_pid h) p wd h Hp)
    as (r2 & p2 & we & Hk & _ & _ & Hr2).
  exists r2, p2, we. split; [exact Hk|].
  assert (Hcalls : forall ok,
            os_calls ok (faults wd) (faults we) ->
            os_calls ok (faults w) (faults we)).
  { intros ok Hok. eapply os_calls_trans; [|exact Hok].
    rewrite Hfd, <- Hfa, <- Hfb. exact Hr. }
  destruct r2 as [[]|e| |]; try contradiction.
  - destruct Hr2 as [Hc2 Hh]. split; [apply Hcalls; exact Hc2 | exact Hh].
  - destruct Hr2 as (-> & Hc2 & ->). split; [reflexivity|]. left.
    split; [reflexivity | apply Hcalls; exact Hc2].
Qed.

Lemma try_except_Ret {S A} (body handler : M S A) s a s' :
  body s = (Ret a, s') -> try_except_OSError body handler s = (Ret a, s').
Proof. unfold try_except_OSError. intros ->. reflexivity. Qed.

Lemma try_except_caught {S A} (body handler : M S A) s s' :
  body s = (Exc OSError, s') -> try_except_OSError body handler s = handler s'.
Proof. unfold try_except_OSError. intros ->. reflexivity. Qed.

(** [write], [read] and [eread] change what the handle holds and nothing
    else of the instance. *)
Lemma started_well_handle p h :
  started_well p -> Process._process p <> None ->
  started_well (Process.set__process (Some h) p).
Proof. intros Hwell Hp _. exact (Hwell Hp). Qed.

Lemma kill_no_handle fuel p w :
  Process._process p = None ->
  Process.kill fuel (p, w) = (Ret None, (p, w)).
Proof.
  intros Hp. unfold Process.kill. apply try_except_Ret.
  rewrite (bind_Ret (Process.self Process._process) _ (p, w) None (p, w))
    by (unfold Process.self, gets; cbn; rewrite Hp; reflexivity).
  reflexivity.
Qed.

(** C3 (the code departs from the claim).  [kill()] on an instance in a
    state that the methods lead to, with the fuel that its [wait(0.5)] can
    need.  It gives [None] exactly when there is no handle, which is the
    case before [start] and after a [kill] that gave [True], and then
    changes nothing.  With a handle it gives [False] when a system call of
    the sequence failed, and [True] when every call that it made succeeded;
    with [True] the waiter is joined, so the files opened for the child are
    closed, the handle is [None], and the next [kill] gives [None].  But it
    can raise: when the child is still running after the wait and ends
    while the thread is held before one of the reads of [pid] that follow,
    that read gives [None], and [getpgid(None)], or [kill(None)], raises
    [TypeError], which [except OSError] does not catch.  This is the one
    exception that it raises, and it comes only when the thread was held.
    The last part is such a run: a child that a SIGKILL ends only after
    500.03 s, and a thread that is held for 30 ms after [is_running] has
    said [True]. *)
Theorem kill_raises_TypeError_in_a_race :
  (forall fuel p w,
     started_well p ->
     (Z.to_nat 5001 <= fuel)%nat ->
     exists r p' w',
       Process.kill fuel (p, w) = (r, (p', w')) /\
       match r with
       | Ret None =>
           started_well p' /\ Process._process p = None /\ p' = p /\ w' = w
       | Ret (Some false) =>
           started_well p' /\
           Process._process p <> None /\
           os_calls false (faults w) (faults w')
       | Ret (Some true) =>
           started_well p' /\
           Process._process p <> None /\
           os_calls true (faults w) (faults w') /\
           Process._process p' = None /\
           (forall path,
              Process._stdout_writer p = Some (Process.FileWriter path) ->
              path ∉ open_writers w') /\
           (forall path,
              Process._demux p = true ->
              Process._stderr_writer p = Some (Process.FileWriter path) ->
              path ∉ open_writers w') /\
           forall fuel', Process.kill fuel' (p', w') = (Ret None, (p', w'))
       | Exc e =>
           e = TypeError /\ Process._process p <> None /\ pauses w <> []
       | _ => False
       end) /\
  (forall fuel p w,
     started_well p ->
     (Z.to_nat 5001 <= fuel)%nat ->
     pauses w = [] ->
     exists r p' w', Process.kill fuel (p, w) = (Ret r, (p', w'))) /\
  (exists p w,
     sample_started ["/bin/cat"; "/mnt/stale/file"] true = (Ret tt, (p, w)) /\
     (Process.kill (Z.to_nat 5001) (p, w)).1 = Ret (Some true) /\
     (Process.kill (Z.to_nat 5001) (p, set_pauses [30] w)).1 = Exc TypeError).
Proof.
  assert (Hmain : forall fuel p w,
     started_well p ->
     (Z.to_nat 5001 <= fuel)%nat ->
     exists r p' w',
       Process.kill fuel (p, w) = (r, (p', w')) /\
       match r with
       | Ret None =>
           started_well p' /\ Process._process p = None /\ p' = p /\ w' = w
       | Ret (Some false) =>
           started_well p' /\
           Process._process p <> None /\
           os_calls false (faults w) (faults w')
       | Ret (Some true) =>
           started_well p' /\
           Process._process p <> None /\
           os_calls true (faults w) (faults w') /\
           Process._process p' = None /\
           (forall path,
              Process._stdout_writer p = Some (Process.FileWriter path) ->
              path ∉ open_writers w') /\
           (forall path,
              Process._demux p = true ->
              Process._stderr_writer p = Some (Process.FileWriter path) ->
              path ∉ open_writers w') /\
           forall fuel', Process.kill fuel' (p', w') = (Ret None, (p', w'))
       | Exc e =>
           e = TypeError /\ Process._process p <> None /\ pauses w <> []
       | _ => False
       end).
  { intros fuel p w Hwell Hfuel.
    destruct (Process._process p) as [h|] eqn:Hp.
    2:{ exists (Ret None), p, w. split; [apply kill_no_handle; exact Hp|].
        split; [exact Hwell|]. repeat split. }
    destruct (Hwell ltac:(congruence)) as (Hthread & Hout & Herr).
    destruct (Process._wait_thread p) as [t|] eqn:Ht;
      [clear Hthread|congruence].
    assert (Hstart : forall v,
              Process.self Process._process (p, v) = (Ret (Some h), (p, v)))
      by (intros v; unfold Process.self, gets; cbn; rewrite Hp; reflexivity).
    unfold Process.kill.
    (* self._process.kill() *)
    destruct (Popen_kill_run p w h Hp)
      as (r1 & p1 & w1 & H1 & Hclock1 & Hpauses1 & Hr1).
    destruct r1 as [[]|e1| |]; try contradiction.
    2:{ destruct Hr1 as (-> & Hc1 & ->). exists (Ret (Some false)), p, w1.
        split.
        { erewrite try_except_caught; [reflexivity|].
          rewrite (bind_Ret _ _ _ _ _ (Hstart w)).
          rewrite (bind_Exc _ _ _ _ _ H1). reflexivity. }
        split; [exact Hwell|]. split; [congruence | exact Hc1]. }
    destruct Hr1 as (Hc1 & h1 & -> & Hexit1).
    set (p1 := Process.set__process (Some h1) p) in *.
    (* self.wait(0.5) *)
    destruct (wait_returns fuel 500 p1 w1 ltac:(lia) ltac:(lia))
      as (b & c & H2 & _).
    (* if self.is_running: ... *)
    destruct (escalate_run p1 (set_clock c w1) h1 eq_refl Hexit1)
      as (r3 & p3 & w3 & H3 & Hr3).
    assert (Hbody : forall B (k : Process.PM B),
      (Process.Popen_kill ;;;
       Process.wait fuel (Some 500) ;;;
       running <~ Process.is_running ;;
       (if (running : bool) then
          Process.pause ;;;
          pid1 <~ Process.pid ;;
          Process.pause ;;;
          pid2 <~ Process.pid ;;
          pgid <~ Process.getpgid pid2 ;;
          if decide (pid1 = Some pgid) then
            Process.pause ;;;
            pid3 <~ Process.pid ;;
            Process.os_killpg pid3
          else
            Process.pause ;;;
            pid3 <~ Process.pid ;;
            Process.os_kill pid3
        else ret tt) ;;; k) (p, w)
      = match r3 with
        | Ret _ => k (p3, w3)
        | Exc e => (Exc e, (p3, w3))
        | Blocked => (Blocked, (p3, w3))
        | OutOfFuel => (OutOfFuel, (p3, w3))
        end).
    { intros B k. rewrite (bind_Ret _ _ _ _ _ H1), (bind_Ret _ _ _ _ _ H2).
      rewrite (bind_Ret _ _ _ _ _ (is_running_run p1 (set_clock c w1))).
      cbn [clock set_clock]. cbn [clock set_clock] in H3.
      unfold bind at 1. rewrite H3. destruct r3; reflexivity. }
    assert (Hfaults : faults (set_clock c w1) = faults w1) by reflexivity.
    assert (Hpauses : pauses (set_clock c w1) = pauses w)
      by (cbn; exact Hpauses1).
    destruct r3 as [[]|e3| |]; try contradiction.
    2:{ destruct Hr3 as (-> & [[-> Hc3]|[-> Hheld]]).
        - exists (Ret (Some false)), p1, w3.
          split.
          { erewrite try_except_caught; [reflexivity|].
            rewrite (bind_Ret _ _ _ _ _ (Hstart w)). cbv beta iota.
            apply Hbody. }
          split; [intros _; cbn; rewrite Ht; split; [discriminate|];
                  split; assumption|].
          split; [congruence|].
          eapply os_calls_trans; [exact Hc1|]. rewrite <- Hfaults. exact Hc3.
        - exists (Exc TypeError), p1, w3.
          split.
          { unfold try_except_OSError.
            rewrite (bind_Ret _ _ _ _ _ (Hstart w)). cbv beta iota.
            rewrite Hbody. reflexivity. }
          split; [reflexivity|]. split; [congruence|].
          rewrite <- Hpauses. exact Hheld. }
    destruct Hr3 as (Hc3 & h3 & -> & Hexit3).
    set (p3 := Process.set__process (Some h3) p1) in *.
    (* self._wait_thread.join() *)
    destruct (Thread_join_run t p3 w3 h3 eq_refl Hexit3)
      as (w4 & H4 & Hf4 & Hclosed_out & Hclosed_err).
    exists (Ret (Some true)), (Process.set__process None p3), w4.
    split.
    { apply try_except_Ret.
      rewrite (bind_Ret _ _ _ _ _ (Hstart w)). cbv beta iota.
      rewrite Hbody.
      rewrite (bind_Ret (Process.self Process._wait_thread) _ (p3, w3)
                 (Some t) (p3, w3))
        by (unfold Process.self, gets; cbn; rewrite Ht; reflexivity).
      rewrite (bind_Ret (deref (Some t)) _ (p3, w3) t (p3, w3) eq_refl).
      rewrite (bind_Ret _ _ _ _ _ H4). reflexivity. }
    split; [intros N; exfalso; apply N; reflexivity|].
    split; [congruence|].
    split.
    { rewrite Hf4. eapply os_calls_trans; [exact Hc1|].
      rewrite <- Hfaults. exact Hc3. }
    split; [reflexivity|].
    split; [intros path Hpath; apply Hclosed_out; exact Hpath|].
    split; [intros path Hd Hpath; apply Hclosed_err; assumption|].
    intros fuel'. apply kill_no_handle. reflexivity. }
  split; [exact Hmain|]. split.
  - intros fuel p w Hwell Hfuel Hquiet.
    destruct (Hmain fuel p w Hwell Hfuel) as (r & p' & w' & Hrun & Hr).
    destruct r as [x|e| |]; try contradiction.
    + exists x, p', w'. exact Hrun.
    + destruct Hr as (_ & _ & Hheld). contradiction.
  - eexists _, _. split; [vm_compute; reflexivity|].
    split; vm_compute; reflexivity.
Qed.

(** [kill()] on an instance whose child has ended by itself: the handle is
    still there, no signal is sent, and the answer is [True]. *)
Example kill_after_the_child_ended :
  exists p w,
    (Process.start sample_spawn ;;; Process.wait 2 None)
      (sample_process ["/bin/sh"; "-c"; "echo oops >&2"] true, world0)
    = (Ret true, (p, w)) /\
    alive p (clock w) = false /\
    (Process.kill (Z.to_nat 5001) (p, w)).1 = Ret (Some true).
Proof.
  eexists _, _. split; [vm_compute; reflexivity|].
  split; vm_compute; reflexivity.
Qed.

(** ** execute *)

Example execute_sh :
  (Process.execute sample_abspath sample_spawn sample_decode "utf-8" 2
     ["/bin/sh"; "-c"; "echo oops >&2"] true None None world0).1
  = Ret {| types.exit_code := Some 0; types.stdout := EmptyString;
           types.stderr := String.string_of_list_byte oops_line |}.
Proof. vm_compute. reflexivity. Qed.


(** * Further properties *)

(** ** The views of a started instance *)

(** X1.  On an instance with a handle, [is_running], [pid] and [exit_code]
    agree, and none of them changes anything.  From the time on at which
    the child has ended, [is_running] is [False], [pid] is [None] and
    [exit_code] is the status that the child ended with; before that time,
    and for a child that has no time to end, [is_running] is [True], [pid]
    is the pid of the child and [exit_code] is [None]. *)
Theorem pid_and_exit_code_agree p w h :
  Process._process p = Some h ->
  let running :=
    Process.is_running (p, w) = (Ret true, (p, w)) /\
    Process.pid (p, w) = (Ret (Some (Process.p_pid h)), (p, w)) /\
    Process.exit_code (p, w) = (Ret None, (p, w)) in
  match Process.p_exit h with
  | Some (t, status) =>
      if t <=? clock w then
        Process.is_running (p, w) = (Ret false, (p, w)) /\
        Process.pid (p, w) = (Ret None, (p, w)) /\
        Process.exit_code (p, w) = (Ret (Some status), (p, w))
      else running
  | None => running
  end.
Proof.
  intros Hp running. subst running.
  unfold Process.exit_code.
  rewrite pid_run, (bind_Ret _ _ _ _ _ (is_running_run p w)), is_running_run.
  unfold alive. rewrite Hp. unfold Process.returncode.
  destruct (Process.p_exit h) as [[t status]|] eqn:He.
  - destruct (t <=? clock w) eqn:Ht.
    + split; [reflexivity|]. split; [reflexivity|].
      step. rewrite Hp. cbn. unfold Process.returncode. rewrite He, Ht.
      reflexivity.
    + repeat split.
  - repeat split.
Qed.

Lemma pid_and_exit_code_agree_witness :
  let s := (sample_started ["/bin/sleep"; "5"] true).2 in
  (Process.is_running (s.1, s.2) = (Ret true, (s.1, s.2)) /\
   Process.pid (s.1, s.2) = (Ret (Some 4243), (s.1, s.2)) /\
   Process.exit_code (s.1, s.2) = (Ret None, (s.1, s.2))) /\
  (Process.is_running (s.1, set_clock 5000 s.2)
   = (Ret false, (s.1, set_clock 5000 s.2)) /\
   Process.pid (s.1, set_clock 5000 s.2)
   = (Ret None, (s.1, set_clock 5000 s.2)) /\
   Process.exit_code (s.1, set_clock 5000 s.2)
   = (Ret (Some 0), (s.1, set_clock 5000 s.2))).
Proof.
  intros s. split.
  - exact (pid_and_exit_code_agree s.1 s.2 _ eq_refl).
  - exact (pid_and_exit_code_agree s.1 (set_clock 5000 s.2) _ eq_refl).
Defined.

(** ** wait without a timeout *)

Lemma set_clock_twice c c' w : set_clock c (set_clock c' w) = set_clock c w.
Proof. reflexivity. Qed.

(** The loop without a timeout changes the clock only, says [True] or runs
    out of fuel, and stops at the first poll at which the child has ended. *)
Lemma wait_forever_spec fuel :
  forall p w,
  exists r c,
    Process.wait_forever fuel (p, w) = (r, (p, set_clock c w)) /\
    clock w <= c /\
    match r with
    | Ret true =>
        alive p c = false /\
        (c = clock w \/ alive p (c - 100) = true)
    | OutOfFuel =>
        c = clock w + 100 * Z.of_nat fuel /\
        (0 < Z.of_nat fuel -> alive p (c - 100) = true)
    | _ => False
    end.
Proof.
  induction fuel as [|fuel IH]; intros p w.
  - exists OutOfFuel, (clock w). rewrite set_clock_same. cbn.
    repeat split; lia.
  - cbn [Process.wait_forever].
    rewrite (bind_Ret _ _ _ _ _ (is_running_run p w)).
    destruct (alive p (clock w)) eqn:Hal.
    + unfold Process.sleep_100ms, bind at 1, modify. cbn [fst snd].
      destruct (IH p (set_clock (clock w + 100) w)) as (r & c & Hrun & Hle & Hr).
      exists r, c. cbn in Hrun, Hle. split; [exact Hrun|]. split; [lia|].
      destruct r as [[|]| | |]; try exact Hr.
      * destruct Hr as [Hr1 [Hr2|Hr2]]; (split; [exact Hr1|]); right.
        -- cbn in Hr2. subst c.
           replace (clock w + 100 - 100) with (clock w) by lia. exact Hal.
        -- exact Hr2.
      * cbn in Hr. destruct Hr as [Hc Hb]. split; [lia|]. intros _.
        destruct fuel as [|fuel'].
        -- cbn in Hc. subst c.
           replace (clock w + 100 + 100 * Z.of_nat 0 - 100) with (clock w)
             by lia.
           exact Hal.
        -- apply Hb. lia.
    + exists (Ret true), (clock w). rewrite set_clock_same.
      repeat split; [lia | exact Hal | left; reflexivity].
Qed.

Lemma alive_before p h t status now :
  Process._process p = Some h ->
  Process.p_exit h = Some (t, status) ->
  alive p now = negb (t <=? now).
Proof.
  intros Hp He. unfold alive, Process.returncode. rewrite Hp, He.
  destruct (t <=? now); reflexivity.
Qed.

Lemma alive_endless p h now :
  Process._process p = Some h ->
  Process.p_exit h = None ->
  alive p now = true.
Proof.
  intros Hp He. unfold alive, Process.returncode. rewrite Hp, He. reflexivity.
Qed.

(** X2.  [wait()] never says [False], raises nothing and changes nothing but
    the clock.  On an instance without a handle it says [True] at once.  On
    a child that ends at the time [t] it says [True], given the fuel for its
    polls, at a time that is not before [t], and that is either the time of
    the call or less than 100 ms after [t].  On a child that never ends it
    does not return, whatever the fuel. *)
Theorem wait_without_timeout p w :
  (forall fuel r s,
     Process.wait fuel None (p, w) = (r, s) ->
     s.1 = p /\ s.2 = set_clock (clock s.2) w /\
     (r = Ret true \/ r = OutOfFuel)) /\
  (Process._process p = None ->
   forall fuel, Process.wait (S fuel) None (p, w) = (Ret true, (p, w))) /\
  (forall h t status fuel,
     Process._process p = Some h ->
     Process.p_exit h = Some (t, status) ->
     t - clock w <= 100 * (Z.of_nat fuel - 1) -> (0 < fuel)%nat ->
     exists c,
       Process.wait fuel None (p, w) = (Ret true, (p, set_clock c w)) /\
       t <= c /\ (c = clock w \/ c < t + 100)) /\
  (forall h fuel,
     Process._process p = Some h ->
     Process.p_exit h = None ->
     Process.wait fuel None (p, w)
     = (OutOfFuel, (p, set_clock (clock w + 100 * Z.of_nat fuel) w))).
Proof.
  unfold Process.wait. split; [|split; [|split]].
  - intros fuel r s Hrun.
    destruct (wait_forever_spec fuel p w) as (r' & c & Hrun' & _ & Hr).
    rewrite Hrun' in Hrun. injection Hrun as <- <-. cbn.
    split; [reflexivity|]. split; [reflexivity|].
    destruct r' as [[|]| | |]; try contradiction; auto.
  - intros Hp fuel. cbn [Process.wait_forever].
    rewrite (bind_Ret _ _ _ _ _ (is_running_run p w)).
    unfold alive. rewrite Hp. reflexivity.
  - intros h t status fuel Hp He Hfuel Hpos.
    destruct (wait_forever_spec fuel p w) as (r & c & Hrun & Hle & Hr).
    destruct r as [[|]| | |]; try contradiction.
    + exists c. split; [exact Hrun|]. destruct Hr as [Hend Hprev].
      rewrite (alive_before p h t status c Hp He) in Hend.
      apply negb_false_iff, Z.leb_le in Hend. split; [exact Hend|].
      destruct Hprev as [->|Hprev]; [left; reflexivity|]. right.
      rewrite (alive_before p h t status _ Hp He) in Hprev.
      apply negb_true_iff, Z.leb_gt in Hprev. lia.
    + exfalso. destruct Hr as [Hc Hprev]. specialize (Hprev ltac:(lia)).
      rewrite (alive_before p h t status _ Hp He) in Hprev.
      apply negb_true_iff, Z.leb_gt in Hprev. lia.
  - intros h fuel Hp He.
    destruct (wait_forever_spec fuel p w) as (r & c & Hrun & Hle & Hr).
    destruct r as [[|]| | |]; try contradiction.
    + exfalso. destruct Hr as [Hend _].
      rewrite (alive_endless p h c Hp He) in Hend. discriminate.
    + destruct Hr as [-> _]. exact Hrun.
Qed.

Lemma wait_without_timeout_witness :
  let s := (sample_started ["/bin/sleep"; "5"] true).2 in
  let e := (sample_started ["/bin/sleep"; "infinity"] true).2 in
  (exists c,
     Process.wait 60 None (s.1, s.2) = (Ret true, (s.1, set_clock c s.2)) /\
     5000 <= c /\ (c = clock s.2 \/ c < 5000 + 100)) /\
  Process.wait 60 None (e.1, e.2)
  = (OutOfFuel, (e.1, set_clock (clock e.2 + 100 * Z.of_nat 60) e.2)).
Proof.
  intros s e. split.
  - eapply (proj1 (proj2 (proj2 (wait_without_timeout s.1 s.2)))
             _
             5000 0 60%nat); [reflexivity | reflexivity | vm_compute; discriminate | lia].
  - eapply (proj2 (proj2 (proj2 (wait_without_timeout e.1 e.2)))
             _
             60%nat); reflexivity.
Defined.

(** ** wait with a timeout *)

Lemma wait_at_once fuel timeout p w :
  0 < timeout -> alive p (clock w) = false ->
  Process.wait (S fuel) (Some timeout) (p, w) = (Ret true, (p, w)).
Proof.
  intros Ht Hal. unfold Process.wait, Process.time.
  unfold bind at 1, gets. cbn [fst snd Process.wait_timeout].
  unfold Process.time. unfold bind at 1, gets. cbn [fst snd].
  replace (clock w - clock w <? timeout * 1000) with true
    by (symmetry; apply Z.ltb_lt; lia).
  rewrite (bind_Ret _ _ _ _ _ (is_running_run p w)), Hal. reflexivity.
Qed.

(** X3.  [wait(timeout)] with a timeout that is not positive says [False] at
    once and without a look at the child, also when the child has ended or
    was never started.  With a positive timeout on an instance that is not
    running it says [True] at once.  Whenever it says [True], the child is
    not running at that time, and the clock is all that has changed. *)
Theorem wait_timeout_edges fuel timeout p w :
  (timeout <= 0 ->
   Process.wait (S fuel) (Some timeout) (p, w) = (Ret false, (p, w))) /\
  (0 < timeout -> alive p (clock w) = false ->
   Process.wait (S fuel) (Some timeout) (p, w) = (Ret true, (p, w))) /\
  (forall s,
     Process.wait fuel (Some timeout) (p, w) = (Ret true, s) ->
     s.1 = p /\ s.2 = set_clock (clock s.2) w /\ clock w <= clock s.2 /\
     alive p (clock s.2) = false).
Proof.
  unfold Process.wait, Process.time. split; [|split].
  - intros Ht. unfold bind at 1, gets. cbn [fst snd Process.wait_timeout].
    unfold Process.time. unfold bind at 1, gets. cbn [fst snd].
    replace (clock w - clock w <? timeout * 1000) with false
      by (symmetry; apply Z.ltb_ge; lia).
    reflexivity.
  - intros Ht Hal. exact (wait_at_once fuel timeout p w Ht Hal).
  - intros s. unfold bind at 1, gets. cbn [fst snd].
    destruct (wait_timeout_spec fuel (clock w) timeout p w)
      as (r & c & Hrun & Hle & Hr).
    rewrite Hrun. intros [= -> <-]. cbn.
    split; [reflexivity|]. split; [reflexivity|]. split; [exact Hle|].
    exact (proj1 Hr).
Qed.

Lemma wait_timeout_edges_witness :
  let s := (sample_started ["/bin/sleep"; "5"] true).2 in
  let late := set_clock 7000 s.2 in
  Process.wait 1 (Some 0) (s.1, late) = (Ret false, (s.1, late)) /\
  Process.wait 1 (Some 500) (s.1, late) = (Ret true, (s.1, late)) /\
  alive s.1 (clock (Process.wait 60 (Some 500) (s.1, s.2)).2.2) = false.
Proof.
  intros s late. split; [|split].
  - apply (proj1 (wait_timeout_edges 0 0 s.1 late)). lia.
  - apply (proj1 (proj2 (wait_timeout_edges 0 500 s.1 late)));
      [lia | vm_compute; reflexivity].
  - apply (proj2 (proj2 (wait_timeout_edges 60 500 s.1 s.2))).
    vm_compute. reflexivity.
Defined.

(** ** kill on a child that has ended *)




(** ** read *)



(** The beginning of [read()] when the standard output is a pipe *)
Lemma read_pipe_run decode p w h state :
  Process._stdout p = None ->
  Process._process p = Some h ->
  Process.p_stdout h = Some state ->
  Process.read decode (p, w)
  = (data <~ Process.read_to_end state (Process.c_out (Process.p_child h))
               (bool_decide (Process.p_stderr h = Some Process.Unread)
                && negb (o_fits (Process.c_err (Process.p_child h))))
               (Process.set_p_stdout (Some Process.ReadToEnd)) h ;;
     enc <~ Process.self Process.encoding ;;
     Process.decode_as decode enc data) (p, w).
Proof.
  intros Ho Hp Hs. unfold Process.read.
  unfold bind at 1, Process.self at 1, gets. cbn [fst snd]. rewrite Ho.
  unfold bind at 1, Process.self at 1, gets. cbn [fst snd]. rewrite Hp.
  unfold bind at 1, deref at 1, ret at 1.
  rewrite Hs. unfold bind at 1, deref at 1, ret at 1. reflexivity.
Qed.

Lemma decode_as_run decode enc data (s : Process.Process * World) :
  Process.decode_as decode enc data s = (decoded decode enc data, s).
Proof.
  unfold Process.decode_as, decoded. destruct (decode enc data); reflexivity.
Qed.




(** ** An instance that was never started *)

(** X6.  On an instance without a handle, which is one that was never
    started or whose [kill()] gave [True]: [is_running] is [False], [pid]
    is [None], and [write], for a string that is not empty, [read] and
    [eread], where they would go to a pipe, raise [AttributeError] and
    change nothing. *)
Theorem methods_without_handle encode decode p w :
  Process._process p = None ->
  Process.is_running (p, w) = (Ret false, (p, w)) /\
  Process.pid (p, w) = (Ret None, (p, w)) /\
  (forall text, text <> EmptyString ->
     Process.write encode text (p, w) = (Exc AttributeError, (p, w))) /\
  (Process._stdout p = None ->
   Process.read decode (p, w) = (Exc AttributeError, (p, w))) /\
  (Process._demux p = true -> Process._stderr p = None ->
   Process.eread decode (p, w) = (Exc AttributeError, (p, w))).
Proof.
  intros Hp.
  assert (Hal : alive p (clock w) = false) by (unfold alive; rewrite Hp; reflexivity).
  split; [rewrite is_running_run, Hal; reflexivity|].
  split; [rewrite pid_run, Hal; reflexivity|].
  split; [|split].
  - intros text Htext. unfold Process.write.
    destruct (last_char text) as [c|] eqn:Hl.
    + step. rewrite Hp. reflexivity.
    + exfalso. apply Htext. clear -Hl.
      induction text as [|a rest IH]; [reflexivity|].
      cbn in Hl. destruct rest; [discriminate|]. specialize (IH Hl).
      discriminate.
  - intros Ho. unfold Process.read. step. rewrite Ho. cbn. rewrite Hp.
    reflexivity.
  - intros Hd He. unfold Process.eread. step. rewrite Hd. cbn. rewrite He.
    cbn. rewrite Hp. reflexivity.
Qed.

Lemma methods_without_handle_witness :
  let p := sample_process ["/bin/cat"] true in
  Process.write sample_encode "tea" (p, world0)
  = (Exc AttributeError, (p, world0)) /\
  Process.read sample_decode (p, world0) = (Exc AttributeError, (p, world0)) /\
  Process.eread sample_decode (p, world0) = (Exc AttributeError, (p, world0)).
Proof.
  intros p.
  destruct (methods_without_handle sample_encode sample_decode p world0 eq_refl)
    as (_ & _ & Hw & Hr & He).
  split; [apply Hw; discriminate|]. split; [apply Hr | apply He]; reflexivity.
Defined.

(** ** start when no system call fails *)

Lemma open_writer_quiet target p w :
  faults w = [] ->
  Process.open_writer target (p, w)
  = (Ret (writer_for target), (p, opened target w)).
Proof.
  intros Hf. destruct target as [path|]; [|reflexivity].
  unfold Process.open_writer, open_wb, syscall, os_fault. step.
  rewrite Hf. reflexivity.
Qed.

Lemma opened_faults target w : faults (opened target w) = faults w.
Proof. destruct target; reflexivity. Qed.

(** What [start] does when every system call succeeds. *)
Lemma start_quiet spawn p w :
  faults w = [] ->
  let ow := Some (writer_for (Process._stdout p)) in
  let ew := if Process._demux p
            then Some (writer_for (Process._stderr p))
            else Process._stderr_writer p in
  let p1 := Process.set__stderr_writer ew (Process.set__stdout_writer ow p) in
  let w2 := if Process._demux p
            then opened (Process._stderr p) (opened (Process._stdout p) w)
            else opened (Process._stdout p) w in
  Process.start spawn (p, w) =
  match Process.Popen_new spawn (Process._command p) ow ew (env_of p w)
          (Process._working_dir p) w2 with
  | (Ret h, w') =>
      (Ret tt, (Process.set__wait_thread (Some Process.WaitThread)
                  (Process.set__process (Some h) p1), w'))
  | (Exc OSError, w') =>
      match Process._command p with
      | [] => (Exc IndexError, (p1, w'))
      | name :: _ =>
          (Exc (CommandNotFound (not_found_message name)), (p1, w'))
      end
  | (Exc e, w') => (Exc e, (p1, w'))
  | (Blocked, w') => (Blocked, (p1, w'))
  | (OutOfFuel, w') => (OutOfFuel, (p1, w'))
  end.
Proof.
  intros Hf ow ew p1 w2.
  unfold Process.start. unfold bind at 1, Process.self at 1, gets.
  cbn [fst snd].
  rewrite (bind_Ret _ _ _ _ _ (open_writer_quiet (Process._stdout p) p w Hf)).
  unfold bind at 1, Process.assign at 1, modify. cbn [fst snd].
  unfold bind at 1, Process.self at 1, gets. cbn [fst snd].
  cbn [Process._demux Process.set__stdout_writer].
  assert (Hsetup :
    (if Process._demux p
     then
      err <~ Process.self Process._stderr;;
      w <~ Process.open_writer err;;
      Process.assign (Process.set__stderr_writer (Some w))
     else
      w <~ Process.self Process._stderr_writer;;
      Process.assign (Process.set__stderr_writer w))
      (Process.set__stdout_writer (Some (writer_for (Process._stdout p))) p,
       opened (Process._stdout p) w)
    = (Ret tt, (p1, w2))).
  { subst p1 w2 ew ow. destruct (Process._demux p).
    - unfold bind at 1, Process.self at 1, gets. cbn [fst snd].
      cbn [Process._stderr Process.set__stdout_writer].
      rewrite (bind_Ret _ _ _ _ _
                 (open_writer_quiet (Process._stderr p) _ _
                    (eq_trans (opened_faults _ w) Hf))).
      reflexivity.
    - reflexivity. }
  rewrite (bind_Ret _ _ _ _ _ Hsetup).
  assert (Henv : environ w2 = environ w)
    by (subst w2; destruct (Process._demux p), (Process._stderr p),
          (Process._stdout p); reflexivity).
  unfold try_except_OSError, env_of, not_found_message, Process.command,
    Process._create_env.
  step. rewrite Henv.
  destruct (Process.Popen_new spawn (Process._command p) ow ew
              match Process._environment p with
              | Some e => dict_update (environ w) e
              | None => environ w
              end (Process._working_dir p) w2) as [[h|[]| |] w'];
    try reflexivity.
  cbn. destruct (Process._command p); reflexivity.
Qed.

(** What [Popen] does for a vector that the system starts a child for. *)
Lemma Popen_new_run spawn args stdout stderr env dir w c :
  args <> [] ->
  spawn args env dir = Some c ->
  let ends := option_map fst (exit_of c stdout stderr (clock w)) in
  Process.Popen_new spawn args stdout stderr env dir w
  = (Ret (handle_of c stdout stderr (clock w)),
     set_streams
       (streams w
        ++ stream_for stdout ToStdout (Process.c_pid c) (clock w) ends
             (Process.c_out c)
        ++ stream_for stderr ToStderr (Process.c_pid c) (clock w) ends
             (Process.c_err c))
       (set_spawned (spawned w ++ [args]) w)).
Proof.
  intros Hargs Hspawn ends. unfold Process.Popen_new.
  destruct args as [|a rest]; [congruence|]. rewrite Hspawn.
  unfold Process.emit, handle_of, exit_of, stream_for. step.
  destruct stdout as [[|out]|], stderr as [[|err]|]; cbn;
    rewrite <- ?List.app_assoc, ?app_nil_r; reflexivity.
Qed.

(** The writers that [start] sets, and the world in which it then starts
    the child. *)
Lemma start_spawns spawn p w c :
  faults w = [] ->
  Process._command p <> [] ->
  spawn (Process._command p) (env_of p w) (Process._working_dir p) = Some c ->
  let ow := Some (writer_for (Process._stdout p)) in
  let ew := if Process._demux p
            then Some (writer_for (Process._stderr p))
            else Process._stderr_writer p in
  let w2 := if Process._demux p
            then opened (Process._stderr p) (opened (Process._stdout p) w)
            else opened (Process._stdout p) w in
  let ends := option_map fst (exit_of c ow ew (clock w)) in
  Process.start spawn (p, w)
  = (Ret tt,
     (Process.set__wait_thread (Some Process.WaitThread)
        (Process.set__process (Some (handle_of c ow ew (clock w)))
           (Process.set__stderr_writer ew (Process.set__stdout_writer ow p))),
      set_streams
        (streams w2
         ++ stream_for ow ToStdout (Process.c_pid c) (clock w) ends
              (Process.c_out c)
         ++ stream_for ew ToStderr (Process.c_pid c) (clock w) ends
              (Process.c_err c))
        (set_spawned (spawned w ++ [Process._command p]) w2))).
Proof.
  intros Hf Hcmd Hspawn ow ew w2 ends.
  rewrite (start_quiet spawn p w Hf). cbn zeta. fold ow ew w2.
  assert (Hclock : clock w2 = clock w)
    by (subst w2; destruct (Process._demux p), (Process._stderr p),
          (Process._stdout p); reflexivity).
  assert (Hsp : spawned w2 = spawned w)
    by (subst w2; destruct (Process._demux p), (Process._stderr p),
          (Process._stdout p); reflexivity).
  rewrite (Popen_new_run spawn _ ow ew _ _ w2 c Hcmd Hspawn).
  cbn zeta. rewrite Hclock, Hsp. reflexivity.
Qed.

(** Streams that go elsewhere bring nothing to a sink. *)
Lemma arrived_elsewhere target now (ss : list Stream) :
  Forall (fun s => s_sink s <> target) ss ->
  flat_map (fun s => if decide (s_sink s = target) then brought s now else [])
    ss = [].
Proof.
  induction 1 as [|s rest Hs _ IH]; [reflexivity|]. cbn.
  destruct (decide (s_sink s = target)); [contradiction | exact IH].
Qed.

Lemma opened_streams_elsewhere target path w :
  Forall (fun s => s_sink s <> ToFile path) (streams w) ->
  Forall (fun s => s_sink s <> ToFile path) (streams (opened target w)).
Proof.
  intros H. destruct target as [q|]; [|exact H]. cbn.
  apply Forall_forall. intros s Hin.
  apply list_elem_of_filter in Hin as [_ Hin].
  exact (proj1 (Forall_forall _ _) H s Hin).
Qed.

Lemma opened_streams path w :
  Forall (fun s => s_sink s <> ToFile path) (streams (opened (Some path) w)).
Proof.
  cbn. apply Forall_forall. intros s Hin.
  apply list_elem_of_filter in Hin as [Hne _]. exact Hne.
Qed.

Lemma opened_file target path w :
  dict_get (files w) path = Some [] ->
  dict_get (files (opened target w)) path = Some [].
Proof.
  intros H. destruct target as [q|]; [|exact H]. cbn.
  rewrite dict_get_set. destruct (decide (q = path)); [reflexivity | exact H].
Qed.



(** X8.  [start()] opens the files before it knows whether the command can
    be started.  When the system starts no child for the command, the call
    raises [CommandNotFound], and the file of the standard output is there,
    is empty, whatever it held and whatever a child of an earlier start
    wrote to it, and is still open; the instance has no handle and no waiter
    thread that would close it, and no command was started. *)
Theorem failed_start_leaves_the_file_open spawn p w path name rest :
  faults w = [] ->
  Process._stdout p = Some path ->
  Process._command p = name :: rest ->
  spawn (name :: rest) (env_of p w) (Process._working_dir p) = None ->
  exists p' w',
    Process.start spawn (p, w)
    = (Exc (CommandNotFound (not_found_message name)), (p', w')) /\
    dict_get (files w') path = Some [] /\
    path ∈ open_writers w' /\
    Process._process p' = Process._process p /\
    Process._wait_thread p' = Process._wait_thread p /\
    spawned w' = spawned w /\
    file_now path w' = Some [].
Proof.
  intros Hf Ho Hc Hspawn.
  rewrite (start_quiet spawn p w Hf). cbn zeta.
  unfold Process.Popen_new. rewrite Hc, Hspawn.
  set (w2 := if Process._demux p
             then opened (Process._stderr p) (opened (Process._stdout p) w)
             else opened (Process._stdout p) w).
  unfold raise. cbv beta iota.
  assert (Hfile : dict_get (files w2) path = Some []).
  { subst w2. rewrite Ho.
    assert (H1 : dict_get (files (opened (Some path) w)) path = Some [])
      by (cbn; rewrite dict_get_set;
          destruct (decide (path = path)); congruence).
    destruct (Process._demux p); [apply opened_file|]; exact H1. }
  assert (Hold : Forall (fun s => s_sink s <> ToFile path) (streams w2)).
  { subst w2. rewrite Ho.
    destruct (Process._demux p);
      [apply opened_streams_elsewhere|]; apply opened_streams. }
  assert (Hopen : path ∈ open_writers w2).
  { subst w2. rewrite Ho.
    destruct (Process._demux p); [destruct (Process._stderr p)|]; cbn;
      rewrite ?elem_of_cons; auto. }
  assert (Hsp : spawned w2 = spawned w)
    by (subst w2; destruct (Process._demux p), (Process._stderr p),
          (Process._stdout p); reflexivity).
  eexists _, _. split; [reflexivity|].
  split; [exact Hfile|]. split; [exact Hopen|].
  split; [reflexivity|]. split; [reflexivity|]. split; [exact Hsp|].
  unfold file_now, arrived. rewrite Hfile, (arrived_elsewhere _ _ _ Hold).
  reflexivity.
Qed.

Lemma failed_start_leaves_the_file_open_witness :
  let p := {| Process._command := ["/bin/tea"];
              Process._process := None;
              Process._wait_thread := None;
              Process._stdout := Some "/tmp/out"; Process._stderr := None;
              Process._demux := true;
              Process._stdout_writer := None;
              Process._stderr_writer := None;
              Process._working_dir := "/tmp";
              Process._environment := None;
              Process.encoding := "utf-8" |} in
  let w := set_files [("/tmp/out", String.list_byte_of_string "old")] world0 in
  exists p' w',
    Process.start sample_spawn (p, w)
    = (Exc (CommandNotFound (not_found_message "/bin/tea")), (p', w')) /\
    dict_get (files w') "/tmp/out" = Some [] /\
    "/tmp/out" ∈ open_writers w' /\
    Process._process p' = None /\
    Process._wait_thread p' = None /\
    spawned w' = [] /\
    file_now "/tmp/out" w' = Some [].
Proof.
  intros p w.
  apply (failed_start_leaves_the_file_open sample_spawn p w "/tmp/out"
           "/bin/tea" []); reflexivity.
Defined.

(** ** execute *)

Lemma exit_code_run p w h :
  Process._process p = Some h ->
  Process.exit_code (p, w)
  = (Ret (Process.returncode h (clock w)), (p, w)).
Proof.
  intros Hp. unfold Process.exit_code.
  rewrite (bind_Ret _ _ _ _ _ (is_running_run p w)).
  unfold alive. rewrite Hp.
  destruct (Process.returncode h (clock w)) eqn:Hr.
  - step. rewrite Hp. cbn. rewrite Hr. reflexivity.
  - reflexivity.
Qed.

(** The beginning of [eread()] with demux when the standard error is a
    pipe *)
Lemma eread_pipe_run decode p w h state :
  Process._demux p = true ->
  Process._stderr p = None ->
  Process._process p = Some h ->
  Process.p_stderr h = Some state ->
  Process.eread decode (p, w)
  = (data <~ Process.read_to_end state (Process.c_err (Process.p_child h))
               (bool_decide (Process.p_stdout h = Some Process.Unread)
                && negb (o_fits (Process.c_out (Process.p_child h))))
               (Process.set_p_stderr (Some Process.ReadToEnd)) h ;;
     enc <~ Process.self Process.encoding ;;
     Process.decode_as decode enc data) (p, w).
Proof.
  intros Hd He Hp Hs. unfold Process.eread.
  unfold bind at 1, Process.self at 1, gets. cbn [fst snd]. rewrite Hd.
  unfold bind at 1, Process.self at 1, gets. cbn [fst snd]. rewrite He.
  unfold bind at 1, Process.self at 1, gets. cbn [fst snd]. rewrite Hp.
  unfold bind at 1, deref at 1, ret at 1.
  rewrite Hs. unfold bind at 1, deref at 1, ret at 1. reflexivity.
Qed.

(** Reading a pipe of a child that has ended while a descendant of it holds
    the pipe open for ever: the call does not return. *)
Lemma read_to_end_held_open output held mark h p w t status :
  Process.p_exit h = Some (t, status) ->
  o_lingers output = None ->
  Process.read_to_end Process.Unread output held mark h (p, w)
  = (Blocked, (p, w)).
Proof.
  intros He Hl. unfold Process.read_to_end, Process.let_go.
  rewrite He. step. rewrite He, Hl. reflexivity.
Qed.

(** X9.  [execute(command)] when no system call fails and the system
    starts a child for the command.  It starts the child with pipes, waits
    for its end without reading them, and reads them then.  If the child
    ends by itself, writes no more than its pipes hold, and its descendants
    let go of the pipes, the call returns, given the fuel for its polls,
    a [Result] with the status of the child, never [None], with all that
    the child wrote to its standard output and, with [demux], to its
    standard error, not before the end of the child and of the pipes;
    without [demux] the standard error of the result is empty and the
    standard error of the child is a stream into the standard error of the
    caller.  One command was started, and nothing else changed but the
    clock.  If the child never ends, or writes more than a pipe holds, the
    call does not return, whatever the fuel: nobody reads the pipe while
    [execute] waits.  If the child ends but a descendant holds a pipe open
    for ever, the call does not return from the read. *)
Theorem execute_result abspath spawn decode enc command (demux : bool)
    environment working_dir w c :
  faults w = [] ->
  command <> [] ->
  spawn command
    match environment with
    | Some e => dict_update (environ w) e
    | None => environ w
    end
    match working_dir with
    | None | Some EmptyString => cwd w
    | Some d => d
    end = Some c ->
  (forall d status lo out err fuel,
     Process.c_lifetime c = Some (d, status) ->
     Process.held_up c (Some Process.PIPE)
       (if demux then Some Process.PIPE else None) = false ->
     d <= 100 * (Z.of_nat fuel - 1) -> (0 < fuel)%nat ->
     o_lingers (Process.c_out c) = Some lo ->
     decode enc (o_written (Process.c_out c) (d + Z.max 0 lo)) = Some out ->
     (demux = true ->
      exists le,
        o_lingers (Process.c_err c) = Some le /\
        decode enc (o_written (Process.c_err c) (d + Z.max 0 le))
        = Some err) ->
     exists t,
       Process.execute abspath spawn decode enc fuel command demux
         environment working_dir w
       = (Ret {| types.exit_code := Some status;
                 types.stdout := out;
                 types.stderr := if demux then err else EmptyString |},
          set_clock t
            (set_streams
               (streams w
                ++ (if demux then []
                    else [ {| s_sink := ToStderr; s_pid := Process.c_pid c;
                              s_started := clock w;
                              s_ends := Some (clock w + d);
                              s_output := Process.c_err c |} ]))
               (set_spawned (spawned w ++ [command]) w))) /\
       clock w <= t /\
       clock w + d + Z.max 0 lo <= t /\
       (demux = true ->
        forall le, o_lingers (Process.c_err c) = Some le ->
                   clock w + d + Z.max 0 le <= t)) /\
  (Process.c_lifetime c = None \/
   Process.held_up c (Some Process.PIPE)
     (if demux then Some Process.PIPE else None) = true ->
   forall fuel,
     (Process.execute abspath spawn decode enc fuel command demux
        environment working_dir w).1 = OutOfFuel) /\
  (forall d status fuel,
     Process.c_lifetime c = Some (d, status) ->
     Process.held_up c (Some Process.PIPE)
       (if demux then Some Process.PIPE else None) = false ->
     d <= 100 * (Z.of_nat fuel - 1) -> (0 < fuel)%nat ->
     o_lingers (Process.c_out c) = None ->
     (Process.execute abspath spawn decode enc fuel command demux
        environment working_dir w).1 = Blocked) /\
  (forall d status lo out fuel,
     Process.c_lifetime c = Some (d, status) ->
     Process.held_up c (Some Process.PIPE) (Some Process.PIPE) = false ->
     d <= 100 * (Z.of_nat fuel - 1) -> (0 < fuel)%nat ->
     o_lingers (Process.c_out c) = Some lo ->
     decode enc (o_written (Process.c_out c) (d + Z.max 0 lo)) = Some out ->
     demux = true ->
     o_lingers (Process.c_err c) = None ->
     (Process.execute abspath spawn decode enc fuel command demux
        environment working_dir w).1 = Blocked).
Proof.
  intros Hf Hcmd Hspawn.
  set (p0 := {| Process._command := command; Process._process := None;
                Process._wait_thread := None; Process._stdout := None;
                Process._stderr := None; Process._demux := demux;
                Process._stdout_writer := None;
                Process._stderr_writer := None;
                Process._working_dir := match working_dir with
                                        | None | Some EmptyString => cwd w
                                        | Some d => d
                                        end;
                Process._environment := environment;
                Process.encoding := enc |}).
  assert (Hexec : forall fuel,
            Process.execute abspath spawn decode enc fuel command demux
              environment working_dir w
            = let (r, s) :=
                (Process.start spawn ;;;
                 Process.wait fuel None ;;;
                 code <~ Process.exit_code ;;
                 out <~ Process.read decode ;;
                 err <~ Process.eread decode ;;
                 ret {| types.exit_code := code; types.stdout := out;
                        types.stderr := err |}) (p0, w) in
              (r, s.2)) by reflexivity.
  set (ew := if demux then Some Process.PIPE else None).
  set (h := handle_of c (Some Process.PIPE) ew (clock w)).
  set (p1 := Process.set__wait_thread (Some Process.WaitThread)
               (Process.set__process (Some h)
                  (Process.set__stderr_writer ew
                     (Process.set__stdout_writer (Some Process.PIPE) p0)))).
  set (w1 := set_streams
               (streams w
                ++ (if demux then []
                    else [ {| s_sink := ToStderr; s_pid := Process.c_pid c;
                              s_started := clock w;
                              s_ends := option_map fst (Process.p_exit h);
                              s_output := Process.c_err c |} ]))
               (set_spawned (spawned w ++ [command]) w)).
  assert (Hstart : Process.start spawn (p0, w) = (Ret tt, (p1, w1))).
  { rewrite (start_spawns spawn p0 w c Hf Hcmd Hspawn). cbn zeta.
    subst p1 w1 h ew. destruct demux; cbn; rewrite ?app_nil_r; reflexivity. }
  assert (Hp : Process._process p1 = Some h) by reflexivity.
  assert (Ho : Process._stdout p1 = None) by reflexivity.
  assert (Hpo : Process.p_stdout h = Some Process.Unread) by reflexivity.
  assert (Hwaited : forall d status fuel,
            Process.p_exit h = Some (clock w + d, status) ->
            d <= 100 * (Z.of_nat fuel - 1) -> (0 < fuel)%nat ->
            exists t,
              Process.wait_forever fuel (p1, w1)
              = (Ret true, (p1, set_clock t w1)) /\
              clock w <= t /\ clock w + d <= t).
  { intros d status fuel Hexit Hfuel Hpos.
    destruct (wait_forever_spec fuel p1 w1) as (r & t & Hrun & Hle & Hr).
    exists t. change (clock w1) with (clock w) in Hle, Hr.
    destruct r as [[|]| | |]; try contradiction.
    - destruct Hr as [Hr _].
      rewrite (alive_before p1 h _ status t Hp Hexit) in Hr.
      apply negb_false_iff, Z.leb_le in Hr.
      split; [exact Hrun|]. split; lia.
    - exfalso. destruct Hr as [Hc Hprev]. specialize (Hprev ltac:(lia)).
      rewrite (alive_before p1 h _ status _ Hp Hexit) in Hprev.
      apply negb_true_iff, Z.leb_gt in Hprev. lia. }
  assert (Hexit_of : forall d status,
            Process.c_lifetime c = Some (d, status) ->
            Process.held_up c (Some Process.PIPE) ew = false ->
            Process.p_exit h = Some (clock w + d, status)).
  { intros d status Hlife Hfits. subst h. cbn. unfold exit_of.
    rewrite Hlife, Hfits. reflexivity. }
  assert (Hread : forall d status lo t,
            Process.p_exit h = Some (clock w + d, status) ->
            o_lingers (Process.c_out c) = Some lo ->
            Process.read decode (p1, set_clock t w1)
            = (decoded decode enc
                 (o_written (Process.c_out c) (d + Z.max 0 lo)),
               (Process.set__process
                  (Some (Process.set_p_stdout (Some Process.ReadToEnd) h)) p1,
                set_clock (Z.max t (clock w + d + Z.max 0 lo)) w1))).
  { intros d status lo t Hexit Hlo.
    rewrite (read_pipe_run decode p1 _ h _ Ho Hp Hpo).
    erewrite bind_Ret
      by (apply (read_to_end_run _ _ _ _ _ _ (clock w + d) status lo);
          [exact Hexit | exact Hlo]).
    unfold bind at 1, Process.self at 1, gets. cbn [fst snd].
    rewrite decode_as_run.
    replace (clock w + d + Z.max 0 lo - Process.p_started h)
      with (d + Z.max 0 lo) by (subst h; cbn; lia).
    reflexivity. }
  split; [|split; [|split]].
  - intros d status lo out err fuel Hlife Hfits Hfuel Hpos Hlo Hdo Hde.
    pose proof (Hexit_of d status Hlife Hfits) as Hexit.
    destruct (Hwaited d status fuel Hexit Hfuel Hpos) as (t & Hrun & Ht0 & Ht).
    rewrite Hexec, (bind_Ret _ _ _ _ _ Hstart).
    unfold Process.wait. rewrite (bind_Ret _ _ _ _ _ Hrun).
    rewrite (bind_Ret _ _ _ _ _ (exit_code_run p1 _ h Hp)).
    pose proof (Hread d status lo t Hexit Hlo) as Hr.
    unfold decoded in Hr. rewrite Hdo in Hr.
    rewrite (bind_Ret _ _ _ _ _ Hr).
    unfold Process.returncode. rewrite Hexit. cbn [clock set_clock].
    replace (clock w + d <=? t) with true by (symmetry; apply Z.leb_le; lia).
    subst w1. rewrite Hexit. cbn [option_map fst].
    destruct demux.
    + destruct (Hde eq_refl) as (le & Hle & Hderr).
      erewrite bind_Ret.
      2:{ erewrite eread_pipe_run; [| reflexivity | reflexivity
                                    | reflexivity | reflexivity].
          erewrite bind_Ret
            by (apply (read_to_end_run _ _ _ _ _ _ (clock w + d) status le);
                [exact Hexit | exact Hle]).
          unfold bind at 1, Process.self at 1, gets. cbn [fst snd].
          rewrite decode_as_run. unfold decoded.
          cbn [Process.encoding Process.set__process Process.p_started
               Process.set_p_stdout].
          replace (clock w + d + Z.max 0 le - Process.p_started h)
            with (d + Z.max 0 le) by (subst h; cbn; lia).
          change (Process.encoding p1) with enc.
          change (Process.p_child
                    (Process.set_p_stdout (Some Process.ReadToEnd) h))
            with c.
          rewrite Hderr. reflexivity. }
      cbn. eexists. split; [reflexivity|].
      split; [lia|]. split; [lia|].
      intros _ le' Hle'. rewrite Hle in Hle'. injection Hle' as <-. lia.
    + unfold Process.eread. step. cbn.
      eexists. split; [reflexivity|].
      split; [lia|]. split; [lia|]. discriminate.
  - intros Hstuck fuel.
    assert (Hexit : Process.p_exit h = None).
    { subst h. cbn. unfold exit_of.
      destruct Hstuck as [-> | Hstuck]; [reflexivity|].
      fold ew in Hstuck. rewrite Hstuck.
      destruct (Process.c_lifetime c) as [[d status]|]; reflexivity. }
    rewrite Hexec, (bind_Ret _ _ _ _ _ Hstart).
    destruct (wait_forever_spec fuel p1 w1) as (r & t & Hrun & Hle & Hr).
    unfold Process.wait.
    destruct r as [[|]| | |]; try contradiction.
    + exfalso. destruct Hr as [Hr _].
      rewrite (alive_endless p1 h t Hp Hexit) in Hr. discriminate.
    + unfold bind at 1. rewrite Hrun. reflexivity.
  - intros d status fuel Hlife Hfits Hfuel Hpos Hlo.
    pose proof (Hexit_of d status Hlife Hfits) as Hexit.
    destruct (Hwaited d status fuel Hexit Hfuel Hpos) as (t & Hrun & Ht0 & Ht).
    rewrite Hexec, (bind_Ret _ _ _ _ _ Hstart).
    unfold Process.wait. rewrite (bind_Ret _ _ _ _ _ Hrun).
    rewrite (bind_Ret _ _ _ _ _ (exit_code_run p1 _ h Hp)).
    unfold bind at 1.
    rewrite (read_pipe_run decode p1 _ h _ Ho Hp Hpo).
    unfold bind at 1.
    rewrite (read_to_end_held_open _ _ _ _ _ _ _ _ Hexit Hlo).
    reflexivity.
  - intros d status lo out fuel Hlife Hfits Hfuel Hpos Hlo Hdo -> Hle.
    pose proof (Hexit_of d status Hlife Hfits) as Hexit.
    destruct (Hwaited d status fuel Hexit Hfuel Hpos) as (t & Hrun & Ht0 & Ht).
    rewrite Hexec, (bind_Ret _ _ _ _ _ Hstart).
    unfold Process.wait. rewrite (bind_Ret _ _ _ _ _ Hrun).
    rewrite (bind_Ret _ _ _ _ _ (exit_code_run p1 _ h Hp)).
    pose proof (Hread d status lo t Hexit Hlo) as Hr.
    unfold decoded in Hr. rewrite Hdo in Hr.
    rewrite (bind_Ret _ _ _ _ _ Hr).
    unfold bind at 1.
    erewrite eread_pipe_run; [| reflexivity | reflexivity
                                | reflexivity | reflexivity].
    unfold bind at 1.
    erewrite read_to_end_held_open; [reflexivity | exact Hexit | exact Hle].
Qed.

Lemma execute_result_witness :
  exists t,
    Process.execute sample_abspath sample_spawn sample_decode "utf-8" 2
      ["/bin/sh"; "-c"; "echo oops >&2"] false None None world0
    = (Ret {| types.exit_code := Some 0;
              types.stdout := EmptyString;
              types.stderr := EmptyString |},
       set_clock t
         (set_streams
            (streams world0
             ++ [ {| s_sink := ToStderr; s_pid := 4244;
                     s_started := clock world0;
                     s_ends := Some (clock world0 + 10);
                     s_output := writes oops_line 3 |} ])
            (set_spawned
               (spawned world0 ++ [["/bin/sh"; "-c"; "echo oops >&2"]])
               world0))) /\
    clock world0 <= t /\
    clock world0 + 10 + Z.max 0 0 <= t /\
    (false = true ->
     forall le, o_lingers (writes oops_line 3) = Some le ->
                clock world0 + 10 + Z.max 0 le <= t).
Proof.
  apply (proj1 (execute_result sample_abspath sample_spawn sample_decode
                  "utf-8" ["/bin/sh"; "-c"; "echo oops >&2"] false None None
                  world0 _ eq_refl ltac:(discriminate) eq_refl)
           10 0 0 EmptyString EmptyString 2%nat);
    [reflexivity | reflexivity | vm_compute; discriminate | lia
    | reflexivity | reflexivity | discriminate].
Defined.

(** ** The environment and the directory of the child *)

(** A child that [Popen] started is the one that the system gave for the
    arguments, and starting it changes neither the environment nor the
    working directory of this process. *)
Lemma Popen_new_Ret spawn args stdout stderr env dir w h w' :
  Process.Popen_new spawn args stdout stderr env dir w = (Ret h, w') ->
  exists c,
    spawn args env dir = Some c /\
    Process.p_pid h = Process.c_pid c /\
    environ w' = environ w /\ cwd w' = cwd w /\
    spawned w' = spawned w ++ [args].
Proof.
  unfold Process.Popen_new. destruct args as [|a rest]; [discriminate|].
  destruct (spawn (a :: rest) env dir) as [c|]; [|discriminate].
  intros H. exists c. split; [reflexivity|]. revert H.
  unfold Process.emit.
  destruct stdout as [[|out]|], stderr as [[|err]|]; step;
    intros [= <- <-]; repeat split.
Qed.

(** X10.  A child that [start()] started was given the command of the
    instance, its working directory, and the environment of this process
    with the variables of [environment] added: a variable that
    [environment] names has the value from there, every other one the value
    that this process has for it.  The environment and the working
    directory of this process itself are as they were. *)
Theorem start_passes_environment spawn p w p' w' :
  (forall e, Process._environment p = Some e -> NoDup (dict_keys e)) ->
  Process.start spawn (p, w) = (Ret tt, (p', w')) ->
  exists env c h,
    spawn (Process._command p) env (Process._working_dir p) = Some c /\
    Process._process p' = Some h /\
    Process.p_pid h = Process.c_pid c /\
    (forall k,
       dict_get env k
       = match Process._environment p with
         | Some e =>
             match dict_get e k with
             | Some v => Some v
             | None => dict_get (environ w) k
             end
         | None => dict_get (environ w) k
         end) /\
    environ w' = environ w /\ cwd w' = cwd w.
Proof.
  intros Hnd Hrun.
  destruct (start_run spawn p w) as (w1 & ok & Hsame & _ & Hstart).
  cbn zeta in Hstart. destruct ok.
  - rewrite Hstart in Hrun.
    destruct (Process.Popen_new _ _ _ _ _ _ _) as [[h|[]| |] w2] eqn:Hnew;
      try discriminate;
      try (destruct (Process._command p); discriminate).
    injection Hrun as <- <-.
    apply Popen_new_Ret in Hnew as (c & Hspawn & Hpid & Henv & Hcwd & _).
    exists (env_of p w1), c, h.
    split; [exact Hspawn|]. split; [reflexivity|]. split; [exact Hpid|].
    assert (He1 : environ w1 = environ w)
      by (apply same_but_files_environ; exact Hsame).
    assert (Hc1 : cwd w1 = cwd w) by (rewrite Hsame; reflexivity).
    split; [|split; congruence].
    intros k. unfold env_of. rewrite He1.
    destruct (Process._environment p) as [e|] eqn:He; [|reflexivity].
    apply dict_get_update, Hnd. reflexivity.
  - destruct Hstart as (p1 & Hstart & _). rewrite Hstart in Hrun.
    discriminate.
Qed.

Lemma start_passes_environment_witness :
  let p := {| Process._command := ["/bin/sleep"; "5"];
              Process._process := None;
              Process._wait_thread := None;
              Process._stdout := None; Process._stderr := None;
              Process._demux := true;
              Process._stdout_writer := None;
              Process._stderr_writer := None;
              Process._working_dir := "/tmp";
              Process._environment := Some [("LANG", "C"); ("PATH", "/usr/bin")];
              Process.encoding := "utf-8" |} in
  let s := (Process.start sample_spawn (p, world0)).2 in
  exists env c h,
    sample_spawn ["/bin/sleep"; "5"] env "/tmp" = Some c /\
    Process._process s.1 = Some h /\
    Process.p_pid h = Process.c_pid c /\
    (forall k,
       dict_get env k
       = match dict_get [("LANG", "C"); ("PATH", "/usr/bin")] k with
         | Some v => Some v
         | None => dict_get (environ world0) k
         end) /\
    environ s.2 = environ world0 /\ cwd s.2 = cwd world0.
Proof.
  intros p s.
  apply (start_passes_environment sample_spawn p world0 s.1 s.2).
  - intros e [= <-]. apply (bool_decide_unpack _). vm_compute. exact I.
  - vm_compute. reflexivity.
Defined.

(** ** pushd: the lock, and a directory that is gone *)

(** Leaving the scope when the directory to go back to is not there. *)
Lemma pushd_left_gone {A} (block : M World A) back w_in r wb :
  block w_in = (r, wb) ->
  ended r ->
  back ∉ dirs wb ->
  try_finally (try_finally block (chdir back)) decorators.release w_in
  = (Exc OSError, set_pushd_lock (Nat.pred (pushd_lock wb)) wb).
Proof.
  intros Hb He Hgone.
  assert (Hinner : try_finally block (chdir back) w_in = (Exc OSError, wb)).
  { unfold try_finally. rewrite Hb.
    destruct r as [a|e| |]; try contradiction;
      rewrite (bind_Exc _ _ _ _ _ (chdir_missing back wb Hgone));
      reflexivity. }
  unfold try_finally at 1. rewrite Hinner. reflexivity.
Qed.

(** X11.  [with pushd(path, create): block] holds the lock while the block
    runs and gives it back however the scope ends: when the scope is not
    entered, when the block ends with a value or with an exception, and
    when the directory cannot be restored.  This last case is the one in
    which the directory that was recorded at the entry is gone when the
    block ends: then [pushd] raises [OSError] in place of what the block
    ended with, and the working directory stays where the block left it. *)
Theorem pushd_lock_and_lost_directory abspath {A} path create
    (block : M World A) w :
  (entry (abspath (cwd w) path) create w = None ->
   exists w',
     contexts.pushd abspath path create block w = (Exc OSError, w') /\
     pushd_lock w' = pushd_lock w) /\
  (forall w_in,
     entry (abspath (cwd w) path) create w = Some w_in ->
     pushd_lock w_in = S (pushd_lock w) /\
     forall r wb,
       block w_in = (r, wb) -> ended r ->
       pushd_lock wb = pushd_lock w_in ->
       exists w',
         contexts.pushd abspath path create block w
         = (if decide (cwd w ∈ dirs wb) then r else Exc OSError, w') /\
         pushd_lock w' = pushd_lock w /\
         cwd w' = (if decide (cwd w ∈ dirs wb) then cwd w else cwd wb)).
Proof.
  split.
  - intros H.
    destruct (pushd_not_entered abspath path create block w H)
      as (w' & Hrun & _ & _ & Hlock).
    exists w'. split; assumption.
  - intros w_in H.
    destruct (pushd_entered abspath path create block w w_in H) as [_ Hrun].
    assert (Hlock : pushd_lock w_in = S (pushd_lock w)).
    { revert H. unfold entry.
      destruct (decide (abspath (cwd w) path ∈ dirs w));
        [intros [= <-]; reflexivity|].
      destruct create; [|discriminate].
      destruct (faults w) as [|[] rest]; try discriminate;
        intros [= <-]; reflexivity. }
    split; [exact Hlock|]. intros r wb Hb He Hkept. rewrite Hrun.
    destruct (decide (cwd w ∈ dirs wb)) as [Hin|Hgone].
    + rewrite (pushd_left block (cwd w) w_in r wb Hb He Hin).
      eexists. split; [reflexivity|]. cbn. rewrite Hkept, Hlock.
      split; reflexivity.
    + rewrite (pushd_left_gone block (cwd w) w_in r wb Hb He Hgone).
      eexists. split; [reflexivity|]. cbn. rewrite Hkept, Hlock.
      split; reflexivity.
Qed.

Lemma pushd_lock_and_lost_directory_witness :
  let block : M World unit :=
    modify (fun w => set_dirs (filter (fun d => d <> "/home/tea") (dirs w)) w)
  in
  exists w',
    contexts.pushd sample_abspath "/tmp" false block world0
    = (Exc OSError, w') /\
    pushd_lock w' = 0%nat /\ cwd w' = "/tmp".
Proof.
  intros block.
  destruct (proj2 (pushd_lock_and_lost_directory sample_abspath "/tmp" false
                     block world0)
              (set_cwd "/tmp" (set_pushd_lock 1 world0)) eq_refl)
    as [_ Hscope].
  apply (Hscope (Ret tt)
           (set_dirs ["/tmp"] (set_cwd "/tmp" (set_pushd_lock 1 world0)))
           eq_refl I eq_refl).
Defined.

(** ** write: the newline *)




(** ** command_line *)

Lemma quote_items_run items w :
  Command.quote_items items w
  = (match strings items with
     | Some tokens => Ret (map shown tokens)
     | None => Exc TypeError
     end, w).
Proof.
  induction items as [|[| |s] rest IH]; try reflexivity.
  cbn [Command.quote_items strings Command.quote_item].
  unfold bind at 1, ret at 1. unfold bind at 1. rewrite IH.
  destruct (strings rest); reflexivity.
Qed.

Lemma split_spaces_token token :
  Command.has_space token = false -> split_spaces token = [token].
Proof.
  induction token as [|c rest IH]; [reflexivity|]. cbn.
  destruct (decide (c = Command.space)); [discriminate|].
  intros H. rewrite (IH H). reflexivity.
Qed.

Lemma split_spaces_app token line :
  Command.has_space token = false ->
  split_spaces (token +:+ String Command.space line)
  = token :: split_spaces line.
Proof.
  induction token as [|c rest IH].
  - intros _.
    change (split_spaces (String Command.space line)
            = EmptyString :: split_spaces line).
    cbn [split_spaces].
    destruct (decide (Command.space = Command.space));
      [reflexivity | congruence].
  - change (Command.has_space (String c rest) = false ->
            split_spaces (String c (rest +:+ String Command.space line))
            = String c rest :: split_spaces line).
    cbn [split_spaces Command.has_space].
    destruct (decide (c = Command.space)); [discriminate|].
    intros H. rewrite (IH H). reflexivity.
Qed.

Lemma split_spaces_concat tokens :
  tokens <> [] ->
  Forall (fun token => Command.has_space token = false) tokens ->
  split_spaces (String.concat " " tokens) = tokens.
Proof.
  induction tokens as [|t rest IH]; [congruence|]. intros _ Hall.
  apply Forall_cons in Hall as [Ht Hrest].
  destruct rest as [|t' rest'].
  - cbn. apply split_spaces_token, Ht.
  - change (String.concat " " (t :: t' :: rest'))
      with (t +:+ String Command.space (String.concat " " (t' :: rest'))).
    rewrite (split_spaces_app _ _ Ht), IH by (congruence || exact Hrest).
    reflexivity.
Qed.

Lemma render_kwargs_grow sep prefix kwargs :
  forall command,
    exists more,
      fold_left (Command.render_kwarg sep prefix) kwargs command
      = (command ++ more)%list.
Proof.
  induction kwargs as [|[key value] rest IH]; intros command; cbn.
  - exists []. rewrite app_nil_r. reflexivity.
  - destruct (decide (sep = VStr " "));
      match goal with |- context [fold_left _ rest ?c] =>
        destruct (IH c) as (more & ->) end;
      rewrite <- List.app_assoc; eexists; reflexivity.
Qed.

Lemma command_list_not_empty self w items w' :
  Command.command_list self w = (Ret items, w') -> items <> [].
Proof.
  unfold Command.command_list. intros H.
  do 6 (apply bind_Ret_inv in H as (? & ? & _ & H)).
  revert H. unfold ret. intros [= <- _].
  match goal with |- fold_left (Command.render_kwarg ?s ?p) ?k (?c :: ?a) <> [] =>
    destruct (render_kwargs_grow s p k (c :: a)) as (more & ->) end.
  discriminate.
Qed.

Lemma shown_plain tokens :
  Forall (fun token => Command.has_space token = false) tokens ->
  map shown tokens = tokens.
Proof.
  induction 1 as [|t rest Ht _ IH]; [reflexivity|].
  cbn. rewrite IH. unfold shown. rewrite Ht. reflexivity.
Qed.

(** X13.  [command_line] is the tokens of [command_list] with single spaces
    between them, a token that holds a space being put in double quotes; an
    item that is not a string makes it raise [TypeError].  When no token
    holds a space, the line is the tokens as they are, and splitting it at
    the spaces gives the tokens back. *)
Theorem command_line_joins_tokens self w items w' :
  Command.command_list self w = (Ret items, w') ->
  Command.command_line self w
  = (match strings items with
     | Some tokens => Ret (String.concat " " (map shown tokens))
     | None => Exc TypeError
     end, w') /\
  (forall tokens,
     strings items = Some tokens ->
     Forall (fun token => Command.has_space token = false) tokens ->
     Command.command_line self w = (Ret (String.concat " " tokens), w') /\
     split_spaces (String.concat " " tokens) = tokens).
Proof.
  intros Hlist.
  assert (Hline :
    Command.command_line self w
    = (match strings items with
       | Some tokens => Ret (String.concat " " (map shown tokens))
       | None => Exc TypeError
       end, w')).
  { unfold Command.command_line.
    rewrite (bind_Ret _ _ _ _ _ Hlist).
    unfold bind. rewrite quote_items_run.
    destruct (strings items); reflexivity. }
  split; [exact Hline|]. intros tokens Hs Hplain.
  rewrite Hline, Hs, (shown_plain tokens Hplain).
  split; [reflexivity|].
  apply split_spaces_concat; [|exact Hplain].
  intros ->. apply (command_list_not_empty self w items w' Hlist).
  destruct items as [|[| |s] rest]; [reflexivity | discriminate..|].
  cbn in Hs. destruct (strings rest); discriminate.
Qed.

Lemma command_line_joins_tokens_witness :
  Command.command_line 8%nat world_ls_l
  = (Ret "/bin/ls -l --key value", world_ls_l) /\
  split_spaces "/bin/ls -l --key value"
  = ["/bin/ls"; "-l"; "--key"; "value"].
Proof.
  apply (proj2 (command_line_joins_tokens 8%nat world_ls_l
                  [VStr "/bin/ls"; VStr "-l"; VStr "--key"; VStr "value"]
                  world_ls_l eq_refl)
           ["/bin/ls"; "-l"; "--key"; "value"] eq_refl).
  repeat constructor.
Defined.

Lemma strings_app a b :
  strings (a ++ b)
  = match strings a, strings b with
    | Some x, Some y => Some (x ++ y)
    | _, _ => None
    end.
Proof.
  induction a as [|[| |s] rest IH]; cbn; try reflexivity.
  - destruct (strings b); reflexivity.
  - rewrite IH. destruct (strings rest), (strings b); reflexivity.
Qed.

Lemma strings_map names : strings (map VStr names) = Some names.
Proof.
  induction names as [|n rest IH]; [reflexivity|]. cbn. rewrite IH.
  reflexivity.
Qed.

Lemma strings_other items value :
  value ∈ items -> (forall s, value <> VStr s) -> strings items = None.
Proof.
  intros Hin Hv. induction items as [|item rest IH].
  - apply elem_of_nil in Hin. contradiction.
  - apply elem_of_cons in Hin as [<-|Hin].
    + destruct value as [| |s]; try reflexivity. destruct (Hv s eq_refl).
    + destruct item as [| |s]; try reflexivity. cbn.
      rewrite (IH Hin). reflexivity.
Qed.

Lemma render_kwargs_space prefix kwargs :
  forall command,
    fold_left (Command.render_kwarg (VStr " ") prefix) kwargs command
    = (command
       ++ flat_map (fun item => [VStr (pystr prefix +:+ item.1); item.2])
            kwargs)%list.
Proof.
  induction kwargs as [|[key value] rest IH]; intros command; cbn.
  - rewrite app_nil_r. reflexivity.
  - destruct (decide (VStr " " = VStr " ")) as [_|N]; [|congruence].
    rewrite IH, <- List.app_assoc. reflexivity.
Qed.

Lemma render_kwargs_other sep prefix kwargs :
  sep <> VStr " " ->
  forall command,
    fold_left (Command.render_kwarg sep prefix) kwargs command
    = (command
       ++ map (fun item =>
                 VStr (pystr prefix +:+ item.1 +:+ pystr sep
                       +:+ pystr item.2))
            kwargs)%list.
Proof.
  intros Hsep. induction kwargs as [|[key value] rest IH]; intros command; cbn.
  - rewrite app_nil_r. reflexivity.
  - destruct (decide (sep = VStr " ")) as [E|_]; [congruence|].
    rewrite IH, <- List.app_assoc. reflexivity.
Qed.

(** X14.  A named argument whose value is not a string, such as the [True]
    of a flag: with the separator [" "], which is the default, the value
    goes into the argument vector as it is, so [command_list] returns and
    [command_line] raises [TypeError].  With any other separator every
    named argument is formatted into one string, and [command_line] returns
    whenever the positional arguments are strings. *)
Theorem command_line_of_flags w self c args kwargs options prefix :
  is_command (heap w) self c args kwargs options ->
  dict_get options "kwargs_prefix" = Some prefix ->
  (dict_get options "kwargs_sep" = Some (VStr " ") ->
   forall key value,
     (key, value) ∈ kwargs -> (forall s, value <> VStr s) ->
     (exists items,
        Command.command_list self w = (Ret items, w) /\ value ∈ items) /\
     Command.command_line self w = (Exc TypeError, w)) /\
  (forall sep names,
     dict_get options "kwargs_sep" = Some sep -> sep <> VStr " " ->
     args = map VStr names ->
     Command.command_line self w
     = (Ret (String.concat " "
               (map shown
                  (command c :: names
                   ++ map (fun item =>
                             pystr prefix +:+ item.1 +:+ pystr sep
                             +:+ pystr item.2) kwargs))), w)).
Proof.
  intros Hcmd Hprefix. split.
  - intros Hsep key value Hin Hv.
    pose proof (command_list_run _ _ _ _ _ _ _ _ Hcmd Hsep Hprefix) as Hlist.
    rewrite render_kwargs_space in Hlist.
    assert (Hitem :
      value ∈ (VStr (command c) :: args)
              ++ flat_map (fun item => [VStr (pystr prefix +:+ item.1); item.2])
                   kwargs).
    { apply elem_of_app. right. apply list_elem_of_In, in_flat_map.
      exists (key, value). split; [apply list_elem_of_In, Hin|].
      right. left. reflexivity. }
    split; [eexists; split; [exact Hlist | exact Hitem]|].
    unfold Command.command_line. rewrite (bind_Ret _ _ _ _ _ Hlist).
    unfold bind. rewrite quote_items_run, (strings_other _ value Hitem Hv).
    reflexivity.
  - intros sep names Hsep Hne ->.
    pose proof (command_list_run _ _ _ _ _ _ _ _ Hcmd Hsep Hprefix) as Hlist.
    rewrite (render_kwargs_other sep prefix kwargs Hne) in Hlist.
    unfold Command.command_line. rewrite (bind_Ret _ _ _ _ _ Hlist).
    unfold bind. rewrite quote_items_run.
    change (VStr (command c) :: map VStr names)
      with (map VStr (command c :: names)).
    rewrite strings_app, strings_map.
    rewrite <- (map_map (fun item : string * pyval =>
                           pystr prefix +:+ item.1 +:+ pystr sep
                           +:+ pystr item.2) VStr), strings_map.
    reflexivity.
Qed.

Lemma command_line_of_flags_witness :
  let w := (Command.bake sample_which ls [] [("all", VBool true)] world_ls).2 in
  (exists items,
     Command.command_list 8%nat w = (Ret items, w) /\ VBool true ∈ items) /\
  Command.command_line 8%nat w = (Exc TypeError, w).
Proof.
  intros w.
  apply (proj1 (command_line_of_flags w 8%nat baked [] [("all", VBool true)]
                  Command.DEFAULT_OPTIONS (VStr "--")
                  ltac:(repeat split) eq_refl)
           eq_refl "all" (VBool true)).
  - left.
  - discriminate.
Defined.

(** ** Calling a command *)

Lemma strings_head found rest argv :
  strings (VStr found :: rest) = Some argv ->
  exists tail, argv = found :: tail.
Proof.
  cbn. destruct (strings rest) as [ss|]; [|discriminate].
  intros [= <-]. eexists. reflexivity.
Qed.

(** X15.  [C( *args, **kwargs)], for a command [C] whose executable still
    resolves: the argument vector is that of [C.bake( *args, **kwargs)],
    which is the executable, the arguments of [C] and of the call, and the
    merged named arguments as the merged separator and prefix render them.
    When its items are all strings and the system starts a child for it,
    the call returns a [Process] that is started with this vector, in the
    working directory and with the environment of this process, with pipes
    for both streams, both unread, and with [demux]; nothing else of the
    options of [C] or of the call plays a part.  No file is touched, no
    stream of the child goes elsewhere than into the pipes, one command is
    started, and [C] is as it was. *)
Theorem call_runs_the_baked_vector which abspath spawn enc w self c args
    kwargs options new_args new_kwargs found sep prefix argv child :
  is_command (heap w) self c args kwargs options ->
  which (command c)
    (match search_paths c with
     | None => None
     | Some sp => Some (Command.pathsep_join sp)
     end) = Some found ->
  NoDup (dict_keys new_kwargs) ->
  dict_get (dict_update options (overrides new_kwargs)) "kwargs_sep"
  = Some sep ->
  dict_get (dict_update options (overrides new_kwargs)) "kwargs_prefix"
  = Some prefix ->
  strings (fold_left (Command.render_kwarg sep prefix)
             (dict_update kwargs (named new_kwargs))
             (VStr found :: args ++ new_args)) = Some argv ->
  spawn argv (environ w) (cwd w) = Some child ->
  exists p h w',
    __call__ which abspath spawn enc self new_args new_kwargs w
    = (Ret p, w') /\
    Process._command p = argv /\
    Process._stdout p = None /\ Process._stderr p = None /\
    Process._demux p = true /\
    Process._working_dir p = cwd w /\
    Process._process p = Some h /\
    Process.p_pid h = Process.c_pid child /\
    Process.p_child h = child /\
    Process.p_stdout h = Some Process.Unread /\
    Process.p_stderr h = Some Process.Unread /\
    spawned w' = spawned w ++ [argv] /\
    files w' = files w /\ open_writers w' = open_writers w /\
    streams w' = streams w /\
    is_command (heap w') self c args kwargs options.
Proof.
  intros Hcmd Hwhich Hnd Hsep Hprefix Hargv Hspawn.
  pose proof (bake_run which w self c args kwargs options new_args new_kwargs
                found Hcmd Hwhich) as Hbake.
  cbn zeta in Hbake. rewrite (split_options_bake _ Hnd) in Hbake.
  cbn [fst snd] in Hbake.
  unfold __call__. rewrite (bind_Ret _ _ _ _ _ Hbake).
  match type of Hbake with _ = (_, ?w1) => set (wb := w1) in * end.
  assert (Hnew : is_command (heap wb) (length (heap w) + 4)%nat
                   {| command := found; search_paths := search_paths c;
                      _options := (length (heap w) + 10)%nat;
                      _args := (length (heap w) + 7)%nat;
                      _kwargs := (length (heap w) + 9)%nat |}
                   (args ++ new_args)
                   (dict_update kwargs (named new_kwargs))
                   (dict_update options (overrides new_kwargs))).
  { unfold is_command, wb. cbn [heap set_heap _options _args _kwargs].
    repeat split; rewrite lookup_new; reflexivity. }
  rewrite (bind_Ret _ _ _ _ _
             (command_list_run _ _ _ _ _ _ _ _ Hnew Hsep Hprefix)).
  cbn [command]. rewrite Hargv.
  destruct (render_kwargs_grow sep prefix
              (dict_update kwargs (named new_kwargs))
              (VStr found :: args ++ new_args)) as (more & Hgrow).
  rewrite Hgrow in Hargv. apply strings_head in Hargv as (tail & ->).
  unfold Process.__init__, getcwd. step.
  unfold Process.start, Process.open_writer, Process.command,
    Process._create_env, try_except_OSError, Process.Popen_new, Process.emit.
  step. rewrite Hspawn. cbn.
  eexists _, _, _. split; [reflexivity|]. cbn.
  repeat split.
  - destruct Hcmd as (Hc & _). apply lookup_old. exact Hc.
  - destruct Hcmd as (_ & Ha & _). apply lookup_old. exact Ha.
  - destruct Hcmd as (_ & _ & Hk & _). apply lookup_old. exact Hk.
  - destruct Hcmd as (_ & _ & _ & Ho). apply lookup_old. exact Ho.
Qed.

Lemma call_runs_the_baked_vector_witness :
  let child := {| Process.c_pid := 4245; Process.c_pgid := 4245;
                  Process.c_lifetime := Some (10, 0);
                  Process.c_sigkill_latency := 20;
                  Process.c_resume := 0;
                  Process.c_out :=
                    writes (String.list_byte_of_string "total 0") 0;
                  Process.c_err := silent |} in
  let spawn := fun (_ : list string) (_ : dict string) (_ : string) =>
                 Some child in
  exists p w',
    __call__ sample_which sample_abspath spawn "utf-8" ls [VStr "-l"]
      [("_out", VStr "/tmp/out")] world_ls = (Ret p, w') /\
    Process._command p = ["/bin/ls"; "-l"] /\
    Process._stdout p = None /\
    files w' = files world_ls.
Proof.
  intros child spawn.
  destruct (call_runs_the_baked_vector sample_which sample_abspath spawn
              "utf-8" world_ls ls
              {| command := "/bin/ls"; search_paths := None;
                 _options := 0%nat; _args := 1%nat; _kwargs := 2%nat |}
              [] [] Command.DEFAULT_OPTIONS [VStr "-l"]
              [("_out", VStr "/tmp/out")] "/bin/ls" (VStr " ") (VStr "--")
              ["/bin/ls"; "-l"] child)
    as (p & h & w' & Hrun & Hc & Ho & _ & _ & _ & _ & _ & _ & _ & _ & _ & Hf
        & _).
  - repeat split.
  - reflexivity.
  - apply (bool_decide_unpack _). vm_compute. exact I.
  - reflexivity.
  - reflexivity.
  - reflexivity.
  - reflexivity.
  - exists p, w'. exact (conj Hrun (conj Hc (conj Ho Hf))).
Defined.

(** ** Making a command, and making it again *)

Lemma init_run which name search_paths w found :
  which name
    (match search_paths with
     | None => None
     | Some sp => Some (Command.pathsep_join sp)
     end) = Some found ->
  Command.__init__ which name search_paths w
  = (Ret (length (heap w) + 3)%nat,
     set_heap
       (heap w ++ [ ODict Command.DEFAULT_OPTIONS; OList []; ODict [];
                    OCommand {| command := found;
                                search_paths := search_paths;
                                _options := (length (heap w) + 0)%nat;
                                _args := (length (heap w) + 1)%nat;
                                _kwargs := (length (heap w) + 2)%nat |} ])
       w).
Proof.
  intros Hwhich. unfold Command.__init__. rewrite Hwhich.
  unfold alloc. step.
  rewrite !length_app. cbn [length]. rewrite <- !List.app_assoc. cbn [app].
  replace (length (heap w) + 1 + 1 + 1)%nat with (length (heap w) + 3)%nat
    by lia.
  replace (length (heap w) + 1 + 1)%nat with (length (heap w) + 2)%nat
    by lia.
  rewrite <- (Nat.add_0_r (length (heap w))) at 2.
  reflexivity.
Qed.

(** X16.  [Command(command, search_paths)] for a name that resolves makes
    four objects and changes none that was there.  The new command holds
    the file that the name resolved to, not the name, no arguments, no
    named arguments and the default options in a dict of its own; its
    [command_list] is that one file and its [command_line] is the file, in
    double quotes when its path holds a space. *)
Theorem init_builds_a_fresh_command which name search_paths w found :
  which name
    (match search_paths with
     | None => None
     | Some sp => Some (Command.pathsep_join sp)
     end) = Some found ->
  exists self c w',
    Command.__init__ which name search_paths w = (Ret self, w') /\
    (forall l o, heap w !! l = Some o -> heap w' !! l = Some o) /\
    (length (heap w) <= _options c)%nat /\
    w' = set_heap (heap w') w /\
    command c = found /\
    is_command (heap w') self c [] [] Command.DEFAULT_OPTIONS /\
    Command.command_list self w' = (Ret [VStr found], w') /\
    Command.command_line self w' = (Ret (shown found), w').
Proof.
  intros Hwhich. rewrite (init_run which name search_paths w found Hwhich).
  eexists _, {| command := found; search_paths := search_paths;
                _options := (length (heap w) + 0)%nat;
                _args := (length (heap w) + 1)%nat;
                _kwargs := (length (heap w) + 2)%nat |}, _.
  split; [reflexivity|]. cbn [heap set_heap].
  split; [intros l o Hl; apply lookup_old; exact Hl|].
  split; [cbn; lia|]. split; [reflexivity|]. split; [reflexivity|].
  match goal with |- is_command ?h ?l ?c _ _ _ /\ _ =>
    assert (Hcmd : is_command h l c [] [] Command.DEFAULT_OPTIONS)
  end.
  { unfold is_command. cbn [_options _args _kwargs].
    repeat split; rewrite lookup_new; reflexivity. }
  split; [exact Hcmd|].
  match goal with |- Command.command_list ?l ?w1 = _ /\ _ =>
    assert (Hlist : Command.command_list l w1 = (Ret [VStr found], w1))
      by exact (command_list_run w1 l _ [] [] Command.DEFAULT_OPTIONS
                  (VStr " ") (VStr "--") Hcmd eq_refl eq_refl)
  end.
  split; [exact Hlist|].
  unfold Command.command_line. rewrite (bind_Ret _ _ _ _ _ Hlist).
  reflexivity.
Qed.

Lemma init_builds_a_fresh_command_witness :
  exists self c w',
    Command.__init__ sample_which "ls" (Some ["/bin"; "/usr/bin"]) world_ls
    = (Ret self, w') /\
    command c = "/bin/ls" /\
    is_command (heap w') self c [] [] Command.DEFAULT_OPTIONS /\
    Command.command_line self w' = (Ret "/bin/ls", w').
Proof.
  destruct (init_builds_a_fresh_command sample_which "ls"
              (Some ["/bin"; "/usr/bin"]) world_ls "/bin/ls" eq_refl)
    as (self & c & w' & H1 & _ & _ & _ & H2 & H3 & _ & H4).
  exists self, c, w'. exact (conj H1 (conj H2 (conj H3 H4))).
Defined.

(** X17.  [bake] looks the executable up again, by the path that it
    resolved to and on the search paths of the command.  When it no longer
    resolves, [bake] raises [CommandNotFound] with that path, whatever the
    arguments; the command is as it was, and the dict of the keyword
    arguments of the call is all that was made. *)
Theorem bake_resolves_again which w self c args kwargs options new_args
    new_kwargs :
  is_command (heap w) self c args kwargs options ->
  which (command c)
    (match search_paths c with
     | None => None
     | Some sp => Some (Command.pathsep_join sp)
     end) = None ->
  Command.bake which self new_args new_kwargs w
  = (Exc (CommandNotFound (command c)),
     set_heap (heap w ++ [ODict new_kwargs]) w) /\
  is_command (heap w ++ [ODict new_kwargs]) self c args kwargs options.
Proof.
  intros Hcmd Hwhich. split.
  - destruct Hcmd as (Hc & _).
    unfold Command.bake, alloc, load_command, Command.__init__. step.
    rewrite (lookup_old _ _ _ _ Hc). cbn. rewrite Hwhich. reflexivity.
  - destruct Hcmd as (Hc & Ha & Hk & Ho).
    repeat split; apply lookup_old; assumption.
Qed.

Lemma bake_resolves_again_witness :
  Command.bake (fun _ _ => None) ls [VStr "-l"] [("key", VStr "value")]
    world_ls
  = (Exc (CommandNotFound "/bin/ls"),
     set_heap (heap world_ls ++ [ODict [("key", VStr "value")]]) world_ls) /\
  is_command (heap world_ls ++ [ODict [("key", VStr "value")]]) ls
    {| command := "/bin/ls"; search_paths := None;
       _options := 0%nat; _args := 1%nat; _kwargs := 2%nat |}
    [] [] Command.DEFAULT_OPTIONS.
Proof.
  apply (bake_resolves_again (fun _ _ => None) world_ls ls
           {| command := "/bin/ls"; search_paths := None;
              _options := 0%nat; _args := 1%nat; _kwargs := 2%nat |}
           [] [] Command.DEFAULT_OPTIONS [VStr "-l"]
           [("key", VStr "value")]).
  - repeat split.
  - reflexivity.
Defined.

(** ** The command of a process *)

(** X18.  [command] and [arguments] split the vector of the instance: the
    first item and the rest.  On an empty vector [arguments] is empty and
    [command] raises [IndexError]; [start()] then raises [IndexError] too,
    not [CommandNotFound], once it has set up its writers, and starts
    nothing. *)
Theorem command_and_arguments spawn p w :
  (forall name rest,
     Process._command p = name :: rest ->
     Process.command (p, w) = (Ret name, (p, w)) /\
     Process.arguments (p, w) = (Ret rest, (p, w))) /\
  (Process._command p = [] ->
   Process.command (p, w) = (Exc IndexError, (p, w)) /\
   Process.arguments (p, w) = (Ret [], (p, w)) /\
   (faults w = [] ->
    exists p' w',
      Process.start spawn (p, w) = (Exc IndexError, (p', w')) /\
      Process._process p' = Process._process p /\
      Process._stdout_writer p' = Some (writer_for (Process._stdout p)) /\
      spawned w' = spawned w)).
Proof.
  split.
  - intros name rest Hc. unfold Process.command, Process.arguments. step.
    rewrite Hc. split; reflexivity.
  - intros Hc. split; [|split].
    + unfold Process.command. step. rewrite Hc. reflexivity.
    + unfold Process.arguments. step. rewrite Hc. reflexivity.
    + intros Hf. rewrite (start_quiet spawn p w Hf). cbn zeta.
      unfold Process.Popen_new. rewrite Hc. cbn.
      eexists _, _. split; [reflexivity|]. cbn.
      split; [reflexivity|]. split; [reflexivity|].
      destruct (Process._demux p), (Process._stderr p), (Process._stdout p);
        reflexivity.
Qed.

Lemma command_and_arguments_witness :
  let p := sample_process [] true in
  Process.command (p, world0) = (Exc IndexError, (p, world0)) /\
  Process.arguments (p, world0) = (Ret [], (p, world0)) /\
  exists p' w',
    Process.start sample_spawn (p, world0) = (Exc IndexError, (p', w')) /\
    Process._process p' = None /\
    Process._stdout_writer p' = Some Process.PIPE /\
    spawned w' = [].
Proof.
  intros p.
  destruct (proj2 (command_and_arguments sample_spawn p world0) eq_refl)
    as (H1 & H2 & H3).
  exact (conj H1 (conj H2 (H3 eq_refl))).
Defined.
